(** * CryptoClipboard: the clipboard monitor and its encryption engine

    A shallow embedding of [src/crypto_manager.py], [src/clipboard_manager.py]
    and of the duration gates of [cli_main.py] and [src/config_manager.py].

    Python [str] values are lists of code points, [bytes] values are lists of
    [Byte.byte].  Exceptions are values of [result].  The object state of
    [ClipboardManager] and the operating-system clipboard are threaded
    explicitly through a small state-and-exception monad. *)

From Stdlib Require Import NArith ZArith List Bool Lia ZifyBool.
From Stdlib.Strings Require Import Byte String.
Import ListNotations.

Local Open Scope N_scope.

(** [length] is the length of a list throughout. *)
Abbreviation length := Datatypes.length.

(** ** Bytes and strings *)

Definition bytes := list byte.

(** A Python [str]: a sequence of code points, each at most U+10FFFF. *)
Definition str := list N.

(** The C cast [(unsigned char) n]. *)
Definition byte_of (n : N) : byte :=
  match Byte.of_N (n mod 256) with
  | Some b => b
  | None => x00
  end.

(** An ASCII literal as a Python [str]. *)
Definition py (s : string) : str := map Byte.to_N (list_byte_of_string s).

Definition str_eqb (a b : str) : bool :=
  if list_eq_dec N.eq_dec a b then true else false.

Definition bytes_eqb (a b : bytes) : bool :=
  if list_eq_dec Byte.byte_eq_dec a b then true else false.

(** ** Python exceptions *)

(** The exceptions the modelled code raises or catches.  [ValueError] carries
    the message of its [raise] site: [PleaseSetPassword] stands for the text of
    [crypto_manager.py] lines 52 and 66, [DecryptFailed e] for the f-string of
    line 73 around [str(e)], [DurationOutOfRange] for the text of
    [config_manager.py] line 263, [NegativeSleep] for what [time.sleep]
    says of a negative argument.  [OverflowError] is what [time.sleep]
    raises for a duration too large for it. *)
Inductive exn : Type :=
| ValueError (msg : value_error)
| UnicodeEncodeError
| UnicodeDecodeError
| BinasciiError
| InvalidToken
| PyperclipException
| OverflowError
with value_error : Type :=
| PleaseSetPassword
| DecryptFailed (cause : exn)
| DurationOutOfRange
| NegativeSleep.

Inductive result (A : Type) : Type :=
| Ok (a : A)
| Raise (e : exn).
Arguments Ok {A} a.
Arguments Raise {A} e.

Definition is_ok {A} (r : result A) : bool :=
  match r with Ok _ => true | Raise _ => false end.

(** ** The UTF-8 codec behind [str.encode()] and [bytes.decode()] *)

Module Utf8.

(** Unicode scalar values: code points that are not surrogates. *)
Definition scalar (c : N) : bool :=
  (c <? 0xD800) || ((0xDFFF <? c) && (c <? 0x110000)).

Definition unicode_text (s : str) : Prop := Forall (fun c => scalar c = true) s.

(** One code point, as the strict encoder emits it; surrogates are refused. *)
Definition encode_char (c : N) : option bytes :=
  if c <? 0x80 then Some [byte_of c]
  else if c <? 0x800 then
    Some [byte_of (N.lor 0xC0 (N.shiftr c 6));
          byte_of (N.lor 0x80 (N.land c 0x3F))]
  else if c <? 0x10000 then
    if (0xD800 <=? c) && (c <=? 0xDFFF) then None
    else
      Some [byte_of (N.lor 0xE0 (N.shiftr c 12));
            byte_of (N.lor 0x80 (N.land (N.shiftr c 6) 0x3F));
            byte_of (N.lor 0x80 (N.land c 0x3F))]
  else if c <? 0x110000 then
    Some [byte_of (N.lor 0xF0 (N.shiftr c 18));
          byte_of (N.lor 0x80 (N.land (N.shiftr c 12) 0x3F));
          byte_of (N.lor 0x80 (N.land (N.shiftr c 6) 0x3F));
          byte_of (N.lor 0x80 (N.land c 0x3F))]
  else None.

Fixpoint encode_opt (s : str) : option bytes :=
  match s with
  | [] => Some []
  | c :: s' =>
      match encode_char c, encode_opt s' with
      | Some b, Some bs => Some (b ++ bs)
      | _, _ => None
      end
  end.

(** [s.encode()] *)
Definition encode (s : str) : result bytes :=
  match encode_opt s with
  | Some b => Ok b
  | None => Raise UnicodeEncodeError
  end.

Definition in_range (lo hi : N) (b : byte) : bool :=
  (lo <=? Byte.to_N b) && (Byte.to_N b <=? hi).

Definition cont (b : byte) : bool := in_range 0x80 0xBF b.

Definition low6 (b : byte) : N := N.land (Byte.to_N b) 0x3F.

(** The strict decoder: shortest forms only, no surrogates, nothing above
    U+10FFFF. *)
Fixpoint decode_opt (bs : bytes) : option str :=
  match bs with
  | [] => Some []
  | b1 :: r1 =>
      let n1 := Byte.to_N b1 in
      if n1 <? 0x80 then option_map (cons n1) (decode_opt r1)
      else
        match r1 with
        | [] => None
        | b2 :: r2 =>
            if in_range 0xC2 0xDF b1 then
              if cont b2 then
                option_map
                  (cons (N.lor (N.shiftl (N.land n1 0x1F) 6) (low6 b2)))
                  (decode_opt r2)
              else None
            else
              match r2 with
              | [] => None
              | b3 :: r3 =>
                  if in_range 0xE0 0xEF b1 then
                    if in_range (if n1 =? 0xE0 then 0xA0 else 0x80)
                                (if n1 =? 0xED then 0x9F else 0xBF) b2
                       && cont b3
                    then
                      option_map
                        (cons (N.lor (N.shiftl (N.land n1 0x0F) 12)
                                 (N.lor (N.shiftl (low6 b2) 6) (low6 b3))))
                        (decode_opt r3)
                    else None
                  else
                    match r3 with
                    | [] => None
                    | b4 :: r4 =>
                        if in_range 0xF0 0xF4 b1
                           && in_range (if n1 =? 0xF0 then 0x90 else 0x80)
                                       (if n1 =? 0xF4 then 0x8F else 0xBF) b2
                           && cont b3 && cont b4
                        then
                          option_map
                            (cons (N.lor (N.shiftl (N.land n1 0x07) 18)
                                     (N.lor (N.shiftl (low6 b2) 12)
                                        (N.lor (N.shiftl (low6 b3) 6)
                                           (low6 b4)))))
                            (decode_opt r4)
                        else None
                    end
              end
        end
  end.

(** [b.decode()] *)
Definition decode (b : bytes) : result str :=
  match decode_opt b with
  | Some s => Ok s
  | None => Raise UnicodeDecodeError
  end.

(** Seven-bit bytes, which are their own code points. *)
Definition ascii_bytes (bs : bytes) : Prop :=
  Forall (fun b => Byte.to_N b < 0x80) bs.

End Utf8.

(** ** [base64.urlsafe_b64encode] and [base64.urlsafe_b64decode] *)

Module Base64.

Definition table_b2a_base64 : bytes :=
  list_byte_of_string
    "ABCDEFGHIJKLMNOPQRSTUVWXYZabcdefghijklmnopqrstuvwxyz0123456789+/".

Definition BASE64_PAD : byte := "="%byte.

Definition b2a (n : N) : byte := nth (N.to_nat n) table_b2a_base64 BASE64_PAD.

Fixpoint find_index (ch : byte) (t : bytes) (i : N) : option N :=
  match t with
  | [] => None
  | x :: t' => if Byte.eqb x ch then Some i else find_index ch t' (N.succ i)
  end.

(** [None] where the C table holds a value of 64 or more. *)
Definition table_a2b_base64 (ch : byte) : option N :=
  find_index ch table_b2a_base64 0.

(** [binascii.b2a_base64(s, newline=False)]: three bytes give four digits,
    a last group of one or two bytes is padded with [=]. *)
Fixpoint b2a_base64 (bs : bytes) : bytes :=
  match bs with
  | [] => []
  | a :: r1 =>
      let a := Byte.to_N a in
      match r1 with
      | [] =>
          [b2a (N.shiftr a 2); b2a (N.shiftl (N.land a 3) 4);
           BASE64_PAD; BASE64_PAD]
      | b :: r2 =>
          let b := Byte.to_N b in
          match r2 with
          | [] =>
              [b2a (N.shiftr a 2);
               b2a (N.lor (N.shiftl (N.land a 3) 4) (N.shiftr b 4));
               b2a (N.shiftl (N.land b 0xF) 2); BASE64_PAD]
          | c :: r3 =>
              let c := Byte.to_N c in
              b2a (N.shiftr a 2)
              :: b2a (N.lor (N.shiftl (N.land a 3) 4) (N.shiftr b 4))
              :: b2a (N.lor (N.shiftl (N.land b 0xF) 2) (N.shiftr c 6))
              :: b2a (N.land c 0x3F)
              :: b2a_base64 r3
          end
      end
  end.

(** The loop of [binascii.a2b_base64] in its default, non-strict mode:
    characters outside the alphabet are skipped, enough padding after at
    least two digits of a group ends the input, and a group left open at
    the end of the input is an error. *)
Fixpoint a2b_loop (quad_pos leftchar pads : N) (s : bytes) : option bytes :=
  match s with
  | [] => if quad_pos =? 0 then Some [] else None
  | this_ch :: s' =>
      if Byte.eqb this_ch BASE64_PAD then
        if 2 <=? quad_pos then
          if 4 <=? quad_pos + (pads + 1) then Some []
          else a2b_loop quad_pos leftchar (pads + 1) s'
        else a2b_loop quad_pos leftchar pads s'
      else
        match table_a2b_base64 this_ch with
        | None => a2b_loop quad_pos leftchar pads s'
        | Some v =>
            if quad_pos =? 0 then a2b_loop 1 v 0 s'
            else if quad_pos =? 1 then
              option_map
                (cons (byte_of (N.lor (N.shiftl leftchar 2) (N.shiftr v 4))))
                (a2b_loop 2 (N.land v 0x0F) 0 s')
            else if quad_pos =? 2 then
              option_map
                (cons (byte_of (N.lor (N.shiftl leftchar 4) (N.shiftr v 2))))
                (a2b_loop 3 (N.land v 0x03) 0 s')
            else
              option_map
                (cons (byte_of (N.lor (N.shiftl leftchar 6) v)))
                (a2b_loop 0 0 0 s')
        end
  end.

Definition a2b_base64 (s : bytes) : result bytes :=
  match a2b_loop 0 0 0 s with
  | Some b => Ok b
  | None => Raise BinasciiError
  end.

(** [s.translate(bytes.maketrans(from, to))] for two-character tables. *)
Definition translate (f1 f2 t1 t2 : byte) (s : bytes) : bytes :=
  map (fun ch => if Byte.eqb ch f1 then t1
                 else if Byte.eqb ch f2 then t2 else ch) s.

Definition urlsafe_b64encode (s : bytes) : bytes :=
  translate "+"%byte "/"%byte "-"%byte "_"%byte (b2a_base64 s).

Definition urlsafe_b64decode (s : bytes) : result bytes :=
  a2b_base64 (translate "-"%byte "_"%byte "+"%byte "/"%byte s).

(** The two translations, character by character, and the check that a
    digit survives encoding and decoding as a seven-bit character. *)
Definition enc_tr (ch : byte) : byte :=
  if Byte.eqb ch "+" then "-"%byte else if Byte.eqb ch "/" then "_"%byte else ch.

Definition dec_tr (ch : byte) : byte :=
  if Byte.eqb ch "-" then "+"%byte else if Byte.eqb ch "_" then "/"%byte else ch.

Definition digit_ok (n : N) : bool :=
  let ch := enc_tr (b2a n) in
  negb (Byte.eqb (dec_tr ch) BASE64_PAD)
  && match table_a2b_base64 (dec_tr ch) with
     | Some m => m =? n
     | None => false
     end
  && (Byte.to_N ch <? 0x80).

(** Characters of the standard alphabet and the padding: seven-bit, and
    untouched by the two translations of the URL-safe variant. *)
Definition std_char (ch : byte) : Prop :=
  dec_tr (enc_tr ch) = ch /\ Byte.to_N ch < 0x80.

End Base64.

(** ** Exceptions as values: bind and try/except *)

Definition bind {A B} (r : result A) (k : A -> result B) : result B :=
  match r with
  | Ok a => k a
  | Raise e => Raise e
  end.

Notation "x <- r ;; k" := (bind r (fun x => k))
  (at level 61, r at next level, right associativity).

(** [try: body except Exception as e: handler(e)] *)
Definition try_except {A} (body : result A) (handler : exn -> result A)
  : result A :=
  match body with
  | Ok a => Ok a
  | Raise e => handler e
  end.

(** ** The cryptographic primitives of the [cryptography] package

    SHA-256 and the Fernet token scheme are taken as given operations.
    [fernet_encrypt key now iv data] is [Fernet.encrypt] for the 32-byte key
    held by the Fernet object, the current time and the fresh 16-byte IV it
    draws; [fernet_decrypt key token] is [Fernet.decrypt] without a time to
    live, [None] standing for [InvalidToken]. *)
Class Primitives : Type := {
  sha256 : bytes -> bytes;
  fernet_encrypt : bytes -> N -> bytes -> bytes -> bytes;
  fernet_decrypt : bytes -> bytes -> option bytes
}.

(** What the Fernet specification promises of its two operations. *)
Class FernetCorrect (P : Primitives) : Prop :=
  fernet_roundtrip : forall key now iv data,
    fernet_decrypt key (fernet_encrypt key now iv data) = Some data.

(** A token is never empty (it starts with a version byte). *)
Class FernetNonEmpty (P : Primitives) : Prop :=
  fernet_token_nonempty : forall key now iv data,
    length key = 32%nat -> fernet_encrypt key now iv data <> [].

Class Sha256Length (P : Primitives) : Prop :=
  sha256_length : forall m, length (sha256 m) = 32%nat.

(** ** PBKDF2-HMAC-SHA256 (RFC 8018 over RFC 2104), as [PBKDF2HMAC] runs it *)

Module Kdf.
Section WithPrimitives.
Context {P : Primitives}.

Definition block_size : nat := 64.

(** The key of HMAC: hashed when longer than a block, then filled with
    zero bytes up to the block size. *)
Definition hmac_key (k : bytes) : bytes :=
  let k' := if (block_size <? length k)%nat then sha256 k else k in
  k' ++ repeat x00 (block_size - length k').

Definition xor_byte (a b : byte) : byte :=
  byte_of (N.lxor (Byte.to_N a) (Byte.to_N b)).

Fixpoint xor_bytes (a b : bytes) : bytes :=
  match a, b with
  | x :: a', y :: b' => xor_byte x y :: xor_bytes a' b'
  | _, _ => []
  end.

Definition hmac (k m : bytes) : bytes :=
  let k0 := hmac_key k in
  sha256 (map (xor_byte x5c) k0 ++ sha256 (map (xor_byte x36) k0 ++ m)).

(** One further round: the next [U] and the running exclusive or. *)
Definition pbkdf2_round (password : bytes) (st : bytes * bytes)
  : bytes * bytes :=
  let u := hmac password (fst st) in (u, xor_bytes (snd st) u).

(** The first output block, [INT(1)] being the 32-bit big-endian one. *)
Definition pbkdf2_block1 (password salt : bytes) (iterations : N) : bytes :=
  let u1 := hmac password (salt ++ [x00; x00; x00; x01]) in
  snd (N.iter (iterations - 1) (pbkdf2_round password) (u1, u1)).

(** [PBKDF2HMAC(algorithm=SHA256(), length=32, salt=salt,
    iterations=100000).derive(password)]: the output length is the length
    of one SHA-256 digest, so the first block is the whole output. *)
Definition derive (password salt : bytes) : bytes :=
  firstn 32 (pbkdf2_block1 password salt 100000).

End WithPrimitives.
End Kdf.

(** ** [CryptoManager] *)

Module CryptoManager.
Section WithPrimitives.
Context {P : Primitives}.

(** The object: [key] is the base64 text of the derived key, [cipher_suite]
    the Fernet object, which holds the 32 raw key bytes. *)
Record t : Type := mk {
  key : option bytes;
  cipher_suite : option bytes
}.

(** [__init__] *)
Definition init : t := {| key := None; cipher_suite := None |}.

(** [Fernet(key)]: the key must be the base64 text of 32 bytes. *)
Definition Fernet (key : bytes) : result bytes :=
  match Base64.urlsafe_b64decode key with
  | Ok raw =>
      if (length raw =? 32)%nat then Ok raw
      else Raise (ValueError PleaseSetPassword)
  | Raise _ => Raise (ValueError PleaseSetPassword)
  end.

(** [set_password]: [urandom] is the value [os.urandom(16)] would return.
    The result is the new object and the salt that was used. *)
Definition set_password (self : t) (password : str) (salt : option bytes)
    (urandom : bytes) : result (t * bytes) :=
  let salt := match salt with Some s => s | None => urandom end in
  pw <- Utf8.encode password ;;
  let key := Base64.urlsafe_b64encode (Kdf.derive pw salt) in
  f <- Fernet key ;;
  Ok ({| key := Some key; cipher_suite := Some f |}, salt).

(** [encrypt]: [now] and [iv] are what [Fernet.encrypt] reads from the
    clock and from the random source. *)
Definition encrypt (self : t) (now : N) (iv : bytes) (plaintext : str)
  : result str :=
  match cipher_suite self with
  | None => Raise (ValueError PleaseSetPassword)
  | Some k =>
      data <- Utf8.encode plaintext ;;
      let encrypted_data := fernet_encrypt k now iv data in
      Utf8.decode (Base64.urlsafe_b64encode encrypted_data)
  end.

Definition decrypt (self : t) (ciphertext : str) : result str :=
  match cipher_suite self with
  | None => Raise (ValueError PleaseSetPassword)
  | Some k =>
      try_except
        (c <- Utf8.encode ciphertext ;;
         encrypted_data <- Base64.urlsafe_b64decode c ;;
         decrypted_data <-
           match fernet_decrypt k encrypted_data with
           | Some d => Ok d
           | None => Raise InvalidToken
           end ;;
         Utf8.decode decrypted_data)
        (fun e => Raise (ValueError (DecryptFailed e)))
  end.

Definition is_encrypted_text (self : t) (text : str) : bool :=
  match cipher_suite self with
  | None => false
  | Some _ =>
      match
        (c <- Utf8.encode text ;;
         _ <- Base64.urlsafe_b64decode c ;;
         _ <- decrypt self text ;;
         Ok true)
      with
      | Ok b => b
      | Raise _ => false
      end
  end.

End WithPrimitives.
End CryptoManager.

(** ** A small instance of the primitives

    It satisfies what is asked of Fernet and of SHA-256 above and is cheap to
    run, so the model can be evaluated on concrete inputs. *)

Module Toy.

(** A positional checksum of 32 bytes in place of SHA-256: the exclusive or
    of the 32-byte blocks of the message, each block moved four bytes
    further to the right than the one before it. *)
Definition toy_block (n : nat) (block : bytes) : bytes :=
  firstn 32 (repeat x00 n ++ block ++ repeat x00 32).

Fixpoint toy_fold (fuel n : nat) (m acc : bytes) : bytes :=
  match fuel with
  | O => acc
  | S fuel' =>
      match m with
      | [] => acc
      | _ :: _ =>
          toy_fold fuel' (n + 4) (skipn 32 m)
            (Kdf.xor_bytes acc (toy_block n (firstn 32 m)))
      end
  end.

Definition toy_sha256 (m : bytes) : bytes :=
  toy_fold (length m) 0 m (repeat x00 32).

Definition toy_encrypt (key : bytes) (now : N) (iv data : bytes) : bytes :=
  key ++ data.

Definition toy_decrypt (key token : bytes) : option bytes :=
  if bytes_eqb (firstn (length key) token) key
  then Some (skipn (length key) token)
  else None.

Definition prims : Primitives := {|
  sha256 := toy_sha256;
  fernet_encrypt := toy_encrypt;
  fernet_decrypt := toy_decrypt
|}.

End Toy.

(** ** Vocabulary for the statements about [CryptoManager] *)

Module CryptoVocab.
Import CryptoManager.

(** The text of a token: the base64 characters as a [str]. *)
Definition envelope (token : bytes) : str :=
  map Byte.to_N (Base64.urlsafe_b64encode token).

(** The salt [set_password] uses. *)
Definition salt_used (salt : option bytes) (urandom : bytes) : bytes :=
  match salt with Some s => s | None => urandom end.

(** The session used to run the model: password [pw], a salt of sixteen zero
    bytes, toy primitives. *)
Definition salt0 : bytes := repeat x00 16.

Definition toy_session (password : bytes) : CryptoManager.t :=
  {| key := Some (Base64.urlsafe_b64encode
                    (Kdf.derive (P := Toy.prims) password salt0));
     cipher_suite := Some (Kdf.derive (P := Toy.prims) password salt0) |}.




(** A result of [Fernet.decrypt] that decodes to the given text. *)
Definition decrypt_result_is (plaintext : str) (r : option bytes) : Prop :=
  match r with
  | Some d =>
      match Utf8.decode d with
      | Ok s => s = plaintext
      | Raise _ => False
      end
  | None => False
  end.

End CryptoVocab.

(** ** [ClipboardManager] *)

Module ClipboardManager.

(** The object a [ClipboardManager] is built around: anything with the three
    methods it calls.  [encrypt] also receives what the cipher reads from
    the clock and the random source. *)
Record CryptoOps : Type := {
  co_is_encrypted_text : str -> bool;
  co_encrypt : N -> bytes -> str -> result str;
  co_decrypt : str -> result str
}.

(** A [CryptoManager] seen through that interface. *)
Definition of_crypto_manager {P : Primitives} (cm : CryptoManager.t)
  : CryptoOps := {|
  co_is_encrypted_text := CryptoManager.is_encrypted_text cm;
  co_encrypt := CryptoManager.encrypt cm;
  co_decrypt := CryptoManager.decrypt cm
|}.

(** The text handed to a callback.  Where the source formats an f-string the
    pieces are kept apart. *)
Inductive notice : Type :=
| Plain (text : str)
| TemporaryDecrypt (text : str) (duration_seconds : Z)
| AutoReEncrypt (head : str).

Inductive error_message : Type :=
| MonitorError (e : exn)
| SetClipboardFailed (e : exn)
| HandleChangeFailed (e : exn)
| AutoEncryptFailed (e : exn)
| AutoDecryptFailed (e : exn)
| ClipboardEmpty
| AlreadyEncrypted
| NotEncrypted
| ManualEncryptFailed (e : exn)
| ManualDecryptFailed (e : exn)
| TemporaryDecryptFailed (e : exn)
| ReEncryptFailed (e : exn)
| PeekDecryptFailed (e : exn).

(** A thread started by [temporary_decrypt]: the closure of [re_encrypt]. *)
Record Job : Type := {
  duration_seconds : Z;
  decrypted_text : str;
  original_encrypted : str
}.

(** The lines of [cli_main.py] lines 306, 310 and 313, by what they say. *)
Inductive cli_line : Type :=
| PleaseSetPasswordFirst
| DurationMustBe5To300
| AnnounceTemporaryDecrypt (duration : Z).

(** What the object does to its surroundings, most recent first. *)
Inductive Event : Type :=
| OnClipboardChanged (old new : str)
| OnEncryptionPerformed (n : notice)
| OnDecryptionPerformed (n : notice)
| OnError (m : error_message)
| OnEncryptionStatusChanged (status : str) (len : nat)
| Copy (content : str)
| ThreadStarted (j : Job)
| Print (line : cli_line).

(** The surroundings: the clipboard of the operating system, whether
    [pyperclip.paste] and [pyperclip.copy] currently fail, the clock in
    milliseconds, the bytes the next [os.urandom] returns, and the events
    so far. *)
Record World : Type := {
  clipboard : str;
  paste_fails : bool;
  copy_fails : bool;
  clock : Z;
  urandom : bytes;
  trace : list Event
}.

(** The attributes of the object.  A callback attribute is modelled by
    whether it is set. *)
Record t : Type := {
  is_running : bool;
  last_clipboard_content : str;
  encryption_enabled : bool;
  auto_decrypt_enabled : bool;
  on_clipboard_changed : bool;
  on_encryption_performed : bool;
  on_decryption_performed : bool;
  on_error : bool;
  on_encryption_status_changed : bool;
  _processing : bool;
  _last_processed_content : str;
  _ignore_next_change : bool;
  _processing_start_time : Z
}.

(** [__init__] *)
Definition init : t := {|
  is_running := false;
  last_clipboard_content := [];
  encryption_enabled := false;
  auto_decrypt_enabled := true;
  on_clipboard_changed := false;
  on_encryption_performed := false;
  on_decryption_performed := false;
  on_error := false;
  on_encryption_status_changed := false;
  _processing := false;
  _last_processed_content := [];
  _ignore_next_change := false;
  _processing_start_time := 0%Z
|}.

Definition set_last_clipboard_content (v : str) (s : t) : t := {|
  is_running := is_running s;
  last_clipboard_content := v;
  encryption_enabled := encryption_enabled s;
  auto_decrypt_enabled := auto_decrypt_enabled s;
  on_clipboard_changed := on_clipboard_changed s;
  on_encryption_performed := on_encryption_performed s;
  on_decryption_performed := on_decryption_performed s;
  on_error := on_error s;
  on_encryption_status_changed := on_encryption_status_changed s;
  _processing := _processing s;
  _last_processed_content := _last_processed_content s;
  _ignore_next_change := _ignore_next_change s;
  _processing_start_time := _processing_start_time s
|}.

Definition set_processing (v : bool) (s : t) : t := {|
  is_running := is_running s;
  last_clipboard_content := last_clipboard_content s;
  encryption_enabled := encryption_enabled s;
  auto_decrypt_enabled := auto_decrypt_enabled s;
  on_clipboard_changed := on_clipboard_changed s;
  on_encryption_performed := on_encryption_performed s;
  on_decryption_performed := on_decryption_performed s;
  on_error := on_error s;
  on_encryption_status_changed := on_encryption_status_changed s;
  _processing := v;
  _last_processed_content := _last_processed_content s;
  _ignore_next_change := _ignore_next_change s;
  _processing_start_time := _processing_start_time s
|}.

Definition set_last_processed_content (v : str) (s : t) : t := {|
  is_running := is_running s;
  last_clipboard_content := last_clipboard_content s;
  encryption_enabled := encryption_enabled s;
  auto_decrypt_enabled := auto_decrypt_enabled s;
  on_clipboard_changed := on_clipboard_changed s;
  on_encryption_performed := on_encryption_performed s;
  on_decryption_performed := on_decryption_performed s;
  on_error := on_error s;
  on_encryption_status_changed := on_encryption_status_changed s;
  _processing := _processing s;
  _last_processed_content := v;
  _ignore_next_change := _ignore_next_change s;
  _processing_start_time := _processing_start_time s
|}.

Definition set_ignore_next_change (v : bool) (s : t) : t := {|
  is_running := is_running s;
  last_clipboard_content := last_clipboard_content s;
  encryption_enabled := encryption_enabled s;
  auto_decrypt_enabled := auto_decrypt_enabled s;
  on_clipboard_changed := on_clipboard_changed s;
  on_encryption_performed := on_encryption_performed s;
  on_decryption_performed := on_decryption_performed s;
  on_error := on_error s;
  on_encryption_status_changed := on_encryption_status_changed s;
  _processing := _processing s;
  _last_processed_content := _last_processed_content s;
  _ignore_next_change := v;
  _processing_start_time := _processing_start_time s
|}.

Definition set_processing_start_time (v : Z) (s : t) : t := {|
  is_running := is_running s;
  last_clipboard_content := last_clipboard_content s;
  encryption_enabled := encryption_enabled s;
  auto_decrypt_enabled := auto_decrypt_enabled s;
  on_clipboard_changed := on_clipboard_changed s;
  on_encryption_performed := on_encryption_performed s;
  on_decryption_performed := on_decryption_performed s;
  on_error := on_error s;
  on_encryption_status_changed := on_encryption_status_changed s;
  _processing := _processing s;
  _last_processed_content := _last_processed_content s;
  _ignore_next_change := _ignore_next_change s;
  _processing_start_time := v
|}.

Definition set_clipboard (v : str) (w : World) : World := {|
  clipboard := v;
  paste_fails := paste_fails w;
  copy_fails := copy_fails w;
  clock := clock w;
  urandom := urandom w;
  trace := trace w
|}.

Definition set_clock (v : Z) (w : World) : World := {|
  clipboard := clipboard w;
  paste_fails := paste_fails w;
  copy_fails := copy_fails w;
  clock := v;
  urandom := urandom w;
  trace := trace w
|}.

Definition log (e : Event) (w : World) : World := {|
  clipboard := clipboard w;
  paste_fails := paste_fails w;
  copy_fails := copy_fails w;
  clock := clock w;
  urandom := urandom w;
  trace := e :: trace w
|}.

(** *** State, surroundings and exceptions, threaded through the methods *)

Definition M (A : Type) : Type := t -> World -> result A * t * World.

Definition ret {A} (a : A) : M A := fun s w => (Ok a, s, w).

Definition mbind {A B} (m : M A) (k : A -> M B) : M B :=
  fun s w =>
    match m s w with
    | (Ok a, s', w') => k a s' w'
    | (Raise e, s', w') => (Raise e, s', w')
    end.

Notation "x <~ m ;; k" := (mbind m (fun x => k))
  (at level 61, m at next level, right associativity).
Notation "m >> k" := (mbind m (fun _ => k))
  (at level 61, right associativity).

(** [try: body except Exception as e: handler]; what [body] did before it
    raised stays done. *)
Definition try_ {A} (body : M A) (handler : exn -> M A) : M A :=
  fun s w =>
    match body s w with
    | (Ok a, s', w') => (Ok a, s', w')
    | (Raise e, s', w') => handler e s' w'
    end.

Definition lift {A} (r : result A) : M A := fun s w => (r, s, w).

Definition get : M t := fun s w => (Ok s, s, w).

Definition modify (f : t -> t) : M unit := fun s w => (Ok tt, f s, w).

Definition pyperclip_paste : M str :=
  fun s w =>
    if paste_fails w then (Raise PyperclipException, s, w)
    else (Ok (clipboard w), s, w).

Definition pyperclip_copy (content : str) : M unit :=
  fun s w =>
    if copy_fails w then (Raise PyperclipException, s, w)
    else (Ok tt, s, log (Copy content) (set_clipboard content w)).

Definition time_time : M Z := fun s w => (Ok (clock w), s, w).

(** The interpreter keeps a duration as a signed 64-bit count of
    nanoseconds. *)
Definition _PyTime_MIN : Z := (- 2 ^ 63)%Z.
Definition _PyTime_MAX : Z := (2 ^ 63 - 1)%Z.

(** [time.sleep], in milliseconds: [OverflowError] for a duration that does
    not fit the count of nanoseconds, [ValueError] for a negative one. *)
Definition time_sleep (ms : Z) : M unit :=
  fun s w =>
    let ns := (ms * 1000000)%Z in
    if (ns <? _PyTime_MIN)%Z || (_PyTime_MAX <? ns)%Z
    then (Raise OverflowError, s, w)
    else if (ms <? 0)%Z then (Raise (ValueError NegativeSleep), s, w)
    else (Ok tt, s, set_clock (clock w + ms)%Z w).

(** [if self.cb: self.cb(...)] *)
Definition call (cb : t -> bool) (e : Event) : M unit :=
  fun s w => (Ok tt, s, if cb s then log e w else w).

(** [threading.Thread(target=..., daemon=True).start()] *)
Definition start_thread (j : Job) : M unit :=
  fun s w => (Ok tt, s, log (ThreadStarted j) w).

(** The characters [str.strip()] removes. *)
Definition Py_UNICODE_ISSPACE (c : N) : bool :=
  ((0x09 <=? c) && (c <=? 0x0D)) || ((0x1C <=? c) && (c <=? 0x20))
  || (c =? 0x85) || (c =? 0xA0) || (c =? 0x1680)
  || ((0x2000 <=? c) && (c <=? 0x200A))
  || (c =? 0x2028) || (c =? 0x2029) || (c =? 0x202F) || (c =? 0x205F)
  || (c =? 0x3000).

Fixpoint lstrip (s : str) : str :=
  match s with
  | c :: s' => if Py_UNICODE_ISSPACE c then lstrip s' else s
  | [] => []
  end.

Definition strip (s : str) : str := rev (lstrip (rev (lstrip s))).

(** [not content.strip()] *)
Definition blank (content : str) : bool :=
  match strip content with [] => true | _ :: _ => false end.

Section WithCrypto.
Variable crypto : CryptoOps.

Definition _get_clipboard_content : M str :=
  try_ (content <~ pyperclip_paste ;;
        ret (match content with [] => [] | _ :: _ => content end))
       (fun _ => ret []).

Definition _set_clipboard_content (content : str) : M unit :=
  try_ (modify (set_processing true) >>
        modify (set_last_processed_content content) >>
        now <~ time_time ;;
        modify (set_processing_start_time now) >>
        modify (set_ignore_next_change true) >>
        pyperclip_copy content >>
        time_sleep 200 >>
        modify (set_processing false))
       (fun e =>
          modify (set_processing false) >>
          modify (set_ignore_next_change false) >>
          call on_error (OnError (SetClipboardFailed e))).

(** [self.crypto_manager.encrypt(plaintext)], the cipher reading the clock
    in whole seconds and its IV from the random source. *)
Definition crypto_encrypt (plaintext : str) : M str :=
  fun s w =>
    (co_encrypt crypto (Z.to_N (clock w / 1000)) (urandom w) plaintext, s, w).

Definition _auto_encrypt (plaintext : str) : M unit :=
  try_ (encrypted_text <~ crypto_encrypt plaintext ;;
        _set_clipboard_content encrypted_text >>
        call on_encryption_performed (OnEncryptionPerformed (Plain plaintext)))
       (fun e => call on_error (OnError (AutoEncryptFailed e))).

Definition _auto_decrypt (ciphertext : str) : M unit :=
  try_ (decrypted_text <~ lift (co_decrypt crypto ciphertext) ;;
        _set_clipboard_content decrypted_text >>
        call on_decryption_performed
          (OnDecryptionPerformed (Plain decrypted_text)))
       (fun e => call on_error (OnError (AutoDecryptFailed e))).

Definition _handle_clipboard_change (old_content new_content : str) : M unit :=
  try_ (call on_clipboard_changed (OnClipboardChanged old_content new_content) >>
        if blank new_content then ret tt
        else
          let is_encrypted := co_is_encrypted_text crypto new_content in
          self <~ get ;;
          if negb is_encrypted && encryption_enabled self
          then _auto_encrypt new_content
          else if is_encrypted
          then call on_encryption_status_changed
                 (OnEncryptionStatusChanged (py "encrypted")
                    (length new_content))
          else ret tt)
       (fun e => call on_error (OnError (HandleChangeFailed e))).

(** The test of lines 71-77. *)
Definition should_process (self : t) (current_content : str) (now : Z) : bool :=
  negb (str_eqb current_content (last_clipboard_content self))
  && negb (_processing self)
  && negb (_ignore_next_change self)
  && (negb (str_eqb current_content (_last_processed_content self))
      || (5000 <? now - _processing_start_time self)%Z).

(** One turn of the [while] loop of [_monitor_clipboard], the value being
    the interval slept at its end, in milliseconds. *)
Definition monitor_iteration : M Z :=
  try_ (current_content <~ _get_clipboard_content ;;
        self <~ get ;;
        now <~ time_time ;;
        (if should_process self current_content now then
           _handle_clipboard_change (last_clipboard_content self)
             current_content >>
           modify (set_last_clipboard_content current_content)
         else if _ignore_next_change self then
           modify (set_ignore_next_change false) >>
           modify (set_last_clipboard_content current_content)
         else ret tt) >>
        time_sleep 500 >>
        ret 500%Z)
       (fun e =>
          call on_error (OnError (MonitorError e)) >>
          time_sleep 1000 >>
          ret 1000%Z).

(** The user copies [c]: the clipboard changes from outside. *)
Definition user_copies (c : str) : M unit :=
  fun s w => (Ok tt, s, set_clipboard c w).

(** The loop, for as many turns as [outside] is long; before each turn the
    other threads and the user do what [outside] lists for it. *)
Fixpoint monitor_loop (outside : list (M unit)) : M unit :=
  match outside with
  | [] => ret tt
  | before :: outside' =>
      self <~ get ;;
      if is_running self
      then before >> monitor_iteration >> monitor_loop outside'
      else ret tt
  end.

Definition _monitor_clipboard (outside : list (M unit)) : M unit :=
  content <~ _get_clipboard_content ;;
  modify (set_last_clipboard_content content) >>
  monitor_loop outside.

Definition manual_encrypt : M bool :=
  try_ (content <~ _get_clipboard_content ;;
        if blank content then
          call on_error (OnError ClipboardEmpty) >> ret false
        else if co_is_encrypted_text crypto content then
          call on_error (OnError AlreadyEncrypted) >> ret false
        else
          encrypted_text <~ crypto_encrypt content ;;
          _set_clipboard_content encrypted_text >>
          call on_encryption_performed (OnEncryptionPerformed (Plain content)) >>
          ret true)
       (fun e => call on_error (OnError (ManualEncryptFailed e)) >> ret false).

Definition manual_decrypt : M bool :=
  try_ (content <~ _get_clipboard_content ;;
        if blank content then
          call on_error (OnError ClipboardEmpty) >> ret false
        else if negb (co_is_encrypted_text crypto content) then
          call on_error (OnError NotEncrypted) >> ret false
        else
          decrypted_text <~ lift (co_decrypt crypto content) ;;
          _set_clipboard_content decrypted_text >>
          call on_decryption_performed
            (OnDecryptionPerformed (Plain decrypted_text)) >>
          ret true)
       (fun e => call on_error (OnError (ManualDecryptFailed e)) >> ret false).

(** The body of the thread started by [temporary_decrypt]. *)
Definition re_encrypt (j : Job) : M unit :=
  time_sleep (1000 * duration_seconds j) >>
  try_ (current <~ _get_clipboard_content ;;
        if str_eqb current (decrypted_text j) then
          _set_clipboard_content (original_encrypted j) >>
          call on_encryption_performed
            (OnEncryptionPerformed (AutoReEncrypt (firstn 20 (decrypted_text j))))
        else ret tt)
       (fun e => call on_error (OnError (ReEncryptFailed e))).

Definition temporary_decrypt (duration_seconds : Z) : M bool :=
  try_ (content <~ _get_clipboard_content ;;
        if blank content then
          call on_error (OnError ClipboardEmpty) >> ret false
        else if negb (co_is_encrypted_text crypto content) then
          call on_error (OnError NotEncrypted) >> ret false
        else
          let original_encrypted := content in
          decrypted_text <~ lift (co_decrypt crypto content) ;;
          _set_clipboard_content decrypted_text >>
          call on_decryption_performed
            (OnDecryptionPerformed
               (TemporaryDecrypt decrypted_text duration_seconds)) >>
          start_thread {| duration_seconds := duration_seconds;
                          decrypted_text := decrypted_text;
                          original_encrypted := original_encrypted |} >>
          ret true)
       (fun e =>
          call on_error (OnError (TemporaryDecryptFailed e)) >> ret false).

Definition peek_decrypt : M str :=
  try_ (content <~ _get_clipboard_content ;;
        if blank content then ret []
        else if negb (co_is_encrypted_text crypto content) then ret content
        else
          decrypted_text <~ lift (co_decrypt crypto content) ;;
          ret decrypted_text)
       (fun e => call on_error (OnError (PeekDecryptFailed e)) >> ret []).

End WithCrypto.
End ClipboardManager.

(** ** The duration gates of the command line and of the settings *)

Module Cli.
Import ClipboardManager.

(** [AppSettings], as far as the duration goes: the stored value, absent
    until it is first set. *)
Record AppSettings : Type := {
  stored_temporary_decrypt_duration : option Z
}.

(** The getter of [temporary_decrypt_duration], with its default. *)
Definition temporary_decrypt_duration (settings : AppSettings) : Z :=
  match stored_temporary_decrypt_duration settings with
  | Some v => v
  | None => 10%Z
  end.

(** The setter of [temporary_decrypt_duration]. *)
Definition set_temporary_decrypt_duration (settings : AppSettings) (value : Z)
  : result AppSettings :=
  if (5 <=? value)%Z && (value <=? 300)%Z
  then Ok {| stored_temporary_decrypt_duration := Some value |}
  else Raise (ValueError DurationOutOfRange).

Definition print (line : cli_line) : M unit :=
  fun s w => (Ok tt, s, log (Print line) w).

(** [CryptoClipboardCLI.temporary_decrypt_with_duration] *)
Definition temporary_decrypt_with_duration (crypto : CryptoOps)
    (password_set : bool) (duration : Z) : M bool :=
  if negb password_set then print PleaseSetPasswordFirst >> ret false
  else if negb ((5 <=? duration)%Z && (duration <=? 300)%Z) then
    print DurationMustBe5To300 >> ret false
  else print (AnnounceTemporaryDecrypt duration) >>
       temporary_decrypt crypto duration.

(** [CryptoClipboardCLI.temporary_decrypt] *)
Definition cli_temporary_decrypt (crypto : CryptoOps) (password_set : bool)
    (settings : AppSettings) : M bool :=
  if negb password_set then print PleaseSetPasswordFirst >> ret false
  else
    let duration := temporary_decrypt_duration settings in
    print (AnnounceTemporaryDecrypt duration) >>
    temporary_decrypt crypto duration.

End Cli.

(** ** Vocabulary for the statements about [ClipboardManager] *)

Module Observations.
Import ClipboardManager.

(** What [_get_clipboard_content] returns in given surroundings. *)
Definition observed (w : World) : str :=
  if paste_fails w then [] else clipboard w.

(** The whole numbers of seconds [time.sleep] accepts, and what it raises
    for any other. *)
Definition sleepable (seconds : Z) : Prop :=
  (0 <= seconds <= 9223372036)%Z.

Definition sleep_refusal (seconds : Z) : exn :=
  if (seconds <? -9223372036)%Z || (9223372036 <? seconds)%Z
  then OverflowError
  else ValueError NegativeSleep.

(** An action that never raises. *)
Definition total {A} (m : M A) : Prop :=
  forall s w, exists a s' w', m s w = (Ok a, s', w').

(** The object and the surroundings an action leaves behind. *)
Definition state_after {A} (x : result A * t * World) : t := snd (fst x).
Definition world_after {A} (x : result A * t * World) : World := snd x.
Definition value_of {A} (x : result A * t * World) : result A := fst (fst x).

(** The events an action added, most recent first. *)
Definition added (before after : World) (l : list Event) : Prop :=
  trace after = l ++ trace before.

Definition is_copy (e : Event) : bool :=
  match e with Copy _ => true | _ => false end.


Definition is_on_clipboard_changed (e : Event) : bool :=
  match e with OnClipboardChanged _ _ => true | _ => false end.

(** The guard attributes after a write that went through, and after one
    that failed. *)
Definition written (content : str) (now : Z) (s : t) : t :=
  set_processing false
    (set_ignore_next_change true
       (set_processing_start_time now
          (set_last_processed_content content (set_processing true s)))).

Definition write_failed (content : str) (now : Z) (s : t) : t :=
  set_ignore_next_change false
    (set_processing false
       (set_ignore_next_change true
          (set_processing_start_time now
             (set_last_processed_content content (set_processing true s))))).

(** The surroundings after [on_error] was told [m], if it is installed. *)
Definition told (s : t) (m : error_message) (w : World) : World :=
  if on_error s then log (OnError m) w else w.

End Observations.

(** ** Concrete objects and surroundings to run the model on *)

Module Scenario.
Import ClipboardManager Observations.

Definition toy_key : bytes := repeat "k"%byte 32.

(** A [CryptoManager] holding a session under the toy primitives. *)
Definition toy_cm : CryptoManager.t := {|
  CryptoManager.key := Some (Base64.urlsafe_b64encode toy_key);
  CryptoManager.cipher_suite := Some toy_key
|}.

Definition toy_ops : CryptoOps := of_crypto_manager (P := Toy.prims) toy_cm.

(** The envelope [toy_cm] makes of a plaintext. *)
Definition envelope_of (plaintext : str) : str :=
  match CryptoManager.encrypt (P := Toy.prims) toy_cm 0 [] plaintext with
  | Ok c => c
  | Raise _ => []
  end.

(** A [ClipboardManager] as the applications set it up: every callback of
    [cli_main.py] lines 55-58 installed, running, automatic encryption off
    or on. *)
Definition attentive (encrypting : bool) : t := {|
  is_running := true;
  last_clipboard_content := [];
  encryption_enabled := encrypting;
  auto_decrypt_enabled := true;
  on_clipboard_changed := true;
  on_encryption_performed := true;
  on_decryption_performed := true;
  on_error := true;
  on_encryption_status_changed := false;
  _processing := false;
  _last_processed_content := [];
  _ignore_next_change := false;
  _processing_start_time := 0%Z
|}.

(** Surroundings in which the clipboard holds [c] and works. *)
Definition calm (c : str) : World := {|
  clipboard := c;
  paste_fails := false;
  copy_fails := false;
  clock := 0%Z;
  urandom := [];
  trace := []
|}.

(** The same with a clipboard that cannot be read, or cannot be written. *)
Definition unreadable (c : str) : World := {|
  clipboard := c;
  paste_fails := true;
  copy_fails := false;
  clock := 0%Z;
  urandom := [];
  trace := []
|}.

Definition unwritable (c : str) : World := {|
  clipboard := c;
  paste_fails := false;
  copy_fails := true;
  clock := 0%Z;
  urandom := [];
  trace := []
|}.

(** The user decrypts by hand, copies something else, then copies the
    decrypted text again, a turn of the monitor after each; this is the
    object and the surroundings just before the third turn. *)
Definition recopy : result unit * t * World :=
  (_monitor_clipboard toy_ops
     [manual_decrypt toy_ops >> ret tt; user_copies (py "Y")]
   >> user_copies (py "secret"))
    (attentive false) (calm (envelope_of (py "secret"))).

(** The user encrypts by hand before the monitor is started; this is the
    object and the surroundings when the thread of the monitor has taken
    its first snapshot. *)
Definition late_start : result unit * t * World :=
  (manual_encrypt toy_ops >> _monitor_clipboard toy_ops [])
    (attentive false) (calm (py "hello")).

(** A crypto object whose [decrypt] raises although [is_encrypted_text]
    answered yes, as when the session is replaced between the two calls. *)
Definition fickle_ops : CryptoOps := {|
  co_is_encrypted_text := fun _ => true;
  co_encrypt := fun _ _ _ => Raise (ValueError PleaseSetPassword);
  co_decrypt := fun _ => Raise (ValueError (DecryptFailed InvalidToken))
|}.

End Scenario.

(** ** The properties under examination, as predicates on a turn *)

Module Properties.
Import ClipboardManager Observations.

(** The snapshot is the observed content once the turn is over. *)
Definition snapshot_follows (crypto : CryptoOps) (s : t) (w : World) : Prop :=
  last_clipboard_content (state_after (monitor_iteration crypto s w))
  = observed w.

(** With the flag set and a first turn that sees no change, the change [c]
    seen by the second turn is skipped: nothing is reported or written for
    it, and the snapshot becomes [c]. *)
Definition next_change_skipped (crypto : CryptoOps) (s : t) (w : World)
    (c : str) : Prop :=
  _ignore_next_change s = true ->
  observed w = last_clipboard_content s ->
  c <> observed w ->
  let x1 := monitor_iteration crypto s w in
  let x2 := (user_copies c >> monitor_iteration crypto)
              (state_after x1) (world_after x1) in
  trace (world_after x2) = trace w
  /\ last_clipboard_content (state_after x2) = c.

(** A failing clipboard read is reported and followed by the long
    interval. *)
Definition read_failure_backs_off (crypto : CryptoOps) (s : t) (w : World)
  : Prop :=
  paste_fails w = true -> on_error s = true ->
  let x := monitor_iteration crypto s w in
  value_of x = Ok 1000%Z
  /\ exists m l, trace (world_after x) = OnError m :: l.


(** [temporary_decrypt] refuses the duration: it does not return [True] and
    leaves the object and the surroundings as they were. *)
Definition duration_refused (crypto : CryptoOps) (duration : Z) (s : t)
    (w : World) : Prop :=
  let x := temporary_decrypt crypto duration s w in
  value_of x <> Ok true /\ state_after x = s /\ world_after x = w.

(** When [decrypt] raises for the content of the clipboard, [peek_decrypt]
    returns the empty text. *)
Definition peek_empty_on_error (crypto : CryptoOps) (s : t) (w : World)
  : Prop :=
  (exists e, co_decrypt crypto (observed w) = Raise e) ->
  value_of (peek_decrypt crypto s w) = Ok [].

(** A failing clipboard write makes [manual_encrypt] return [False]. *)
Definition write_failure_is_false (crypto : CryptoOps) (s : t) (w : World)
  : Prop :=
  copy_fails w = true ->
  value_of (manual_encrypt crypto s w) = Ok false.

End Properties.

(** ** Key fingerprint, key file and the password commands *)

Module Hex.

Definition hexdigit (n : N) : N := if n <? 10 then 0x30 + n else 0x57 + n.

(** [bytes.hex()] and the text of [hexdigest()]: two lowercase digits for
    each byte. *)
Definition hex (b : bytes) : str :=
  flat_map (fun x => [hexdigit (Byte.to_N x / 16);
                      hexdigit (Byte.to_N x mod 16)]) b.

End Hex.

Module KeyHash.
Section WithPrimitives.
Context {P : Primitives}.

(** [CryptoManager.generate_key_hash] *)
Definition generate_key_hash (password : str) (salt : bytes) : result str :=
  data <- Utf8.encode (password ++ Hex.hex salt) ;;
  Ok (Hex.hex (sha256 data)).

End WithPrimitives.
End KeyHash.

Module ConfigManager.
Section WithPrimitives.
Context {P : Primitives}.

(** The file [key.dat]: absent, unreadable as the JSON object the code
    expects, or holding the two strings [salt] and [key_hash]. *)
Inductive key_file : Type :=
| Absent
| Corrupt
| Holds (salt key_hash : str).

(** The disk as far as the key file goes; [write_fails] says that opening
    the file for writing raises. *)
Record t : Type := {
  file : key_file;
  write_fails : bool
}.

(** What [load_key_data] returns when it returns a dictionary. *)
Record key_data : Type := {
  salt : bytes;
  key_hash : str
}.

(** [base64.b64encode(salt).decode()] *)
Definition salt_text (salt : bytes) : str :=
  map Byte.to_N (Base64.b2a_base64 salt).

(** [base64.b64decode(text)] for a [str]: [None] where it raises, which it
    does on a text with a character outside ASCII and on bad padding. *)
Definition b64decode (text : str) : option bytes :=
  if forallb (fun c => c <? 0x80) text
  then Base64.a2b_loop 0 0 0 (map byte_of text)
  else None.

(** [save_key_data]: the value returned and the disk afterwards. *)
Definition save_key_data (self : t) (salt : bytes) (key_hash : str)
  : bool * t :=
  if write_fails self then (false, self)
  else (true, {| file := Holds (salt_text salt) key_hash;
                 write_fails := write_fails self |}).

Definition load_key_data (self : t) : option key_data :=
  match file self with
  | Absent => None
  | Corrupt => None
  | Holds s h =>
      match b64decode s with
      | Some raw => Some {| salt := raw; key_hash := h |}
      | None => None
      end
  end.

(** [has_saved_key]: the file exists. *)
Definition has_saved_key (self : t) : bool :=
  match file self with Absent => false | _ => true end.

Definition verify_password (self : t) (password : str) : bool :=
  match load_key_data self with
  | None => false
  | Some kd =>
      match KeyHash.generate_key_hash password (salt kd) with
      | Ok generated_hash => str_eqb generated_hash (key_hash kd)
      | Raise _ => false
      end
  end.

End WithPrimitives.
End ConfigManager.

Module CliSession.
Section WithPrimitives.
Context {P : Primitives}.

(** The part of [CryptoClipboardCLI] the password commands touch: the
    crypto manager, the key file, [password_set] and whether the monitor
    of the clipboard manager runs.  There is no tray, and the lines the
    commands print are left out. *)
Record t : Type := {
  crypto_manager : CryptoManager.t;
  config_manager : ConfigManager.t;
  password_set : bool;
  monitoring : bool
}.

(** [__init__], before the saved settings are loaded. *)
Definition init (disk : ConfigManager.t) : t := {|
  crypto_manager := CryptoManager.init;
  config_manager := disk;
  password_set := false;
  monitoring := false
|}.

(** [set_password]; [rnd] is what [os.urandom(16)] returns. *)
Definition set_password (self : t) (password : str) (rnd : bytes)
  : bool * t :=
  if (length password <? 6)%nat then (false, self)
  else
    match CryptoManager.set_password (crypto_manager self) password None rnd with
    | Raise _ => (false, self)
    | Ok (cm, salt) =>
        match KeyHash.generate_key_hash password salt with
        | Raise _ =>
            (false, {| crypto_manager := cm;
                       config_manager := config_manager self;
                       password_set := password_set self;
                       monitoring := monitoring self |})
        | Ok key_hash =>
            let saved :=
              ConfigManager.save_key_data (config_manager self) salt key_hash in
            (true, {| crypto_manager := cm;
                      config_manager := snd saved;
                      password_set := true;
                      monitoring := true |})
        end
    end.

(** [_set_password_with_saved_key] *)
Definition _set_password_with_saved_key (self : t) (password : str)
    (rnd : bytes) : t :=
  match ConfigManager.load_key_data (config_manager self) with
  | None => self
  | Some kd =>
      match CryptoManager.set_password (crypto_manager self) password
              (Some (ConfigManager.salt kd)) rnd with
      | Raise _ => self
      | Ok (cm, _) =>
          {| crypto_manager := cm;
             config_manager := config_manager self;
             password_set := true;
             monitoring := true |}
      end
  end.

(** [_prompt_for_saved_password]: [typed] lists what [getpass] returns,
    attempt after attempt; the loop reads at most [attempts] of them. *)
Fixpoint prompt (attempts : nat) (self : t) (typed : list str) (rnd : bytes)
  : t :=
  match attempts, typed with
  | S n, password :: rest =>
      if ConfigManager.verify_password (config_manager self) password
      then _set_password_with_saved_key self password rnd
      else prompt n self rest rnd
  | _, _ => self
  end.

Definition _prompt_for_saved_password (self : t) (typed : list str)
    (rnd : bytes) : t :=
  prompt 3 self typed rnd.

End WithPrimitives.
End CliSession.

(** A disk on which the password "123456" was saved with a salt of sixteen
    zero bytes, under the toy primitives. *)
Module SavedDisk.

Definition zero_salt : bytes := repeat x00 16.

Definition saved_hash : str :=
  match KeyHash.generate_key_hash (P := Toy.prims) (py "123456") zero_salt with
  | Ok h => h
  | Raise _ => []
  end.

Definition disk : ConfigManager.t := {|
  ConfigManager.file :=
    ConfigManager.Holds (ConfigManager.salt_text zero_salt) saved_hash;
  ConfigManager.write_fails := false
|}.

End SavedDisk.

(** ** Vocabulary for the settings and the fingerprint *)

Module SettingsVocab.

(** The setter called with one value after the other, a refused value
    leaving the settings as they are (the command line catches the
    [ValueError] and asks again). *)
Definition after_setting (settings : Cli.AppSettings) (values : list Z)
  : Cli.AppSettings :=
  fold_left
    (fun st v =>
       match Cli.set_temporary_decrypt_duration st v with
       | Ok st' => st'
       | Raise _ => st
       end)
    values settings.

(** A fresh configuration: the duration was never stored. *)
Definition unset : Cli.AppSettings :=
  {| Cli.stored_temporary_decrypt_duration := None |}.

(** A lowercase hexadecimal digit. *)
Definition is_hexdigit (c : N) : bool :=
  ((0x30 <=? c) && (c <=? 0x39)) || ((0x61 <=? c) && (c <=? 0x66)).

End SettingsVocab.

(** ** [DirectPasteManager] *)

Module DirectPaste.
Import ClipboardManager.

(** The surroundings of a paste: the clipboard and whether reading it
    raises, the characters the keyboard controller fails to type, the
    characters typed so far (first typed first), and the clock in
    milliseconds. *)
Record World : Type := {
  clipboard : str;
  paste_fails : bool;
  type_fails : N -> bool;
  typed : str;
  clock : Z
}.

(** The object: [PYNPUT_AVAILABLE] as it was at import, whether a keyboard
    controller was created, and the crypto manager if one was given. *)
Record t : Type := {
  PYNPUT_AVAILABLE : bool;
  keyboard_controller : bool;
  crypto_manager : option CryptoOps
}.

Definition is_available (self : t) : bool :=
  PYNPUT_AVAILABLE self && keyboard_controller self.

(** The loop of [_type_text]: a character that fails to type is skipped,
    one that is typed is followed by a pause of a millisecond. *)
Fixpoint type_chars (text : str) (w : World) : World :=
  match text with
  | [] => w
  | char :: rest =>
      if type_fails w char then type_chars rest w
      else
        type_chars rest
          {| clipboard := clipboard w;
             paste_fails := paste_fails w;
             type_fails := type_fails w;
             typed := typed w ++ [char];
             clock := (clock w + 1)%Z |}
  end.

Definition _type_text (self : t) (text : str) (w : World) : bool * World :=
  if negb (keyboard_controller self) then (false, w)
  else
    (true,
     type_chars text
       {| clipboard := clipboard w;
          paste_fails := paste_fails w;
          type_fails := type_fails w;
          typed := typed w;
          clock := (clock w + 100)%Z |}).

(** [decrypt_and_paste]; the lines written to the logger are left out. *)
Definition decrypt_and_paste (self : t) (w : World) : bool * World :=
  if negb (is_available self) then (false, w)
  else
    match crypto_manager self with
    | None => (false, w)
    | Some crypto =>
        if paste_fails w then (false, w)
        else
          let clipboard_content := clipboard w in
          match clipboard_content with
          | [] => (false, w)
          | _ :: _ =>
              let decrypted_text :=
                match co_decrypt crypto clipboard_content with
                | Ok [] => clipboard_content
                | Ok text => text
                | Raise _ => clipboard_content
                end in
              _type_text self decrypted_text w
          end
    end.

(** The characters of a text the keyboard accepts. *)
Definition accepted (w : World) (text : str) : str :=
  filter (fun c => negb (type_fails w c)) text.

End DirectPaste.

(** ** The hotkey format check of the command line *)

Module HotkeyFormat.

(** [s.split(sep)] for a one-character separator: always at least one
    part, empty parts included. *)
Fixpoint split (sep : N) (s : str) : list str :=
  match s with
  | [] => [[]]
  | c :: r =>
      if c =? sep then [] :: split sep r
      else
        match split sep r with
        | p :: ps => (c :: p) :: ps
        | [] => [[c]]
        end
  end.

(** [sep.join(parts)] *)
Fixpoint join (sep : N) (parts : list str) : str :=
  match parts with
  | [] => []
  | [p] => p
  | p :: ps => p ++ sep :: join sep ps
  end.

Definition plus : N := 0x2B.

Definition valid_modifiers : list str :=
  [py "ctrl"; py "alt"; py "shift"; py "cmd"; py "meta"; py "super"].

(** [set('abcdefghijklmnopqrstuvwxyz0123456789')] and [f1] to [f12]. *)
Definition valid_keys : list str :=
  map (fun c => [c]) (py "abcdefghijklmnopqrstuvwxyz0123456789")
  ++ [py "f1"; py "f2"; py "f3"; py "f4"; py "f5"; py "f6";
      py "f7"; py "f8"; py "f9"; py "f10"; py "f11"; py "f12"].

Definition member (x : str) (l : list str) : bool := existsb (str_eqb x) l.

(** [CryptoClipboardCLI._validate_hotkey_format] *)
Definition _validate_hotkey_format (hotkey : str) : bool :=
  let parts := split plus hotkey in
  if (length parts <? 2)%nat then false
  else
    let modifiers := removelast parts in
    let key := last parts [] in
    if negb (forallb (fun modifier => member modifier valid_modifiers) modifiers)
    then false
    else if negb (member key valid_keys) then false
    else true.

End HotkeyFormat.

(** * Theorems *)

Lemma Some_eq {A} (a b : A) : Some a = Some b -> a = b.
Proof. congruence. Qed.


(** ** Bit-level arithmetic *)

Lemma byte_of_to_N (b : byte) : byte_of (Byte.to_N b) = b.
Proof.
  unfold byte_of. pose proof (Byte.to_N_bounded b).
  rewrite N.mod_small by lia. now rewrite Byte.of_to_N.
Qed.

Lemma to_N_byte_of (n : N) : Byte.to_N (byte_of n) = n mod 256.
Proof.
  unfold byte_of.
  assert (H : n mod 256 < 256) by (apply N.mod_lt; lia).
  destruct (Byte.of_N (n mod 256)) eqn:E.
  - now apply Byte.to_of_N.
  - apply Byte.of_N_None_iff in E. lia.
Qed.

Lemma to_N_byte_of_small (n : N) : n < 256 -> Byte.to_N (byte_of n) = n.
Proof. intros. rewrite to_N_byte_of. now apply N.mod_small. Qed.

(** [hi * 2^k] and a value below [2^k] share no bit, so or-ing adds them. *)
Lemma lor_high_low (k hi lo : N) :
  lo < 2 ^ k -> N.lor (hi * 2 ^ k) lo = hi * 2 ^ k + lo.
Proof.
  intros Hlo.
  assert (Hd : N.land (hi * 2 ^ k) lo = 0).
  { apply N.bits_inj. intros i. rewrite N.land_spec, N.bits_0.
    destruct (N.lt_ge_cases i k) as [Hi | Hi].
    - now rewrite N.mul_pow2_bits_low.
    - destruct (N.eq_dec lo 0) as [-> | Hz].
      + now rewrite N.bits_0, andb_false_r.
      + rewrite (N.bits_above_log2 lo i), andb_false_r; trivial.
        apply N.log2_lt_pow2 in Hlo; lia. }
  now rewrite N.add_nocarry_lxor, N.lxor_lor.
Qed.

Ltac pow2 :=
  change (2 ^ 3) with 8 in *; change (2 ^ 4) with 16 in *;
  change (2 ^ 5) with 32 in *; change (2 ^ 6) with 64 in *;
  change (2 ^ 12) with 4096 in *; change (2 ^ 18) with 262144 in *.

Ltac divmod := pow2; zify; Z.to_euclidean_division_equations; lia.

Lemma land_mask (x k m : N) : m = N.ones k -> N.land x m = x mod 2 ^ k.
Proof. intros ->. apply N.land_ones. Qed.

Lemma lor_tag (t k x v : N) :
  v = t * 2 ^ k -> x < 2 ^ k -> N.lor v x = v + x.
Proof. intros -> H. now apply lor_high_low. Qed.

Lemma shl_lor (h k l : N) :
  l < 2 ^ k -> N.lor (N.shiftl h k) l = h * 2 ^ k + l.
Proof. intros. rewrite N.shiftl_mul_pow2. now apply lor_high_low. Qed.

(** The base-64 digits of a number, as far as a code point needs them. *)
Lemma digits64 (c : N) :
  exists q1 q2 q3 d0 d1 d2,
    c / 64 = q1 /\ c / 4096 = q2 /\ c / 262144 = q3 /\
    c mod 64 = d0 /\ q1 mod 64 = d1 /\ q2 mod 64 = d2 /\
    c = 64 * q1 + d0 /\ q1 = 64 * q2 + d1 /\ q2 = 64 * q3 + d2 /\
    d0 < 64 /\ d1 < 64 /\ d2 < 64.
Proof.
  exists (c / 64), (c / 4096), (c / 262144),
    (c mod 64), ((c / 64) mod 64), ((c / 4096) mod 64).
  repeat split; try (apply N.mod_lt; lia).
  - apply N.div_mod; lia.
  - change 4096 with (64 * 64). rewrite <- N.Div0.div_div.
    apply N.div_mod; lia.
  - change 262144 with (4096 * 64). rewrite <- N.Div0.div_div.
    apply N.div_mod; lia.
Qed.

(** ** UTF-8: decoding undoes encoding *)

Module Utf8Facts.
Import Utf8.


Lemma decode_1 b r : (Byte.to_N b <? 0x80) = true ->
  decode_opt (b :: r) = option_map (cons (Byte.to_N b)) (decode_opt r).
Proof. intros H. cbn [decode_opt]. now rewrite H. Qed.

Lemma decode_2 b1 b2 r :
  (Byte.to_N b1 <? 0x80) = false -> in_range 0xC2 0xDF b1 = true ->
  cont b2 = true ->
  decode_opt (b1 :: b2 :: r) =
  option_map (cons (N.lor (N.shiftl (N.land (Byte.to_N b1) 0x1F) 6) (low6 b2)))
    (decode_opt r).
Proof. intros H1 H2 H3. cbn [decode_opt]. now rewrite H1, H2, H3. Qed.

Lemma decode_3 b1 b2 b3 r :
  (Byte.to_N b1 <? 0x80) = false -> in_range 0xC2 0xDF b1 = false ->
  in_range 0xE0 0xEF b1 = true ->
  in_range (if Byte.to_N b1 =? 0xE0 then 0xA0 else 0x80)
           (if Byte.to_N b1 =? 0xED then 0x9F else 0xBF) b2 = true ->
  cont b3 = true ->
  decode_opt (b1 :: b2 :: b3 :: r) =
  option_map (cons (N.lor (N.shiftl (N.land (Byte.to_N b1) 0x0F) 12)
                      (N.lor (N.shiftl (low6 b2) 6) (low6 b3))))
    (decode_opt r).
Proof. intros H1 H2 H3 H4 H5. cbn [decode_opt]. now rewrite H1, H2, H3, H4, H5. Qed.

Lemma decode_4 b1 b2 b3 b4 r :
  (Byte.to_N b1 <? 0x80) = false -> in_range 0xC2 0xDF b1 = false ->
  in_range 0xE0 0xEF b1 = false -> in_range 0xF0 0xF4 b1 = true ->
  in_range (if Byte.to_N b1 =? 0xF0 then 0x90 else 0x80)
           (if Byte.to_N b1 =? 0xF4 then 0x8F else 0xBF) b2 = true ->
  cont b3 = true -> cont b4 = true ->
  decode_opt (b1 :: b2 :: b3 :: b4 :: r) =
  option_map (cons (N.lor (N.shiftl (N.land (Byte.to_N b1) 0x07) 18)
                      (N.lor (N.shiftl (low6 b2) 12)
                         (N.lor (N.shiftl (low6 b3) 6) (low6 b4)))))
    (decode_opt r).
Proof.
  intros H1 H2 H3 H4 H5 H6 H7. cbn [decode_opt].
  now rewrite H1, H2, H3, H4, H5, H6, H7.
Qed.

Ltac to_arith :=
  rewrite ?N.shiftr_div_pow2;
  rewrite ?(land_mask _ 6 0x3F), ?(land_mask _ 5 0x1F),
          ?(land_mask _ 4 0x0F), ?(land_mask _ 3 0x07) by reflexivity;
  pow2.

Ltac with_digits c :=
  let q1 := fresh "q" in let q2 := fresh "q" in let q3 := fresh "q" in
  let d0 := fresh "d" in let d1 := fresh "d" in let d2 := fresh "d" in
  destruct (digits64 c)
    as (q1 & q2 & q3 & d0 & d1 & d2 & E1 & E2 & E3 & F0 & F1 & F2 & ?);
  rewrite ?E1, ?E2, ?E3, ?F0; rewrite ?F1, ?F2;
  clear E1 E2 E3 F0 F1 F2.

Lemma decode_encode_char (c : N) (b : bytes) (rest : bytes) :
  encode_char c = Some b ->
  decode_opt (b ++ rest) = option_map (cons c) (decode_opt rest).
Proof.
  unfold encode_char.
  destruct (c <? 0x80) eqn:C1.
  { intros E; apply Some_eq in E; subst b. apply N.ltb_lt in C1. cbn [app].
    rewrite decode_1; rewrite to_N_byte_of_small by lia; trivial.
    now apply N.ltb_lt. }
  apply N.ltb_ge in C1.
  destruct (c <? 0x800) eqn:C2.
  { intros E; apply Some_eq in E; subst b. apply N.ltb_lt in C2. cbn [app]. to_arith. with_digits c.
    rewrite (lor_tag 3 6), (lor_tag 2 6) by (reflexivity || divmod).
    rewrite decode_2; unfold cont, in_range, low6;
      rewrite ?to_N_byte_of_small by divmod; to_arith.
    - rewrite shl_lor by divmod. do 2 f_equal. divmod.
    - divmod.
    - divmod.
    - divmod. }
  apply N.ltb_ge in C2.
  destruct (c <? 0x10000) eqn:C3.
  { apply N.ltb_lt in C3.
    destruct ((0xD800 <=? c) && (c <=? 0xDFFF)) eqn:S; [ discriminate | ].
    intros E; apply Some_eq in E; subst b. cbn [app]. to_arith. with_digits c.
    assert (Hs : c < 0xD800 \/ 0xDFFF < c).
    { apply andb_false_iff in S. destruct S as [S | S];
        apply N.leb_gt in S; lia. }
    clear S.
    rewrite (lor_tag 14 4), !(lor_tag 2 6) by (reflexivity || divmod).
    rewrite decode_3; unfold cont, in_range, low6;
      rewrite ?to_N_byte_of_small by divmod; to_arith.
    - rewrite (shl_lor _ 6) by divmod. rewrite shl_lor by divmod.
      do 2 f_equal. divmod.
    - divmod.
    - divmod.
    - divmod.
    - destruct (224 + q0 =? 224) eqn:A; destruct (224 + q0 =? 237) eqn:B;
        cbv iota; divmod.
    - divmod. }
  apply N.ltb_ge in C3.
  destruct (c <? 0x110000) eqn:C4; [ | discriminate ].
  apply N.ltb_lt in C4.
  intros E; apply Some_eq in E; subst b. cbn [app]. to_arith. with_digits c.
  rewrite (lor_tag 30 3), !(lor_tag 2 6) by (reflexivity || divmod).
  rewrite decode_4; unfold cont, in_range, low6;
    rewrite ?to_N_byte_of_small by divmod; to_arith.
  - rewrite (shl_lor _ 6) by divmod. rewrite (shl_lor _ 12) by divmod.
    rewrite shl_lor by divmod. do 2 f_equal. divmod.
  - divmod.
  - divmod.
  - divmod.
  - divmod.
  - destruct (240 + q1 =? 240) eqn:A; destruct (240 + q1 =? 244) eqn:B;
      cbv iota; divmod.
  - divmod.
  - divmod.
Qed.

Lemma decode_encode_opt (s : str) : forall b,
  encode_opt s = Some b -> decode_opt b = Some s.
Proof.
  induction s as [| c s IH]; cbn [encode_opt]; intros b.
  - intros E; apply Some_eq in E; now subst b.
  - destruct (encode_char c) as [bc |] eqn:Ec; [ | discriminate ].
    destruct (encode_opt s) as [bs |]; [ | discriminate ].
    intros E; apply Some_eq in E; subst b.
    rewrite (decode_encode_char c bc bs Ec), (IH bs eq_refl). reflexivity.
Qed.

Lemma encode_char_scalar (c : N) :
  scalar c = true -> exists b, encode_char c = Some b.
Proof.
  unfold scalar, encode_char. intros H.
  destruct (c <? 0x80); [ eauto | ].
  destruct (c <? 0x800); [ eauto | ].
  destruct (c <? 0x10000) eqn:C3.
  - destruct ((0xD800 <=? c) && (c <=? 0xDFFF)) eqn:S; [ lia | eauto ].
  - destruct (c <? 0x110000) eqn:C4; [ eauto | lia ].
Qed.

Lemma encode_opt_total (s : str) :
  unicode_text s -> exists b, encode_opt s = Some b.
Proof.
  induction 1 as [| c s Hc _ IH]; cbn [encode_opt]; [ eauto | ].
  destruct (encode_char_scalar c Hc) as [bc ->]. destruct IH as [bs ->]. eauto.
Qed.

Lemma encode_total (s : str) : unicode_text s -> exists b, encode s = Ok b.
Proof.
  intros H. destruct (encode_opt_total s H) as [b E].
  exists b. unfold encode. now rewrite E.
Qed.

Lemma decode_encode (s : str) (b : bytes) : encode s = Ok b -> decode b = Ok s.
Proof.
  unfold encode, decode. destruct (encode_opt s) as [b' |] eqn:E; [ | discriminate ].
  intros [= <-]. now rewrite (decode_encode_opt s b' E).
Qed.

Lemma decode_ascii (bs : bytes) :
  ascii_bytes bs -> decode bs = Ok (map Byte.to_N bs).
Proof.
  unfold decode. induction 1 as [| b bs Hb _ IH]; [ reflexivity | ].
  rewrite decode_1 by now apply N.ltb_lt.
  destruct (decode_opt bs) as [s |]; [ | discriminate ].
  injection IH as ->. reflexivity.
Qed.

Lemma encode_ascii (bs : bytes) :
  ascii_bytes bs -> encode (map Byte.to_N bs) = Ok bs.
Proof.
  unfold encode. induction 1 as [| b bs Hb _ IH]; [ reflexivity | ].
  cbn [map encode_opt]. unfold encode_char.
  apply N.ltb_lt in Hb. rewrite Hb. rewrite byte_of_to_N.
  destruct (encode_opt (map Byte.to_N bs)) as [s |]; [ | discriminate ].
  injection IH as ->. reflexivity.
Qed.

End Utf8Facts.

(** ** Base64: decoding undoes encoding *)

Module Base64Facts.
Import Base64.

Lemma list_ind3 {A} (P : list A -> Prop) :
  P [] -> (forall a, P [a]) -> (forall a b, P [a; b]) ->
  (forall a b c r, P r -> P (a :: b :: c :: r)) ->
  forall l, P l.
Proof.
  intros H0 H1 H2 H3 l.
  enough (H : P l /\ (forall a, P (a :: l)) /\ (forall a b, P (a :: b :: l)))
    by apply H.
  induction l as [| x l (IH0 & IH1 & IH2)]; auto.
Qed.


Lemma below_64 (n : N) : n < 64 -> In n (map N.of_nat (seq 0 64)).
Proof.
  intros H. apply in_map_iff. exists (N.to_nat n). split.
  - apply N2Nat.id.
  - apply in_seq. lia.
Qed.

Lemma digits_ok (n : N) : n < 64 -> digit_ok n = true.
Proof.
  intros H. apply below_64 in H. revert n H. apply forallb_forall.
  vm_compute. reflexivity.
Qed.

Lemma translate_twice (s : bytes) :
  translate "-" "_" "+" "/" (translate "+" "/" "-" "_" s)
  = map (fun ch => dec_tr (enc_tr ch)) s.
Proof. unfold translate. rewrite map_map. reflexivity. Qed.

(** One alphabet character read by the loop. *)
Lemma loop_digit (v q l p : N) (s : bytes) :
  v < 64 ->
  a2b_loop q l p (dec_tr (enc_tr (b2a v)) :: s) =
  if q =? 0 then a2b_loop 1 v 0 s
  else if q =? 1 then
    option_map (cons (byte_of (N.lor (N.shiftl l 2) (N.shiftr v 4))))
      (a2b_loop 2 (N.land v 0x0F) 0 s)
  else if q =? 2 then
    option_map (cons (byte_of (N.lor (N.shiftl l 4) (N.shiftr v 2))))
      (a2b_loop 3 (N.land v 0x03) 0 s)
  else
    option_map (cons (byte_of (N.lor (N.shiftl l 6) v))) (a2b_loop 0 0 0 s).
Proof.
  intros H. apply digits_ok in H. unfold digit_ok in H.
  apply andb_prop in H. destruct H as [H _].
  apply andb_prop in H. destruct H as [Hp Hv].
  cbn [a2b_loop]. apply negb_true_iff in Hp. rewrite Hp.
  destruct (table_a2b_base64 (dec_tr (enc_tr (b2a v)))) as [m |];
    [ | discriminate ].
  apply N.eqb_eq in Hv. now subst m.
Qed.

Lemma loop_pad (q l p : N) (s : bytes) :
  a2b_loop q l p (dec_tr (enc_tr BASE64_PAD) :: s) =
  if 2 <=? q then
    if 4 <=? q + (p + 1) then Some [] else a2b_loop q l (p + 1) s
  else a2b_loop q l p s.
Proof. reflexivity. Qed.


Ltac split_at x k :=
  let q := fresh "q" in let r := fresh "r" in
  pose proof (N.div_mod x k ltac:(lia));
  pose proof (N.mod_lt x k ltac:(lia));
  remember (x / k) as q; remember (x mod k) as r;
  match goal with Hq : q = _, Hr : r = _ |- _ => clear Hq Hr end.

Ltac b64_arith :=
  rewrite ?N.shiftr_div_pow2, ?N.shiftl_mul_pow2;
  rewrite ?(land_mask _ 6 0x3F), ?(land_mask _ 4 0x0F), ?(land_mask _ 2 0x03)
    by reflexivity;
  change (2 ^ 2) with 4 in *; pow2.

(** The four digits of a full group, as numbers. *)
Lemma sextets (a b c : N) :
  a < 256 -> b < 256 -> c < 256 ->
  N.shiftr a 2 = a / 4 /\
  N.lor (N.shiftl (N.land a 3) 4) (N.shiftr b 4) = a mod 4 * 16 + b / 16 /\
  N.lor (N.shiftl (N.land b 0xF) 2) (N.shiftr c 6) = b mod 16 * 4 + c / 64 /\
  N.land c 0x3F = c mod 64 /\
  N.shiftl (N.land a 3) 4 = a mod 4 * 16 /\
  N.shiftl (N.land b 0xF) 2 = b mod 16 * 4.
Proof.
  intros Ha Hb Hc.
  rewrite !shl_lor by (b64_arith; divmod).
  b64_arith. repeat split; reflexivity.
Qed.

Lemma unsextets (a b c : N) :
  a < 256 -> b < 256 -> c < 256 ->
  N.lor (N.shiftl (a / 4) 2) (N.shiftr (a mod 4 * 16 + b / 16) 4) = a /\
  N.land (a mod 4 * 16 + b / 16) 0x0F = b / 16 /\
  N.lor (N.shiftl (b / 16) 4) (N.shiftr (b mod 16 * 4 + c / 64) 2) = b /\
  N.land (b mod 16 * 4 + c / 64) 0x03 = c / 64 /\
  N.lor (N.shiftl (c / 64) 6) (c mod 64) = c /\
  a / 4 < 64 /\ a mod 4 * 16 + b / 16 < 64 /\
  b mod 16 * 4 + c / 64 < 64 /\ c mod 64 < 64.
Proof.
  intros Ha Hb Hc.
  split_at a 4. split_at b 16. split_at c 64.
  rewrite !shl_lor by (b64_arith; divmod).
  b64_arith. repeat split; divmod.
Qed.

Lemma b2a_a2b_loop (bs : bytes) : forall l p,
  a2b_loop 0 l p (map (fun ch => dec_tr (enc_tr ch)) (b2a_base64 bs)) = Some bs.
Proof.
  induction bs as [| a | a b | a b c r IH] using list_ind3; intros l p.
  - reflexivity.
  - pose proof (Byte.to_N_bounded a) as Ha.
    destruct (sextets (Byte.to_N a) 0 0) as (E1 & _ & _ & _ & E5 & _); try lia.
    destruct (unsextets (Byte.to_N a) 0 0) as (D1 & D2 & _ & _ & _ & B1 & B2 & _);
      try lia.
    change (0 / 16) with 0 in *. rewrite N.add_0_r in *.
    cbn [b2a_base64 map]. rewrite E1, E5.
    rewrite !loop_digit by assumption. cbn [N.eqb Pos.eqb].
    rewrite D1, D2. rewrite !loop_pad. cbn. now rewrite byte_of_to_N.
  - pose proof (Byte.to_N_bounded a) as Ha.
    pose proof (Byte.to_N_bounded b) as Hb.
    destruct (sextets (Byte.to_N a) (Byte.to_N b) 0)
      as (E1 & E2 & _ & _ & _ & E6); try lia.
    destruct (unsextets (Byte.to_N a) (Byte.to_N b) 0)
      as (D1 & D2 & D3 & _ & _ & B1 & B2 & B3 & _); try lia.
    change (0 / 64) with 0 in *. rewrite N.add_0_r in *.
    cbn [b2a_base64 map]. rewrite E1, E2, E6.
    rewrite !loop_digit by assumption. cbn [N.eqb Pos.eqb].
    rewrite D1, D2, D3. rewrite !loop_pad. cbn. now rewrite !byte_of_to_N.
  - pose proof (Byte.to_N_bounded a) as Ha.
    pose proof (Byte.to_N_bounded b) as Hb.
    pose proof (Byte.to_N_bounded c) as Hc.
    destruct (sextets (Byte.to_N a) (Byte.to_N b) (Byte.to_N c))
      as (E1 & E2 & E3 & E4 & _); try lia.
    destruct (unsextets (Byte.to_N a) (Byte.to_N b) (Byte.to_N c))
      as (D1 & D2 & D3 & D4 & D5 & B1 & B2 & B3 & B4); try lia.
    cbn [b2a_base64 map]. rewrite E1, E2, E3, E4.
    rewrite !loop_digit by assumption. cbn [N.eqb Pos.eqb].
    rewrite D1, D2, D3, D4, D5, IH. cbn [option_map].
    now rewrite !byte_of_to_N.
Qed.

Theorem urlsafe_b64decode_b64encode (bs : bytes) :
  urlsafe_b64decode (urlsafe_b64encode bs) = Ok bs.
Proof.
  unfold urlsafe_b64decode, urlsafe_b64encode, a2b_base64.
  now rewrite translate_twice, b2a_a2b_loop.
Qed.

Lemma b2a_ascii (n : N) : n < 64 -> Byte.to_N (enc_tr (b2a n)) < 0x80.
Proof.
  intros H. apply digits_ok in H. unfold digit_ok in H.
  apply andb_prop in H. destruct H as [_ H]. now apply N.ltb_lt.
Qed.

Lemma urlsafe_b64encode_ascii (bs : bytes) :
  Utf8.ascii_bytes (urlsafe_b64encode bs).
Proof.
  unfold urlsafe_b64encode, translate, Utf8.ascii_bytes.
  change (fun ch : byte => if Byte.eqb ch "+" then "-"%byte
            else if Byte.eqb ch "/" then "_"%byte else ch) with enc_tr.
  induction bs as [| a | a b | a b c r IH] using list_ind3.
  - constructor.
  - pose proof (Byte.to_N_bounded a) as Ha.
    destruct (sextets (Byte.to_N a) 0 0) as (E1 & _ & _ & _ & E5 & _); try lia.
    destruct (unsextets (Byte.to_N a) 0 0) as (_ & _ & _ & _ & _ & B1 & B2 & _);
      try lia.
    change (0 / 16) with 0 in *. rewrite N.add_0_r in *.
    cbn [b2a_base64 map]. rewrite E1, E5.
    repeat constructor; try (now apply b2a_ascii); vm_compute; reflexivity.
  - pose proof (Byte.to_N_bounded a) as Ha.
    pose proof (Byte.to_N_bounded b) as Hb.
    destruct (sextets (Byte.to_N a) (Byte.to_N b) 0)
      as (E1 & E2 & _ & _ & _ & E6); try lia.
    destruct (unsextets (Byte.to_N a) (Byte.to_N b) 0)
      as (_ & _ & _ & _ & _ & B1 & B2 & B3 & _); try lia.
    change (0 / 64) with 0 in *. rewrite N.add_0_r in *.
    cbn [b2a_base64 map]. rewrite E1, E2, E6.
    repeat constructor; try (now apply b2a_ascii); vm_compute; reflexivity.
  - pose proof (Byte.to_N_bounded a) as Ha.
    pose proof (Byte.to_N_bounded b) as Hb.
    pose proof (Byte.to_N_bounded c) as Hc.
    destruct (sextets (Byte.to_N a) (Byte.to_N b) (Byte.to_N c))
      as (E1 & E2 & E3 & E4 & _); try lia.
    destruct (unsextets (Byte.to_N a) (Byte.to_N b) (Byte.to_N c))
      as (_ & _ & _ & _ & _ & B1 & B2 & B3 & B4); try lia.
    cbn [b2a_base64 map]. rewrite E1, E2, E3, E4.
    repeat (constructor; [ now apply b2a_ascii | ]). exact IH.
Qed.
End Base64Facts.

(** ** [CryptoManager]: what encrypt and decrypt compute *)

Module CryptoFacts.
Import CryptoManager CryptoVocab.
Section WithPrimitives.
Context {P : Primitives}.


Lemma envelope_decode (token : bytes) :
  Utf8.decode (Base64.urlsafe_b64encode token) = Ok (envelope token).
Proof. apply Utf8Facts.decode_ascii, Base64Facts.urlsafe_b64encode_ascii. Qed.

Lemma envelope_encode (token : bytes) :
  Utf8.encode (envelope token) = Ok (Base64.urlsafe_b64encode token).
Proof. apply Utf8Facts.encode_ascii, Base64Facts.urlsafe_b64encode_ascii. Qed.

Lemma encrypt_session (self : t) (k : bytes) now iv plaintext data :
  cipher_suite self = Some k ->
  Utf8.encode plaintext = Ok data ->
  encrypt self now iv plaintext = Ok (envelope (fernet_encrypt k now iv data)).
Proof.
  intros Hk Hd. unfold encrypt. rewrite Hk, Hd. cbn [bind].
  apply envelope_decode.
Qed.

(** Every normal return of [encrypt] is the envelope of a Fernet token of the
    encoded plaintext. *)
Lemma encrypt_inv (self : t) now iv plaintext c :
  encrypt self now iv plaintext = Ok c ->
  exists k data,
    cipher_suite self = Some k /\ Utf8.encode plaintext = Ok data /\
    c = envelope (fernet_encrypt k now iv data).
Proof.
  unfold encrypt. destruct (cipher_suite self) as [k |]; [ | discriminate ].
  destruct (Utf8.encode plaintext) as [data | e] eqn:Hd; [ | discriminate ].
  cbn [bind]. rewrite envelope_decode. intros [= <-]. eauto.
Qed.

Lemma decrypt_envelope (self : t) (k token : bytes) :
  cipher_suite self = Some k ->
  decrypt self (envelope token) =
  match fernet_decrypt k token with
  | Some d =>
      match Utf8.decode d with
      | Ok s => Ok s
      | Raise e => Raise (ValueError (DecryptFailed e))
      end
  | None => Raise (ValueError (DecryptFailed InvalidToken))
  end.
Proof.
  intros Hk. unfold decrypt. rewrite Hk, envelope_encode. cbn [bind].
  rewrite Base64Facts.urlsafe_b64decode_b64encode. cbn [bind].
  destruct (fernet_decrypt k token) as [d |]; cbn [bind try_except];
    [ | reflexivity ].
  destruct (Utf8.decode d); reflexivity.
Qed.

(** [decrypt] raises nothing but [ValueError]. *)
Lemma decrypt_raises (self : t) (text : str) (e : exn) :
  decrypt self text = Raise e -> exists m, e = ValueError m.
Proof.
  unfold decrypt. destruct (cipher_suite self) as [k |].
  - destruct (c <- Utf8.encode text;; _) as [s | e']; cbn [try_except].
    + discriminate.
    + intros [= <-]. eauto.
  - intros [= <-]. eauto.
Qed.

End WithPrimitives.
End CryptoFacts.

(** ** The toy primitives satisfy the laws *)

Module ToyFacts.
Import Toy.

Lemma bytes_eqb_refl (a : bytes) : bytes_eqb a a = true.
Proof. unfold bytes_eqb. now destruct (list_eq_dec byte_eq_dec a a). Qed.

Lemma bytes_eqb_neq (a b : bytes) : a <> b -> bytes_eqb a b = false.
Proof. unfold bytes_eqb. now destruct (list_eq_dec byte_eq_dec a b). Qed.

Lemma firstn_length_app {A} (a b : list A) : firstn (length a) (a ++ b) = a.
Proof. induction a; cbn; congruence. Qed.

Lemma skipn_length_app {A} (a b : list A) : skipn (length a) (a ++ b) = b.
Proof. induction a; cbn; congruence. Qed.

Lemma correct : FernetCorrect prims.
Proof.
  intros key now iv data. cbn [fernet_decrypt fernet_encrypt prims].
  unfold toy_decrypt, toy_encrypt.
  now rewrite firstn_length_app, bytes_eqb_refl, skipn_length_app.
Qed.

Lemma nonempty : FernetNonEmpty prims.
Proof.
  intros key now iv data H. cbn [fernet_encrypt prims]. unfold toy_encrypt.
  destruct key; [ discriminate | discriminate ].
Qed.

Lemma toy_block_length (n : nat) (block : bytes) :
  length (toy_block n block) = 32%nat.
Proof.
  unfold toy_block.
  rewrite length_firstn, !length_app, !repeat_length. lia.
Qed.

Lemma xor_bytes_length_eq (a b : bytes) :
  length a = length b -> length (Kdf.xor_bytes a b) = length a.
Proof.
  revert b. induction a as [| x a IH]; intros [| y b]; cbn; try discriminate;
    trivial.
  intros [= H]. now rewrite IH.
Qed.

Lemma toy_fold_length (fuel n : nat) (m acc : bytes) :
  length acc = 32%nat -> length (toy_fold fuel n m acc) = 32%nat.
Proof.
  revert n m acc. induction fuel as [| fuel IH]; intros n m acc H;
    cbn [toy_fold]; trivial.
  destruct m as [| b m]; trivial.
  apply IH. rewrite xor_bytes_length_eq; trivial.
  now rewrite toy_block_length.
Qed.

Lemma sha_length : Sha256Length prims.
Proof.
  intros m. cbn [sha256 prims]. unfold toy_sha256.
  apply toy_fold_length, repeat_length.
Qed.

End ToyFacts.

(** ** The derived key *)

Module KdfFacts.
Import Kdf.
Section WithPrimitives.
Context {P : Primitives}.

Lemma xor_bytes_length (a b : bytes) :
  length (xor_bytes a b) = Nat.min (length a) (length b).
Proof.
  revert b. induction a as [| x a IH]; intros [| y b]; cbn; trivial.
  now rewrite IH.
Qed.

Lemma hmac_length `{!Sha256Length P} (k m : bytes) : length (hmac k m) = 32%nat.
Proof. apply sha256_length. Qed.

Lemma derive_length `{!Sha256Length P} (password salt : bytes) :
  length (derive password salt) = 32%nat.
Proof.
  unfold derive, pbkdf2_block1.
  set (u1 := hmac password _).
  assert (H : length (snd (N.iter (100000 - 1) (pbkdf2_round password) (u1, u1)))
              = 32%nat).
  { apply (N.iter_invariant (100000 - 1) _ (pbkdf2_round password)
             (fun st => length (snd st) = 32%nat)).
    - intros [u acc] Hacc. cbn [pbkdf2_round fst snd] in *.
      rewrite xor_bytes_length, Hacc, hmac_length. reflexivity.
    - apply hmac_length. }
  rewrite length_firstn, H. reflexivity.
Qed.

(** A key shorter than a block and the same key followed by a zero byte are
    the same HMAC key. *)
Lemma hmac_key_nul (k : bytes) :
  (length k < block_size)%nat -> hmac_key (k ++ [x00]) = hmac_key k.
Proof.
  unfold hmac_key, block_size. intros H. cbv zeta.
  rewrite length_app. cbn [length].
  destruct (Nat.ltb_spec 64 (length k + 1)); [ lia | ].
  destruct (Nat.ltb_spec 64 (length k)); [ lia | ].
  rewrite length_app, <- app_assoc. f_equal. cbn [app length].
  replace (64 - length k)%nat with (S (64 - (length k + 1))) by lia.
  reflexivity.
Qed.

Lemma iter_ext {A} (f g : A -> A) (n : N) (x : A) :
  (forall y, f y = g y) -> N.iter n f x = N.iter n g x.
Proof.
  intros H. induction n as [| n IH] using N.peano_ind; [ reflexivity | ].
  now rewrite !N.iter_succ, IH, H.
Qed.

Theorem derive_nul (password salt : bytes) :
  (length password < block_size)%nat ->
  derive (password ++ [x00]) salt = derive password salt.
Proof.
  intros H. unfold derive, pbkdf2_block1.
  assert (Hh : forall m, hmac (password ++ [x00]) m = hmac password m).
  { intros m. unfold hmac. now rewrite hmac_key_nul. }
  cbv zeta. rewrite Hh.
  rewrite (iter_ext (pbkdf2_round (password ++ [x00]))
             (pbkdf2_round password)); [ reflexivity | ].
  intros st. unfold pbkdf2_round. now rewrite Hh.
Qed.

(** *** When the chain of HMAC values settles

    If the second value of the chain is a fixed point of the HMAC, every
    later value equals it, and as the remaining number of rounds is even
    they cancel out of the running exclusive or. *)






End WithPrimitives.
End KdfFacts.

(** ** Keys the toy primitives derive *)

Module ToyKeyFacts.
Import Kdf CryptoVocab.




End ToyKeyFacts.

(** ** Sessions *)

Module SessionFacts.
Import CryptoManager CryptoVocab CryptoFacts.
Section WithPrimitives.
Context {P : Primitives}.


Lemma Fernet_derived `{!Sha256Length P} (pw salt : bytes) :
  Fernet (Base64.urlsafe_b64encode (Kdf.derive pw salt))
  = Ok (Kdf.derive pw salt).
Proof.
  unfold Fernet. rewrite Base64Facts.urlsafe_b64decode_b64encode.
  now rewrite KdfFacts.derive_length.
Qed.

(** With a password that encodes, [set_password] installs the derived key. *)
Lemma set_password_ok `{!Sha256Length P} self password salt urandom pw :
  Utf8.encode password = Ok pw ->
  set_password self password salt urandom =
  Ok ({| key := Some (Base64.urlsafe_b64encode
                        (Kdf.derive pw (salt_used salt urandom)));
         cipher_suite := Some (Kdf.derive pw (salt_used salt urandom)) |},
      salt_used salt urandom).
Proof.
  intros E. unfold set_password. rewrite E. cbn [bind].
  fold (salt_used salt urandom). now rewrite Fernet_derived.
Qed.

(** Whenever [set_password] returns, the session holds the key derived from
    the encoded password and the salt, and that key has 32 bytes. *)
Lemma set_password_inv self password salt urandom self' s :
  set_password self password salt urandom = Ok (self', s) ->
  exists pw,
    Utf8.encode password = Ok pw /\ s = salt_used salt urandom /\
    cipher_suite self' = Some (Kdf.derive pw s) /\
    length (Kdf.derive pw s) = 32%nat.
Proof.
  unfold set_password. fold (salt_used salt urandom).
  destruct (Utf8.encode password) as [pw | e]; [ | discriminate ].
  cbn [bind]. unfold Fernet.
  rewrite Base64Facts.urlsafe_b64decode_b64encode.
  destruct (Nat.eqb_spec (length (Kdf.derive pw (salt_used salt urandom))) 32)
    as [L | L]; [ | discriminate ].
  cbn [bind]. intros [= <- <-]. exists pw. cbn [cipher_suite]. auto.
Qed.

Lemma encode_opt_app (a b : str) :
  Utf8.encode_opt (a ++ b) =
  match Utf8.encode_opt a, Utf8.encode_opt b with
  | Some x, Some y => Some (x ++ y)
  | _, _ => None
  end.
Proof.
  induction a as [| c a IH]; cbn [app Utf8.encode_opt].
  - now destruct (Utf8.encode_opt b).
  - rewrite IH. destruct (Utf8.encode_char c) as [bc |]; trivial.
    destruct (Utf8.encode_opt a) as [x |]; trivial.
    destruct (Utf8.encode_opt b) as [y |]; trivial.
    now rewrite app_assoc.
Qed.

Lemma encode_nul (password : str) (pw : bytes) :
  Utf8.encode password = Ok pw ->
  Utf8.encode (password ++ [0]) = Ok (pw ++ [x00]).
Proof.
  unfold Utf8.encode. rewrite encode_opt_app.
  destruct (Utf8.encode_opt password) as [x |]; [ | discriminate ].
  intros [= ->]. reflexivity.
Qed.


End WithPrimitives.
End SessionFacts.

(** ** Round trip and detection *)

Module CryptoClaims.
Import CryptoManager CryptoVocab CryptoFacts SessionFacts.


Lemma toy_set_password (password : str) (pw : bytes) :
  Utf8.encode password = Ok pw ->
  set_password (P := Toy.prims) init password (Some salt0) []
  = Ok (toy_session pw, salt0).
Proof.
  intros E.
  exact (set_password_ok (P := Toy.prims) (Sha256Length0 := ToyFacts.sha_length)
           init password (Some salt0) [] pw E).
Qed.

(** Under a session, encryption of a Unicode text followed by decryption. *)
Lemma session_roundtrip {P : Primitives} {FC : FernetCorrect P}
    (self : CryptoManager.t) (k : bytes) (now : N) (iv : bytes)
    (plaintext : str) :
  cipher_suite self = Some k ->
  Utf8.unicode_text plaintext ->
  exists c,
    encrypt self now iv plaintext = Ok c /\ decrypt self c = Ok plaintext.
Proof.
  intros Hk Hu.
  destruct (Utf8Facts.encode_total plaintext Hu) as [data Hd].
  exists (envelope (fernet_encrypt k now iv data)). split.
  - exact (encrypt_session self _ now iv plaintext data Hk Hd).
  - rewrite (decrypt_envelope self _ _ Hk), fernet_roundtrip.
    rewrite (Utf8Facts.decode_encode plaintext data Hd). reflexivity.
Qed.

(** C1.  Once [set_password] has returned, every plaintext made of Unicode
    scalar values, the empty one and arbitrarily long ones included, is
    encrypted without error, and decrypting the result under the same
    session gives the plaintext back. *)
Theorem encrypt_decrypt_roundtrip
    {P : Primitives} {FC : FernetCorrect P}
    (self0 self : CryptoManager.t) (password : str) (salt : option bytes)
    (urandom used : bytes) (now : N) (iv : bytes) (plaintext : str) :
  set_password self0 password salt urandom = Ok (self, used) ->
  Utf8.unicode_text plaintext ->
  exists c,
    encrypt self now iv plaintext = Ok c /\ decrypt self c = Ok plaintext.
Proof.
  intros Hs Hu.
  apply set_password_inv in Hs. destruct Hs as (pw & _ & _ & Hk & _).
  exact (session_roundtrip self _ now iv plaintext Hk Hu).
Qed.

Lemma encrypt_decrypt_roundtrip_witness :
  exists c,
    encrypt (P := Toy.prims) (toy_session [x70; x77]) 7 [] [0x8FD9; 0x1F600; 0x41]
      = Ok c
    /\ decrypt (P := Toy.prims) (toy_session [x70; x77]) c
       = Ok [0x8FD9; 0x1F600; 0x41].
Proof.
  apply (encrypt_decrypt_roundtrip (P := Toy.prims) (FC := ToyFacts.correct)
           init (toy_session [x70; x77]) (py "pw") (Some salt0) [] salt0).
  - apply toy_set_password. reflexivity.
  - repeat constructor.
Defined.

(** Outside Unicode text: a lone surrogate does not encode, and [encrypt]
    raises. *)
Lemma encrypt_lone_surrogate {P : Primitives} (self : CryptoManager.t) k now iv :
  cipher_suite self = Some k ->
  encrypt self now iv [0xD800] = Raise UnicodeEncodeError.
Proof. intros Hk. unfold encrypt. now rewrite Hk. Qed.

Lemma is_encrypted_text_decrypt {P : Primitives} (self : CryptoManager.t)
    (text : str) :
  is_encrypted_text self text = true <-> exists p, decrypt self text = Ok p.
Proof.
  unfold is_encrypted_text.
  destruct (decrypt self text) as [p | e] eqn:D.
  - split; [ eauto | intros _ ].
    revert D. unfold decrypt.
    destruct (cipher_suite self) as [k |]; [ | discriminate ].
    destruct (Utf8.encode text) as [c | e]; [ | discriminate ].
    cbn [bind].
    destruct (Base64.urlsafe_b64decode c) as [d | e]; [ | discriminate ].
    reflexivity.
  - split; [ | intros [p Hp]; discriminate ].
    destruct (cipher_suite self) as [k |]; [ | discriminate ].
    destruct (Utf8.encode text) as [c | e1]; [ | discriminate ].
    cbn [bind].
    destruct (Base64.urlsafe_b64decode c) as [d | e2]; discriminate.
Qed.

(** C2.  [is_encrypted_text] returns a boolean for every object and every
    text, and that boolean is true exactly when [decrypt] of the same text
    returns; under one session it is true of whatever [encrypt] returns,
    and [encrypt] returns for every Unicode text. *)
Theorem is_encrypted_text_iff_decrypt
    {P : Primitives} {FC : FernetCorrect P}
    (self : CryptoManager.t) (text : str) :
  (is_encrypted_text self text = true <-> exists p, decrypt self text = Ok p)
  /\ (forall k now iv plaintext,
        cipher_suite self = Some k -> Utf8.unicode_text plaintext ->
        exists c, encrypt self now iv plaintext = Ok c
                  /\ is_encrypted_text self c = true).
Proof.
  split; [ apply is_encrypted_text_decrypt | ].
  intros k now iv plaintext Hk Hu.
  destruct (Utf8Facts.encode_total plaintext Hu) as [data Hd].
  exists (envelope (fernet_encrypt k now iv data)). split.
  - exact (encrypt_session self k now iv plaintext data Hk Hd).
  - apply is_encrypted_text_decrypt. exists plaintext.
    rewrite (decrypt_envelope self _ _ Hk), fernet_roundtrip.
    rewrite (Utf8Facts.decode_encode plaintext data Hd). reflexivity.
Qed.

Lemma is_encrypted_text_iff_decrypt_witness :
  (is_encrypted_text (P := Toy.prims) (toy_session [x70; x77]) (py "hello")
     = true
   <-> exists p,
         decrypt (P := Toy.prims) (toy_session [x70; x77]) (py "hello") = Ok p)
  /\ exists c,
       encrypt (P := Toy.prims) (toy_session [x70; x77]) 7 [] [] = Ok c
       /\ is_encrypted_text (P := Toy.prims) (toy_session [x70; x77]) c = true.
Proof.
  destruct (is_encrypted_text_iff_decrypt (P := Toy.prims)
              (FC := ToyFacts.correct) (toy_session [x70; x77]) (py "hello"))
    as [H1 H2].
  split; [ exact H1 | ].
  apply (H2 (Kdf.derive (P := Toy.prims) [x70; x77] salt0) 7 [] []).
  - reflexivity.
  - constructor.
Defined.


(** *** A different password *)






End CryptoClaims.

(** ** [ClipboardManager]: the private methods *)

Module ClipboardFacts.
Import ClipboardManager Observations.

Section WithCrypto.
Variable crypto : CryptoOps.

Lemma get_clipboard_content_spec (s : t) (w : World) :
  _get_clipboard_content s w = (Ok (observed w), s, w).
Proof.
  unfold _get_clipboard_content, observed, try_, mbind, pyperclip_paste, ret.
  destruct (paste_fails w); [ reflexivity | ].
  destruct (clipboard w); reflexivity.
Qed.

Lemma set_clipboard_content_spec (content : str) (s : t) (w : World) :
  _set_clipboard_content content s w =
  if copy_fails w then
    (Ok tt, write_failed content (clock w) s,
     if on_error s then log (OnError (SetClipboardFailed PyperclipException)) w
     else w)
  else
    (Ok tt, written content (clock w) s,
     set_clock (clock w + 200)%Z (log (Copy content) (set_clipboard content w))).
Proof.
  unfold _set_clipboard_content, try_, mbind, modify, time_time,
    pyperclip_copy, time_sleep, call. cbn.
  destruct (copy_fails w); reflexivity.
Qed.

Lemma set_clipboard_content_total (content : str) :
  total (_set_clipboard_content content).
Proof.
  intros s w. rewrite set_clipboard_content_spec.
  destruct (copy_fails w); eauto.
Qed.

Lemma call_spec (cb : t -> bool) (e : Event) (s : t) (w : World) :
  call cb e s w = (Ok tt, s, if cb s then log e w else w).
Proof. reflexivity. Qed.

Lemma auto_encrypt_total (plaintext : str) : total (_auto_encrypt crypto plaintext).
Proof.
  intros s w. unfold _auto_encrypt, try_, mbind, crypto_encrypt.
  destruct (co_encrypt crypto _ _ plaintext) as [c | e].
  - rewrite set_clipboard_content_spec.
    destruct (copy_fails w); rewrite call_spec; eauto.
  - rewrite call_spec. eauto.
Qed.

Lemma handle_clipboard_change_total (old new : str) :
  total (_handle_clipboard_change crypto old new).
Proof.
  intros s w. unfold _handle_clipboard_change, try_, mbind.
  rewrite call_spec.
  destruct (blank new); [ unfold ret; eauto | ].
  unfold get.
  destruct (negb (co_is_encrypted_text crypto new) && encryption_enabled s).
  - destruct (auto_encrypt_total new s
                (if on_clipboard_changed s
                 then log (OnClipboardChanged old new) w else w))
      as (a & s' & w' & ->). eauto.
  - destruct (co_is_encrypted_text crypto new).
    + rewrite call_spec. eauto.
    + unfold ret. eauto.
Qed.

(** One turn of the loop, in closed form. *)
Lemma monitor_iteration_spec (s : t) (w : World) :
  monitor_iteration crypto s w =
  if should_process s (observed w) (clock w) then
    let r := _handle_clipboard_change crypto (last_clipboard_content s)
               (observed w) s w in
    (Ok 500%Z, set_last_clipboard_content (observed w) (state_after r),
     set_clock (clock (world_after r) + 500)%Z (world_after r))
  else if _ignore_next_change s then
    (Ok 500%Z,
     set_last_clipboard_content (observed w) (set_ignore_next_change false s),
     set_clock (clock w + 500)%Z w)
  else (Ok 500%Z, s, set_clock (clock w + 500)%Z w).
Proof.
  unfold monitor_iteration, try_ at 1, mbind at 1.
  rewrite get_clipboard_content_spec.
  unfold mbind at 1, get. unfold mbind at 1, time_time.
  destruct (should_process s (observed w) (clock w)).
  - unfold mbind at 1. unfold mbind at 1.
    destruct (handle_clipboard_change_total (last_clipboard_content s)
                (observed w) s w) as ([] & s' & w' & E).
    rewrite E. reflexivity.
  - destruct (_ignore_next_change s); reflexivity.
Qed.

(** Events are only ever added. *)
Lemma set_clipboard_content_trace (content : str) (s : t) (w : World) :
  exists l, trace (world_after (_set_clipboard_content content s w))
            = l ++ trace w.
Proof.
  rewrite set_clipboard_content_spec. unfold world_after.
  destruct (copy_fails w); cbn [snd].
  - destruct (on_error s).
    + now exists [OnError (SetClipboardFailed PyperclipException)].
    + now exists [].
  - now exists [Copy content].
Qed.

Lemma call_trace (cb : t -> bool) (e : Event) (s : t) (w : World) :
  exists l, (if cb s then log e w else w) = (if cb s then log e w else w)
            /\ trace (if cb s then log e w else w) = l ++ trace w.
Proof.
  destruct (cb s); [ now exists [e] | now exists [] ].
Qed.

Lemma auto_encrypt_trace (plaintext : str) (s : t) (w : World) :
  exists l, trace (world_after (_auto_encrypt crypto plaintext s w))
            = l ++ trace w.
Proof.
  unfold _auto_encrypt, try_, mbind, crypto_encrypt, world_after.
  destruct (co_encrypt crypto _ _ plaintext) as [c | e].
  - destruct (set_clipboard_content_trace c s w) as [l Hl].
    unfold world_after in Hl.
    destruct (_set_clipboard_content c s w) as [[[[] | e'] s'] w'] eqn:E.
    + rewrite call_spec. cbn [snd] in *.
      destruct (call_trace on_encryption_performed
                  (OnEncryptionPerformed (Plain plaintext)) s' w')
        as (l' & _ & Hl').
      rewrite Hl', Hl. exists (l' ++ l). now rewrite app_assoc.
    + destruct (set_clipboard_content_total c s w) as (a & s2 & w2 & E2).
      congruence.
  - rewrite call_spec. cbn [snd].
    destruct (call_trace on_error (OnError (AutoEncryptFailed e)) s w)
      as (l' & _ & Hl'). eauto.
Qed.

Lemma handle_clipboard_change_trace (old new : str) (s : t) (w : World) :
  exists l,
    trace (world_after (_handle_clipboard_change crypto old new s w))
    = l ++ (if on_clipboard_changed s then [OnClipboardChanged old new] else [])
        ++ trace w.
Proof.
  unfold _handle_clipboard_change, try_, mbind, world_after.
  rewrite call_spec.
  set (w1 := if on_clipboard_changed s
             then log (OnClipboardChanged old new) w else w).
  assert (H1 : trace w1
               = (if on_clipboard_changed s
                  then [OnClipboardChanged old new] else []) ++ trace w).
  { subst w1. now destruct (on_clipboard_changed s). }
  destruct (blank new); [ cbn [ret snd]; now exists [] | ].
  unfold get.
  destruct (negb (co_is_encrypted_text crypto new) && encryption_enabled s).
  - destruct (auto_encrypt_trace new s w1) as [l Hl].
    destruct (auto_encrypt_total new s w1) as ([] & s' & w' & E).
    unfold world_after in Hl. rewrite E in *. cbn [snd] in *.
    exists l. now rewrite Hl, H1.
  - destruct (co_is_encrypted_text crypto new).
    + rewrite call_spec. cbn [snd].
      destruct (call_trace on_encryption_status_changed
                  (OnEncryptionStatusChanged (py "encrypted") (length new))
                  s w1) as (l' & _ & Hl').
      exists l'. now rewrite Hl', H1.
    + cbn [ret snd]. now exists [].
Qed.

End WithCrypto.
End ClipboardFacts.

(** ** The monitor loop *)

Module MonitorClaims.
Import ClipboardManager Observations ClipboardFacts Properties Scenario.

(** C3, refuted as stated: after the manual decryption of "secret", a copy
    of "Y" and a new copy of "secret" within five seconds, the turn leaves
    the snapshot at "Y" while the clipboard holds "secret". *)
Lemma snapshot_left_behind :
  ~ snapshot_follows toy_ops (state_after recopy) (world_after recopy).
Proof. intros H. vm_compute in H. discriminate. Qed.

(** C3, as the code has it.  A turn always ends normally with the short
    interval.  The snapshot becomes the observed content when the change is
    processed or when the ignore flag was set; in every other case the turn
    leaves the whole object as it was. *)
Theorem snapshot_update (crypto : CryptoOps) (s : t) (w : World) :
  let x := monitor_iteration crypto s w in
  value_of x = Ok 500%Z
  /\ last_clipboard_content (state_after x) =
       (if should_process s (observed w) (clock w) || _ignore_next_change s
        then observed w
        else last_clipboard_content s)
  /\ (should_process s (observed w) (clock w) || _ignore_next_change s = false
      -> state_after x = s).
Proof.
  cbv zeta. rewrite monitor_iteration_spec.
  destruct (should_process s (observed w) (clock w)); cbn [orb].
  - repeat split. discriminate.
  - destruct (_ignore_next_change s); repeat split. discriminate.
Qed.

Lemma snapshot_update_witness :
  last_clipboard_content
    (state_after (monitor_iteration toy_ops (attentive false)
                    (calm (py "hello"))))
  = py "hello"
  /\ state_after (monitor_iteration toy_ops (state_after recopy)
                    (world_after recopy))
     = state_after recopy.
Proof.
  split.
  - destruct (snapshot_update toy_ops (attentive false) (calm (py "hello")))
      as (_ & H & _).
    rewrite H. reflexivity.
  - destruct (snapshot_update toy_ops (state_after recopy) (world_after recopy))
      as (_ & _ & H).
    apply H. vm_compute. reflexivity.
Defined.

(** C4, refuted as stated: the user encrypts by hand before the monitor
    starts, so the flag is set and the first turn sees no change; the copy
    of "b" that follows is reported as a change. *)
Lemma change_after_idle_turn_not_skipped :
  ~ next_change_skipped toy_ops (state_after late_start)
      (world_after late_start) (py "b").
Proof.
  intros H.
  assert (H1 : _ignore_next_change (state_after late_start) = true)
    by (vm_compute; reflexivity).
  assert (H2 : observed (world_after late_start)
               = last_clipboard_content (state_after late_start))
    by (vm_compute; reflexivity).
  assert (H3 : py "b" <> observed (world_after late_start))
    by (vm_compute; discriminate).
  destruct (H H1 H2 H3) as [Ht _]. vm_compute in Ht. discriminate.
Qed.

(** The state a turn leaves when it finds the flag set. *)
Lemma flag_turn (crypto : CryptoOps) (s : t) (w : World) :
  _ignore_next_change s = true ->
  monitor_iteration crypto s w =
  (Ok 500%Z,
   set_last_clipboard_content (observed w) (set_ignore_next_change false s),
   set_clock (clock w + 500)%Z w).
Proof.
  intros H. rewrite monitor_iteration_spec.
  unfold should_process. rewrite H.
  rewrite !andb_false_r. cbn [andb]. reflexivity.
Qed.

Lemma str_eqb_neq (a b : str) : a <> b -> str_eqb a b = false.
Proof. unfold str_eqb. now destruct (list_eq_dec N.eq_dec a b). Qed.

Lemma str_eqb_eq (a b : str) : str_eqb a b = true <-> a = b.
Proof.
  unfold str_eqb. destruct (list_eq_dec N.eq_dec a b); split;
    congruence || discriminate.
Qed.

(** C4, as the code has it.  When a turn finds the ignore flag set it
    clears the flag and takes the observed content as the snapshot, whether
    or not that content is a change, and does nothing else: no callback, no
    write.  The flag is then clear, so a change seen by a later turn is
    processed under the remaining conditions of [should_process]. *)
Theorem ignore_flag_consumed (crypto : CryptoOps) (s : t) (w : World) :
  _ignore_next_change s = true ->
  let x := monitor_iteration crypto s w in
  value_of x = Ok 500%Z
  /\ _ignore_next_change (state_after x) = false
  /\ last_clipboard_content (state_after x) = observed w
  /\ trace (world_after x) = trace w
  /\ clipboard (world_after x) = clipboard w
  /\ forall w2,
       observed w2 <> observed w ->
       _processing s = false ->
       (observed w2 <> _last_processed_content s
        \/ (5000 < clock w2 - _processing_start_time s)%Z) ->
       let x2 := monitor_iteration crypto (state_after x) w2 in
       last_clipboard_content (state_after x2) = observed w2
       /\ (on_clipboard_changed s = true ->
           In (OnClipboardChanged (observed w) (observed w2))
              (trace (world_after x2))).
Proof.
  intros H. cbv zeta. rewrite (flag_turn crypto s w H).
  unfold value_of, state_after, world_after. cbn [fst snd].
  repeat split.
  - rewrite monitor_iteration_spec.
    match goal with
    | |- context [should_process ?a ?b ?c] =>
        assert (Hs : should_process a b c = true)
    end.
    { unfold should_process. cbn.
      rewrite (str_eqb_neq _ _ H0), H1. cbn [negb andb].
      destruct H2 as [H2 | H2].
      - now rewrite (str_eqb_neq _ _ H2).
      - apply Z.ltb_lt in H2. rewrite H2. apply orb_true_r. }
    rewrite Hs. reflexivity.
  - intros Hcb. rewrite monitor_iteration_spec.
    match goal with
    | |- context [should_process ?a ?b ?c] =>
        assert (Hs : should_process a b c = true)
    end.
    { unfold should_process. cbn.
      rewrite (str_eqb_neq _ _ H0), H1. cbn [negb andb].
      destruct H2 as [H2 | H2].
      - now rewrite (str_eqb_neq _ _ H2).
      - apply Z.ltb_lt in H2. rewrite H2. apply orb_true_r. }
    rewrite Hs. cbn [snd].
    match goal with
    | |- context [_handle_clipboard_change crypto ?o ?n ?s1 ?w1] =>
        destruct (handle_clipboard_change_trace crypto o n s1 w1) as [l Hl];
        unfold world_after in Hl; cbn [last_clipboard_content
          set_last_clipboard_content on_clipboard_changed
          set_ignore_next_change] in Hl
    end.
    cbn [trace set_clock]. unfold world_after.
    cbn [last_clipboard_content set_last_clipboard_content].
    rewrite Hl, Hcb. apply in_or_app. right. now left.
Qed.

Lemma ignore_flag_consumed_witness :
  let x := monitor_iteration toy_ops (state_after late_start)
             (world_after late_start) in
  _ignore_next_change (state_after x) = false
  /\ trace (world_after x) = trace (world_after late_start)
  /\ clipboard (world_after x) = clipboard (world_after late_start).
Proof.
  cbv zeta.
  destruct (ignore_flag_consumed toy_ops (state_after late_start)
              (world_after late_start)) as (_ & H1 & _ & H2 & H3 & _).
  - vm_compute. reflexivity.
  - repeat split; assumption.
Defined.

(** C8, refuted as stated: with a clipboard that cannot be read and the
    error callback installed, the turn ends with the short interval and
    reports nothing. *)
Lemma read_failure_not_reported :
  ~ read_failure_backs_off toy_ops (attentive false) (unreadable (py "hello")).
Proof.
  intros H. destruct (H eq_refl eq_refl) as [Hv _].
  vm_compute in Hv. discriminate.
Qed.

Lemma monitor_iteration_total (crypto : CryptoOps) :
  total (monitor_iteration crypto).
Proof.
  intros s w. rewrite monitor_iteration_spec.
  destruct (should_process s (observed w) (clock w)); [ cbv zeta; eauto | ].
  destruct (_ignore_next_change s); eauto.
Qed.

Lemma monitor_iteration_value (crypto : CryptoOps) (s : t) (w : World) :
  exists s' w', monitor_iteration crypto s w = (Ok 500%Z, s', w').
Proof.
  rewrite monitor_iteration_spec.
  destruct (should_process s (observed w) (clock w)); [ cbv zeta; eauto | ].
  destruct (_ignore_next_change s); eauto.
Qed.

Lemma monitor_loop_total (crypto : CryptoOps) (outside : list (M unit)) :
  Forall total outside -> total (monitor_loop crypto outside).
Proof.
  induction 1 as [| before outside Hb _ IH]; intros s w; cbn [monitor_loop].
  - unfold ret. eauto.
  - unfold mbind at 1, get.
    destruct (is_running s); [ | unfold ret; eauto ].
    unfold mbind at 1. destruct (Hb s w) as ([] & s1 & w1 & ->).
    unfold mbind at 1.
    destruct (monitor_iteration_total crypto s1 w1) as (z & s2 & w2 & ->).
    apply IH.
Qed.

(** C8, as the code has it.  Clipboard failures never reach the handler of
    the loop.  A failing read is taken as an empty clipboard and reported
    nowhere; a failing write is caught inside [_set_clipboard_content],
    which clears both guard flags and reports through [on_error] when that
    is installed, leaving the clipboard as it was.  Every turn therefore
    ends normally after the short interval of 500 ms, and the loop runs
    through all its turns, whatever the other threads do in between
    without raising. *)
Theorem clipboard_failures_absorbed (crypto : CryptoOps) (s : t) (w : World)
    (content : str) (outside : list (M unit)) :
  Forall total outside ->
  value_of (monitor_iteration crypto s w) = Ok 500%Z
  /\ _get_clipboard_content s w
     = (Ok (if paste_fails w then [] else clipboard w), s, w)
  /\ (copy_fails w = true ->
      _set_clipboard_content content s w
      = (Ok tt, write_failed content (clock w) s,
         if on_error s
         then log (OnError (SetClipboardFailed PyperclipException)) w
         else w))
  /\ value_of (_monitor_clipboard crypto outside s w) = Ok tt.
Proof.
  intros Ho. repeat split.
  - destruct (monitor_iteration_value crypto s w) as [s' [w' ->]]. reflexivity.
  - apply get_clipboard_content_spec.
  - intros Hc. rewrite set_clipboard_content_spec, Hc. reflexivity.
  - unfold _monitor_clipboard, mbind at 1.
    rewrite get_clipboard_content_spec. unfold mbind at 1, modify.
    destruct (monitor_loop_total crypto outside Ho
                (set_last_clipboard_content (observed w) s) w)
      as ([] & s' & w' & ->).
    reflexivity.
Qed.

Lemma user_copies_total (c : str) : total (user_copies c).
Proof. intros s w. unfold user_copies. eauto. Qed.

Lemma clipboard_failures_absorbed_witness :
  value_of (monitor_iteration toy_ops (attentive true) (unwritable (py "hello")))
  = Ok 500%Z
  /\ value_of (_monitor_clipboard toy_ops
                 [user_copies (py "a"); user_copies (py "b")]
                 (attentive true) (unwritable (py "hello"))) = Ok tt.
Proof.
  destruct (clipboard_failures_absorbed toy_ops (attentive true)
              (unwritable (py "hello")) (py "x")
              [user_copies (py "a"); user_copies (py "b")])
    as (H1 & _ & _ & H4).
  - repeat constructor; apply user_copies_total.
  - split; [ exact H1 | exact H4 ].
Defined.

End MonitorClaims.

(** ** The public operations, in closed form *)

Module PublicFacts.
Import ClipboardManager Observations ClipboardFacts.

Lemma time_sleep_seconds (d : Z) (s : t) (w : World) :
  sleepable d ->
  time_sleep (1000 * d) s w = (Ok tt, s, set_clock (clock w + 1000 * d)%Z w).
Proof.
  unfold sleepable, time_sleep, _PyTime_MIN, _PyTime_MAX. intros H. cbv zeta.
  destruct (Z.ltb_spec (1000 * d * 1000000) (- 2 ^ 63)); [ lia | ].
  destruct (Z.ltb_spec (2 ^ 63 - 1) (1000 * d * 1000000)); [ lia | ].
  destruct (Z.ltb_spec (1000 * d) 0); [ lia | ]. reflexivity.
Qed.

Lemma time_sleep_refused (d : Z) (s : t) (w : World) :
  ~ sleepable d ->
  time_sleep (1000 * d) s w = (Raise (sleep_refusal d), s, w).
Proof.
  unfold sleepable, sleep_refusal, time_sleep, _PyTime_MIN, _PyTime_MAX.
  intros H. cbv zeta.
  destruct (Z.ltb_spec (1000 * d * 1000000) (- 2 ^ 63));
    destruct (Z.ltb_spec (2 ^ 63 - 1) (1000 * d * 1000000));
    destruct (Z.ltb_spec d (-9223372036));
    destruct (Z.ltb_spec 9223372036 d);
    destruct (Z.ltb_spec (1000 * d) 0);
    cbn [orb]; try reflexivity; lia.
Qed.

Lemma sleepable_dec (d : Z) : {sleepable d} + {~ sleepable d}.
Proof.
  unfold sleepable.
  destruct (Z_le_dec 0 d); [ | right; lia ].
  destruct (Z_le_dec d 9223372036); [ left; lia | right; lia ].
Qed.

(** A thread whose duration [time.sleep] refuses dies at once, leaving the
    object and the surroundings as they were. *)
Lemma re_encrypt_refused (j : Job) (s : t) (w : World) :
  ~ sleepable (duration_seconds j) ->
  re_encrypt j s w = (Raise (sleep_refusal (duration_seconds j)), s, w).
Proof.
  intros H. unfold re_encrypt, mbind.
  now rewrite (time_sleep_refused _ s w H).
Qed.

Section WithCrypto.
Variable crypto : CryptoOps.


Lemma manual_encrypt_spec (s : t) (w : World) :
  manual_encrypt crypto s w =
  if blank (observed w) then (Ok false, s, told s ClipboardEmpty w)
  else if co_is_encrypted_text crypto (observed w)
  then (Ok false, s, told s AlreadyEncrypted w)
  else
    match co_encrypt crypto (Z.to_N (clock w / 1000)) (urandom w) (observed w) with
    | Raise e => (Ok false, s, told s (ManualEncryptFailed e) w)
    | Ok c =>
        let r := _set_clipboard_content c s w in
        (Ok true, state_after r,
         if on_encryption_performed s
         then log (OnEncryptionPerformed (Plain (observed w))) (world_after r)
         else world_after r)
    end.
Proof.
  unfold manual_encrypt, try_, mbind, crypto_encrypt, call, ret.
  rewrite get_clipboard_content_spec.
  destruct (blank (observed w)); [ reflexivity | ].
  destruct (co_is_encrypted_text crypto (observed w)); [ reflexivity | ].
  destruct (co_encrypt crypto _ _ (observed w)) as [c | e]; [ | reflexivity ].
  cbv zeta. rewrite set_clipboard_content_spec.
  destruct (copy_fails w); reflexivity.
Qed.

Lemma manual_decrypt_spec (s : t) (w : World) :
  manual_decrypt crypto s w =
  if blank (observed w) then (Ok false, s, told s ClipboardEmpty w)
  else if negb (co_is_encrypted_text crypto (observed w))
  then (Ok false, s, told s NotEncrypted w)
  else
    match co_decrypt crypto (observed w) with
    | Raise e => (Ok false, s, told s (ManualDecryptFailed e) w)
    | Ok p =>
        let r := _set_clipboard_content p s w in
        (Ok true, state_after r,
         if on_decryption_performed s
         then log (OnDecryptionPerformed (Plain p)) (world_after r)
         else world_after r)
    end.
Proof.
  unfold manual_decrypt, try_, mbind, lift, call, ret.
  rewrite get_clipboard_content_spec.
  destruct (blank (observed w)); [ reflexivity | ].
  destruct (co_is_encrypted_text crypto (observed w)); [ | reflexivity ].
  cbn [negb].
  destruct (co_decrypt crypto (observed w)) as [p | e]; [ | reflexivity ].
  cbv zeta. rewrite set_clipboard_content_spec.
  destruct (copy_fails w); reflexivity.
Qed.

Lemma temporary_decrypt_spec (d : Z) (s : t) (w : World) :
  temporary_decrypt crypto d s w =
  if blank (observed w) then (Ok false, s, told s ClipboardEmpty w)
  else if negb (co_is_encrypted_text crypto (observed w))
  then (Ok false, s, told s NotEncrypted w)
  else
    match co_decrypt crypto (observed w) with
    | Raise e => (Ok false, s, told s (TemporaryDecryptFailed e) w)
    | Ok p =>
        let r := _set_clipboard_content p s w in
        (Ok true, state_after r,
         log (ThreadStarted {| duration_seconds := d;
                               decrypted_text := p;
                               original_encrypted := observed w |})
           (if on_decryption_performed s
            then log (OnDecryptionPerformed (TemporaryDecrypt p d))
                   (world_after r)
            else world_after r))
    end.
Proof.
  unfold temporary_decrypt, try_, mbind, lift, call, ret, start_thread.
  rewrite get_clipboard_content_spec.
  destruct (blank (observed w)); [ reflexivity | ].
  destruct (co_is_encrypted_text crypto (observed w)); [ | reflexivity ].
  cbn [negb].
  destruct (co_decrypt crypto (observed w)) as [p | e]; [ | reflexivity ].
  cbv zeta. rewrite set_clipboard_content_spec.
  destruct (copy_fails w); reflexivity.
Qed.

Lemma peek_decrypt_spec (s : t) (w : World) :
  peek_decrypt crypto s w =
  if blank (observed w) then (Ok [], s, w)
  else if negb (co_is_encrypted_text crypto (observed w))
  then (Ok (observed w), s, w)
  else
    match co_decrypt crypto (observed w) with
    | Raise e => (Ok [], s, told s (PeekDecryptFailed e) w)
    | Ok p => (Ok p, s, w)
    end.
Proof.
  unfold peek_decrypt, try_, mbind, lift, call, ret.
  rewrite get_clipboard_content_spec.
  destruct (blank (observed w)); [ reflexivity | ].
  destruct (co_is_encrypted_text crypto (observed w)); [ | reflexivity ].
  cbn [negb].
  destruct (co_decrypt crypto (observed w)) as [p | e]; reflexivity.
Qed.

Lemma re_encrypt_spec (j : Job) (s : t) (w : World) :
  sleepable (duration_seconds j) ->
  re_encrypt j s w =
  let w1 := set_clock (clock w + 1000 * duration_seconds j)%Z w in
  if str_eqb (observed w) (decrypted_text j) then
    let r := _set_clipboard_content (original_encrypted j) s w1 in
    (Ok tt, state_after r,
     if on_encryption_performed s
     then log (OnEncryptionPerformed
                 (AutoReEncrypt (firstn 20 (decrypted_text j))))
            (world_after r)
     else world_after r)
  else (Ok tt, s, w1).
Proof.
  intros Hd. unfold re_encrypt. unfold mbind at 1.
  rewrite (time_sleep_seconds _ s w Hd).
  unfold try_, mbind, call, ret.
  rewrite get_clipboard_content_spec. cbv zeta.
  change (observed (set_clock (clock w + 1000 * duration_seconds j)%Z w))
    with (observed w).
  destruct (str_eqb (observed w) (decrypted_text j)); [ | reflexivity ].
  rewrite set_clipboard_content_spec.
  cbn [copy_fails set_clock].
  destruct (copy_fails w); reflexivity.
Qed.

End WithCrypto.
End PublicFacts.

(** ** Temporary decryption, preview, and what the operations return *)

Module PublicClaims.
Import ClipboardManager Observations ClipboardFacts PublicFacts Properties
  Scenario MonitorClaims.


(** An envelope of the empty text arms a thread whose plaintext is empty. *)
Lemma empty_plaintext_job_armed :
  In (ThreadStarted {| duration_seconds := 5;
                       decrypted_text := [];
                       original_encrypted := envelope_of [] |})
     (trace (world_after
               (temporary_decrypt toy_ops 5 (attentive false)
                  (calm (envelope_of []))))).
Proof. vm_compute. now left. Qed.




(** C7, refuted as stated: [temporary_decrypt] with a duration of four
    seconds and an envelope on the clipboard returns [True], writes the
    plaintext and starts the thread. *)
Lemma short_duration_accepted :
  ~ duration_refused toy_ops 4 (attentive false)
      (calm (envelope_of (py "secret"))).
Proof. intros [H _]. vm_compute in H. now apply H. Qed.

(** [temporary_decrypt] looks at the clipboard only: whatever the duration,
    an envelope that decrypts is revealed and the thread is started. *)
Lemma temporary_decrypt_any_duration (crypto : CryptoOps) (d : Z) (s : t)
    (w : World) (p : str) :
  blank (observed w) = false ->
  co_is_encrypted_text crypto (observed w) = true ->
  co_decrypt crypto (observed w) = Ok p ->
  let x := temporary_decrypt crypto d s w in
  value_of x = Ok true
  /\ In (ThreadStarted {| duration_seconds := d;
                          decrypted_text := p;
                          original_encrypted := observed w |})
        (trace (world_after x)).
Proof.
  intros Hb He Hd. cbv zeta. rewrite temporary_decrypt_spec, Hb, He, Hd.
  cbn [negb]. cbv zeta. unfold value_of, world_after. cbn [fst snd].
  split; [ reflexivity | now left ].
Qed.

(** C7, as the code has it.  The range of 5 to 300 seconds is enforced by
    the callers, not by [ClipboardManager.temporary_decrypt].  The command
    [temporary_decrypt_with_duration] prints a refusal and returns [False]
    for a duration outside the range, touching neither the object nor the
    clipboard and starting no thread, and hands a duration inside the range
    to [temporary_decrypt]; the setter of the default duration raises
    [ValueError] outside the range and stores the value inside it. *)
Theorem duration_gate (crypto : CryptoOps) (d : Z) (s : t) (w : World)
    (settings : Cli.AppSettings) :
  ((d < 5 \/ 300 < d)%Z ->
     Cli.temporary_decrypt_with_duration crypto true d s w
     = (Ok false, s, log (Print DurationMustBe5To300) w)
     /\ Cli.set_temporary_decrypt_duration settings d
        = Raise (ValueError DurationOutOfRange))
  /\ ((5 <= d <= 300)%Z ->
     Cli.temporary_decrypt_with_duration crypto true d s w
     = temporary_decrypt crypto d s (log (Print (AnnounceTemporaryDecrypt d)) w)
     /\ Cli.set_temporary_decrypt_duration settings d
        = Ok {| Cli.stored_temporary_decrypt_duration := Some d |}).
Proof.
  unfold Cli.temporary_decrypt_with_duration,
    Cli.set_temporary_decrypt_duration.
  split; intros H; cbn [negb].
  - assert (E : ((5 <=? d)%Z && (d <=? 300)%Z) = false) by lia.
    rewrite E. split; reflexivity.
  - assert (E : ((5 <=? d)%Z && (d <=? 300)%Z) = true) by lia.
    rewrite E. split; reflexivity.
Qed.

Lemma duration_gate_witness :
  let s := attentive false in
  let w := calm (envelope_of (py "secret")) in
  value_of (Cli.temporary_decrypt_with_duration toy_ops true 4 s w) = Ok false
  /\ value_of (Cli.temporary_decrypt_with_duration toy_ops true 301 s w)
     = Ok false
  /\ value_of (Cli.temporary_decrypt_with_duration toy_ops true 5 s w) = Ok true
  /\ value_of (Cli.temporary_decrypt_with_duration toy_ops true 300 s w)
     = Ok true.
Proof.
  cbv zeta.
  pose (s := attentive false). pose (w := calm (envelope_of (py "secret"))).
  pose (st := {| Cli.stored_temporary_decrypt_duration := None |}).
  destruct (duration_gate toy_ops 4 s w st) as [[A _] _]; [ lia | ].
  destruct (duration_gate toy_ops 301 s w st) as [[B _] _]; [ lia | ].
  destruct (duration_gate toy_ops 5 s w st) as [_ [C _]]; [ lia | ].
  destruct (duration_gate toy_ops 300 s w st) as [_ [D _]]; [ lia | ].
  fold s w. rewrite A, B, C, D.
  repeat split; vm_compute; reflexivity.
Defined.

(** For a [CryptoManager], a text whose decryption raises is not taken for
    an encrypted one. *)
Lemma decrypt_raises_not_encrypted {P : Primitives} (cm : CryptoManager.t)
    (text : str) (e : exn) :
  CryptoManager.decrypt cm text = Raise e ->
  CryptoManager.is_encrypted_text cm text = false.
Proof.
  intros D. destruct (CryptoManager.is_encrypted_text cm text) eqn:I;
    [ | reflexivity ].
  apply CryptoClaims.is_encrypted_text_decrypt in I. destruct I as [p Hp].
  rewrite D in Hp. discriminate.
Qed.

Lemma decrypt_returns_encrypted {P : Primitives} (cm : CryptoManager.t)
    (text p : str) :
  CryptoManager.decrypt cm text = Ok p ->
  CryptoManager.is_encrypted_text cm text = true.
Proof.
  intros D. apply CryptoClaims.is_encrypted_text_decrypt. now exists p.
Qed.

(** [peek_decrypt] over a [CryptoManager], in closed form. *)
Lemma peek_decrypt_crypto_manager {P : Primitives} (cm : CryptoManager.t)
    (s : t) (w : World) :
  peek_decrypt (of_crypto_manager cm) s w =
  (Ok (if blank (observed w) then []
       else match CryptoManager.decrypt cm (observed w) with
            | Ok p => p
            | Raise _ => observed w
            end), s, w).
Proof.
  rewrite peek_decrypt_spec. destruct (blank (observed w)); [ reflexivity | ].
  cbn [co_is_encrypted_text co_decrypt of_crypto_manager].
  destruct (CryptoManager.decrypt cm (observed w)) as [p | e] eqn:D.
  - now rewrite (decrypt_returns_encrypted cm _ p D).
  - now rewrite (decrypt_raises_not_encrypted cm _ e D).
Qed.

(** C9, refuted as stated: with "hello" on the clipboard, which does not
    decrypt, [peek_decrypt] returns "hello", not the empty text. *)
Lemma peek_returns_undecryptable_text :
  ~ peek_empty_on_error toy_ops (attentive false) (calm (py "hello")).
Proof.
  intros H.
  assert (E : exists e, co_decrypt toy_ops (observed (calm (py "hello")))
                        = Raise e)
    by (eexists; vm_compute; reflexivity).
  specialize (H E). vm_compute in H. discriminate.
Qed.

(** C9, as the code has it.  For any crypto object, [peek_decrypt] leaves
    the object and the clipboard as they are, writes nothing, does no more
    than tell [on_error], and always returns a text.  With a
    [CryptoManager] it tells nothing at all, and the text it returns is
    empty on a blank or unreadable clipboard, the plaintext when the
    content decrypts, and the content itself when decryption of the content
    raises: [is_encrypted_text] has then answered no, so that the handler
    returning the empty text is never entered. *)
Theorem peek_decrypt_read_only {P : Primitives} (crypto : CryptoOps)
    (cm : CryptoManager.t) (s : t) (w : World) :
  (let x := peek_decrypt crypto s w in
   state_after x = s
   /\ clipboard (world_after x) = clipboard w
   /\ (exists l, trace (world_after x) = l ++ trace w
                 /\ forall ev, In ev l ->
                      exists e, ev = OnError (PeekDecryptFailed e))
   /\ (exists v, value_of x = Ok v))
  /\ (let x := peek_decrypt (of_crypto_manager cm) s w in
      state_after x = s
      /\ world_after x = w
      /\ (blank (observed w) = true -> value_of x = Ok [])
      /\ (forall p, blank (observed w) = false ->
            CryptoManager.decrypt cm (observed w) = Ok p ->
            value_of x = Ok p)
      /\ (forall e, blank (observed w) = false ->
            CryptoManager.decrypt cm (observed w) = Raise e ->
            value_of x = Ok (observed w))
      /\ (forall e, CryptoManager.decrypt cm (observed w) = Raise e ->
            CryptoManager.is_encrypted_text cm (observed w) = false)).
Proof.
  split.
  - cbv zeta. rewrite peek_decrypt_spec.
    unfold value_of, state_after, world_after.
    destruct (blank (observed w)) eqn:Hb; cbn [fst snd].
    { repeat split; eauto.
      exists []. split; [ reflexivity | intros ev [] ]. }
    destruct (co_is_encrypted_text crypto (observed w)) eqn:He;
      cbn [negb fst snd].
    2:{ repeat split; eauto.
        exists []. split; [ reflexivity | intros ev [] ]. }
    destruct (co_decrypt crypto (observed w)) as [p | e] eqn:Hd;
      cbn [fst snd].
    { repeat split; eauto.
      exists []. split; [ reflexivity | intros ev [] ]. }
    unfold told. repeat split; eauto.
    + now destruct (on_error s).
    + destruct (on_error s).
      * exists [OnError (PeekDecryptFailed e)]. split; [ reflexivity | ].
        intros ev [<- | []]. eauto.
      * exists []. split; [ reflexivity | intros ev [] ].
  - cbv zeta. rewrite peek_decrypt_crypto_manager.
    unfold value_of, state_after, world_after. cbn [fst snd].
    split; [ reflexivity | ]. split; [ reflexivity | ].
    split; [ intros ->; reflexivity | ].
    split; [ intros p -> ->; reflexivity | ].
    split; [ intros e -> ->; reflexivity | ].
    intros e. apply decrypt_raises_not_encrypted.
Qed.

Lemma peek_decrypt_read_only_witness :
  value_of (peek_decrypt toy_ops (attentive false) (calm (py "hello")))
  = Ok (py "hello")
  /\ value_of (peek_decrypt toy_ops (attentive false)
                 (calm (envelope_of (py "secret"))))
     = Ok (py "secret")
  /\ value_of (peek_decrypt toy_ops (attentive false)
                 (unreadable (py "hello")))
     = Ok [].
Proof.
  split; [ | split ].
  - destruct (peek_decrypt_read_only (P := Toy.prims) toy_ops toy_cm
                (attentive false) (calm (py "hello")))
      as (_ & _ & _ & _ & _ & H & _).
    apply (H (ValueError (DecryptFailed BinasciiError)));
      vm_compute; reflexivity.
  - destruct (peek_decrypt_read_only (P := Toy.prims) toy_ops toy_cm
                (attentive false) (calm (envelope_of (py "secret"))))
      as (_ & _ & _ & _ & H & _).
    apply H; vm_compute; reflexivity.
  - destruct (peek_decrypt_read_only (P := Toy.prims) toy_ops toy_cm
                (attentive false) (unreadable (py "hello")))
      as (_ & _ & _ & H & _).
    apply H. reflexivity.
Defined.

(** C10, refuted as stated: with a clipboard that cannot be written,
    [manual_encrypt] of "hello" returns [True]. *)
Lemma write_failure_returns_true :
  ~ write_failure_is_false toy_ops (attentive false) (unwritable (py "hello")).
Proof. intros H. specialize (H eq_refl). vm_compute in H. discriminate. Qed.

Lemma manual_encrypt_no_raise (crypto : CryptoOps) (s : t) (w : World) :
  exists b, value_of (manual_encrypt crypto s w) = Ok b.
Proof.
  rewrite manual_encrypt_spec. unfold value_of.
  destruct (blank (observed w)); [ now eexists | ].
  destruct (co_is_encrypted_text crypto (observed w)); [ now eexists | ].
  destruct (co_encrypt crypto _ _ (observed w)); cbv zeta; now eexists.
Qed.

Lemma manual_decrypt_no_raise (crypto : CryptoOps) (s : t) (w : World) :
  exists b, value_of (manual_decrypt crypto s w) = Ok b.
Proof.
  rewrite manual_decrypt_spec. unfold value_of.
  destruct (blank (observed w)); [ now eexists | ].
  destruct (negb (co_is_encrypted_text crypto (observed w))); [ now eexists | ].
  destruct (co_decrypt crypto (observed w)); cbv zeta; now eexists.
Qed.

Lemma temporary_decrypt_no_raise (crypto : CryptoOps) (d : Z) (s : t)
    (w : World) :
  exists b, value_of (temporary_decrypt crypto d s w) = Ok b.
Proof.
  rewrite temporary_decrypt_spec. unfold value_of.
  destruct (blank (observed w)); [ now eexists | ].
  destruct (negb (co_is_encrypted_text crypto (observed w))); [ now eexists | ].
  destruct (co_decrypt crypto (observed w)); cbv zeta; now eexists.
Qed.

Lemma peek_decrypt_no_raise (crypto : CryptoOps) (s : t) (w : World) :
  exists v, value_of (peek_decrypt crypto s w) = Ok v.
Proof.
  rewrite peek_decrypt_spec. unfold value_of.
  destruct (blank (observed w)); [ now eexists | ].
  destruct (negb (co_is_encrypted_text crypto (observed w))); [ now eexists | ].
  destruct (co_decrypt crypto (observed w)); now eexists.
Qed.

Lemma manual_encrypt_failure (crypto : CryptoOps) (s : t) (w : World) :
  blank (observed w) = true
  \/ co_is_encrypted_text crypto (observed w) = true
  \/ (exists e, co_encrypt crypto (Z.to_N (clock w / 1000)) (urandom w)
                  (observed w) = Raise e) ->
  exists m, manual_encrypt crypto s w = (Ok false, s, told s m w).
Proof.
  intros H. rewrite manual_encrypt_spec.
  destruct (blank (observed w)); [ now eexists | ].
  destruct (co_is_encrypted_text crypto (observed w)); [ now eexists | ].
  destruct H as [H | [H | [e H]]]; try discriminate.
  rewrite H. now eexists.
Qed.

Lemma decrypt_failure (crypto : CryptoOps) (d : Z) (s : t) (w : World) :
  blank (observed w) = true
  \/ co_is_encrypted_text crypto (observed w) = false
  \/ (exists e, co_decrypt crypto (observed w) = Raise e) ->
  (exists m, manual_decrypt crypto s w = (Ok false, s, told s m w))
  /\ (exists m, temporary_decrypt crypto d s w = (Ok false, s, told s m w)).
Proof.
  intros H.
  rewrite manual_decrypt_spec, temporary_decrypt_spec.
  destruct (blank (observed w)).
  { split; now eexists. }
  destruct (co_is_encrypted_text crypto (observed w)); cbn [negb].
  2:{ split; now eexists. }
  destruct H as [H | [H | [e H]]]; try discriminate.
  rewrite H. split; now eexists.
Qed.

(** C10, as the code has it.  None of the four public operations raises,
    whatever the crypto object.  On a blank clipboard (a failed read counts
    as blank), on content of the wrong kind and when the crypto object
    raises, [manual_encrypt], [manual_decrypt] and [temporary_decrypt]
    return [False], leave the object as it was and do no more than tell
    [on_error] what went wrong: no write, no thread.  [peek_decrypt] returns
    the empty text on a blank clipboard, the content itself when it is not
    taken for encrypted, and the empty text, telling [on_error], when
    [decrypt] raises on content taken for encrypted.  With a
    [CryptoManager], content whose decryption raises is never taken for
    encrypted: the two decrypting operations report that it is not
    encrypted, and [peek_decrypt] returns it unchanged. *)
Theorem public_operations_never_raise {P : Primitives} (crypto : CryptoOps)
    (cm : CryptoManager.t) (d : Z) (s : t) (w : World) :
  (exists b, value_of (manual_encrypt crypto s w) = Ok b)
  /\ (exists b, value_of (manual_decrypt crypto s w) = Ok b)
  /\ (exists b, value_of (temporary_decrypt crypto d s w) = Ok b)
  /\ (exists v, value_of (peek_decrypt crypto s w) = Ok v)
  /\ (blank (observed w) = true ->
      manual_encrypt crypto s w = (Ok false, s, told s ClipboardEmpty w)
      /\ manual_decrypt crypto s w = (Ok false, s, told s ClipboardEmpty w)
      /\ temporary_decrypt crypto d s w
         = (Ok false, s, told s ClipboardEmpty w)
      /\ peek_decrypt crypto s w = (Ok [], s, w))
  /\ (blank (observed w) = false ->
      co_is_encrypted_text crypto (observed w) = true ->
      manual_encrypt crypto s w = (Ok false, s, told s AlreadyEncrypted w))
  /\ (blank (observed w) = false ->
      co_is_encrypted_text crypto (observed w) = false ->
      manual_decrypt crypto s w = (Ok false, s, told s NotEncrypted w)
      /\ temporary_decrypt crypto d s w
         = (Ok false, s, told s NotEncrypted w)
      /\ peek_decrypt crypto s w = (Ok (observed w), s, w))
  /\ (forall e,
        blank (observed w) = false ->
        co_is_encrypted_text crypto (observed w) = false ->
        co_encrypt crypto (Z.to_N (clock w / 1000)) (urandom w) (observed w)
        = Raise e ->
        manual_encrypt crypto s w
        = (Ok false, s, told s (ManualEncryptFailed e) w))
  /\ (forall e,
        blank (observed w) = false ->
        co_is_encrypted_text crypto (observed w) = true ->
        co_decrypt crypto (observed w) = Raise e ->
        manual_decrypt crypto s w
        = (Ok false, s, told s (ManualDecryptFailed e) w)
        /\ temporary_decrypt crypto d s w
           = (Ok false, s, told s (TemporaryDecryptFailed e) w)
        /\ peek_decrypt crypto s w
           = (Ok [], s, told s (PeekDecryptFailed e) w))
  /\ (forall e,
        blank (observed w) = false ->
        CryptoManager.decrypt cm (observed w) = Raise e ->
        manual_decrypt (of_crypto_manager cm) s w
        = (Ok false, s, told s NotEncrypted w)
        /\ temporary_decrypt (of_crypto_manager cm) d s w
           = (Ok false, s, told s NotEncrypted w)
        /\ peek_decrypt (of_crypto_manager cm) s w
           = (Ok (observed w), s, w)).
Proof.
  split; [ apply manual_encrypt_no_raise | ].
  split; [ apply manual_decrypt_no_raise | ].
  split; [ apply temporary_decrypt_no_raise | ].
  split; [ apply peek_decrypt_no_raise | ].
  split; [ | split; [ | split; [ | split; [ | split ] ] ] ].
  - intros Hb.
    rewrite manual_encrypt_spec, manual_decrypt_spec, temporary_decrypt_spec,
      peek_decrypt_spec, Hb.
    repeat split.
  - intros Hb He. now rewrite manual_encrypt_spec, Hb, He.
  - intros Hb He.
    rewrite manual_decrypt_spec, temporary_decrypt_spec, peek_decrypt_spec,
      Hb, He.
    repeat split.
  - intros e Hb He Hr. now rewrite manual_encrypt_spec, Hb, He, Hr.
  - intros e Hb He Hr.
    rewrite manual_decrypt_spec, temporary_decrypt_spec, peek_decrypt_spec,
      Hb, He, Hr.
    repeat split.
  - intros e Hb Hr.
    pose proof (decrypt_raises_not_encrypted cm _ e Hr) as He.
    rewrite manual_decrypt_spec, temporary_decrypt_spec, peek_decrypt_spec,
      Hb.
    cbn [co_is_encrypted_text of_crypto_manager]. rewrite He.
    repeat split.
Qed.

Lemma public_operations_never_raise_witness :
  manual_encrypt toy_ops (attentive false) (unreadable (py "hello"))
  = (Ok false, attentive false,
     told (attentive false) ClipboardEmpty (unreadable (py "hello")))
  /\ manual_encrypt toy_ops (attentive false)
       (calm (envelope_of (py "secret")))
     = (Ok false, attentive false,
        told (attentive false) AlreadyEncrypted
          (calm (envelope_of (py "secret"))))
  /\ manual_encrypt toy_ops (attentive false) (calm [0xD800])
     = (Ok false, attentive false,
        told (attentive false) (ManualEncryptFailed UnicodeEncodeError)
          (calm [0xD800]))
  /\ temporary_decrypt toy_ops 10 (attentive false) (calm (py "hello"))
     = (Ok false, attentive false,
        told (attentive false) NotEncrypted (calm (py "hello")))
  /\ peek_decrypt toy_ops (attentive false) (calm (py "hello"))
     = (Ok (py "hello"), attentive false, calm (py "hello"))
  /\ manual_decrypt fickle_ops (attentive false) (calm (py "hello"))
     = (Ok false, attentive false,
        told (attentive false)
          (ManualDecryptFailed (ValueError (DecryptFailed InvalidToken)))
          (calm (py "hello"))).
Proof.
  split; [ | split; [ | split; [ | split; [ | split ] ] ] ].
  - destruct (public_operations_never_raise (P := Toy.prims) toy_ops toy_cm
                10 (attentive false) (unreadable (py "hello")))
      as (_ & _ & _ & _ & H & _).
    apply H. reflexivity.
  - destruct (public_operations_never_raise (P := Toy.prims) toy_ops toy_cm
                10 (attentive false) (calm (envelope_of (py "secret"))))
      as (_ & _ & _ & _ & _ & H & _).
    apply H; vm_compute; reflexivity.
  - destruct (public_operations_never_raise (P := Toy.prims) toy_ops toy_cm
                10 (attentive false) (calm [0xD800]))
      as (_ & _ & _ & _ & _ & _ & _ & H & _).
    apply H; vm_compute; reflexivity.
  - destruct (public_operations_never_raise (P := Toy.prims) toy_ops toy_cm
                10 (attentive false) (calm (py "hello")))
      as (_ & _ & _ & _ & _ & _ & _ & _ & _ & H).
    apply (H (ValueError (DecryptFailed BinasciiError)));
      vm_compute; reflexivity.
  - destruct (public_operations_never_raise (P := Toy.prims) toy_ops toy_cm
                10 (attentive false) (calm (py "hello")))
      as (_ & _ & _ & _ & _ & _ & H & _).
    apply H; vm_compute; reflexivity.
  - destruct (public_operations_never_raise (P := Toy.prims) fickle_ops
                toy_cm 10 (attentive false) (calm (py "hello")))
      as (_ & _ & _ & _ & _ & _ & _ & _ & H & _).
    apply (H (ValueError (DecryptFailed InvalidToken))); reflexivity.
Defined.

End PublicClaims.

(** ** What the monitor does with a change *)

Module HandleFacts.
Import ClipboardManager Observations ClipboardFacts.

Section WithCrypto.
Variable crypto : CryptoOps.

(** The surroundings after [on_clipboard_changed] was told, if installed. *)
Lemma handle_clipboard_change_spec (old new : str) (s : t) (w : World) :
  _handle_clipboard_change crypto old new s w =
  let w1 := if on_clipboard_changed s
            then log (OnClipboardChanged old new) w else w in
  if blank new then (Ok tt, s, w1)
  else if negb (co_is_encrypted_text crypto new) && encryption_enabled s then
    match co_encrypt crypto (Z.to_N (clock w / 1000)) (urandom w) new with
    | Ok c =>
        let r := _set_clipboard_content c s w1 in
        (Ok tt, state_after r,
         if on_encryption_performed s
         then log (OnEncryptionPerformed (Plain new)) (world_after r)
         else world_after r)
    | Raise e => (Ok tt, s, told s (AutoEncryptFailed e) w1)
    end
  else if co_is_encrypted_text crypto new then
    (Ok tt, s,
     if on_encryption_status_changed s
     then log (OnEncryptionStatusChanged (py "encrypted") (length new)) w1
     else w1)
  else (Ok tt, s, w1).
Proof.
  unfold _handle_clipboard_change, _auto_encrypt, try_, mbind, call, ret, get,
    crypto_encrypt.
  cbv zeta.
  destruct (blank new); [ reflexivity | ].
  destruct (negb (co_is_encrypted_text crypto new) && encryption_enabled s).
  - assert (Ec : clock (if on_clipboard_changed s
                        then log (OnClipboardChanged old new) w else w)
                 = clock w) by now destruct (on_clipboard_changed s).
    assert (Eu : urandom (if on_clipboard_changed s
                          then log (OnClipboardChanged old new) w else w)
                 = urandom w) by now destruct (on_clipboard_changed s).
    rewrite Ec, Eu.
    destruct (co_encrypt crypto _ _ new) as [c | e]; [ | reflexivity ].
    rewrite set_clipboard_content_spec.
    destruct (copy_fails _); reflexivity.
  - destruct (co_is_encrypted_text crypto new); reflexivity.
Qed.

End WithCrypto.
End HandleFacts.

(** ** Further properties of the monitor *)

Module MonitorExtras.
Import ClipboardManager Observations ClipboardFacts HandleFacts PublicFacts
  Scenario MonitorClaims.

Lemma str_eqb_refl (a : str) : str_eqb a a = true.
Proof. now apply str_eqb_eq. Qed.

Lemma filter_copy_told (s : t) (m : error_message) (w : World) :
  filter is_copy (trace (told s m w)) = filter is_copy (trace w)
  /\ clipboard (told s m w) = clipboard w.
Proof. unfold told. now destruct (on_error s). Qed.

(** X1. the monitor writes nothing unless it meets a plaintext with automatic
    encryption switched on.  When the content it observes is blank, or is
    already an envelope, or automatic encryption is off, a turn leaves the
    clipboard and the guard attributes alone and records no write. *)
Theorem monitor_leaves_clipboard (crypto : CryptoOps) (s : t) (w : World) :
  blank (observed w) = true
  \/ co_is_encrypted_text crypto (observed w) = true
  \/ encryption_enabled s = false ->
  let x := monitor_iteration crypto s w in
  clipboard (world_after x) = clipboard w
  /\ filter is_copy (trace (world_after x)) = filter is_copy (trace w)
  /\ _last_processed_content (state_after x) = _last_processed_content s
  /\ _processing (state_after x) = _processing s.
Proof.
  intros H. cbv zeta. rewrite monitor_iteration_spec.
  destruct (should_process s (observed w) (clock w)).
  - cbv zeta. rewrite handle_clipboard_change_spec. cbv zeta.
    unfold state_after, world_after.
    destruct (blank (observed w)) eqn:Hb.
    { cbn [fst snd]. destruct (on_clipboard_changed s); repeat split. }
    destruct (co_is_encrypted_text crypto (observed w)) eqn:He; cbn [negb andb].
    { cbn [fst snd].
      destruct (on_encryption_status_changed s), (on_clipboard_changed s);
        repeat split. }
    destruct H as [H | [H | H]]; try discriminate.
    rewrite H. cbn [fst snd]. destruct (on_clipboard_changed s); repeat split.
  - destruct (_ignore_next_change s); repeat split.
Qed.

Lemma monitor_leaves_clipboard_witness :
  clipboard (world_after
               (monitor_iteration toy_ops (attentive true)
                  (calm (envelope_of (py "secret")))))
  = envelope_of (py "secret").
Proof.
  destruct (monitor_leaves_clipboard toy_ops (attentive true)
              (calm (envelope_of (py "secret")))) as [H _].
  - right. left. vm_compute. reflexivity.
  - exact H.
Defined.

(** After a turn that encrypts: the envelope is on the clipboard, one
    write was added and the flag is set. *)
Lemma encrypting_turn_leaves_flag (crypto : CryptoOps) (s : t) (w : World)
    (c : str) :
  should_process s (observed w) (clock w) = true ->
  blank (observed w) = false ->
  co_is_encrypted_text crypto (observed w) = false ->
  encryption_enabled s = true ->
  co_encrypt crypto (Z.to_N (clock w / 1000)) (urandom w) (observed w) = Ok c ->
  copy_fails w = false ->
  let x := monitor_iteration crypto s w in
  clipboard (world_after x) = c
  /\ filter is_copy (trace (world_after x)) = Copy c :: filter is_copy (trace w)
  /\ _ignore_next_change (state_after x) = true.
Proof.
  intros Hs Hb He Hen Hc Hw. cbv zeta.
  rewrite monitor_iteration_spec, Hs. cbv zeta.
  rewrite handle_clipboard_change_spec. cbv zeta.
  rewrite Hb, He, Hen, Hc. cbn [negb andb]. cbv zeta.
  rewrite set_clipboard_content_spec.
  assert (Hw' : copy_fails (if on_clipboard_changed s
                            then log (OnClipboardChanged
                                        (last_clipboard_content s) (observed w)) w
                            else w) = false)
    by now destruct (on_clipboard_changed s).
  rewrite Hw'. unfold state_after, world_after. cbn [fst snd].
  destruct (on_encryption_performed s), (on_clipboard_changed s);
    cbn; repeat split.
Qed.

(** X2. automatic encryption.  A turn that processes a plaintext (not blank,
    not an envelope) with automatic encryption on and a working clipboard
    replaces the clipboard by the envelope [encrypt] returned, keeps the
    plaintext as its snapshot, records the envelope as the content it wrote
    and sets the ignore flag; it takes 700 ms. *)
Theorem auto_encrypt_turn (crypto : CryptoOps) (s : t) (w : World) (c : str) :
  should_process s (observed w) (clock w) = true ->
  blank (observed w) = false ->
  co_is_encrypted_text crypto (observed w) = false ->
  encryption_enabled s = true ->
  co_encrypt crypto (Z.to_N (clock w / 1000)) (urandom w) (observed w) = Ok c ->
  copy_fails w = false ->
  let x := monitor_iteration crypto s w in
  clipboard (world_after x) = c
  /\ filter is_copy (trace (world_after x)) = Copy c :: filter is_copy (trace w)
  /\ last_clipboard_content (state_after x) = observed w
  /\ _last_processed_content (state_after x) = c
  /\ _ignore_next_change (state_after x) = true
  /\ _processing (state_after x) = false
  /\ clock (world_after x) = (clock w + 700)%Z.
Proof.
  intros Hs Hb He Hen Hc Hw. cbv zeta.
  rewrite monitor_iteration_spec, Hs. cbv zeta.
  rewrite handle_clipboard_change_spec. cbv zeta.
  rewrite Hb, He, Hen, Hc. cbn [negb andb]. cbv zeta.
  rewrite set_clipboard_content_spec.
  assert (Hw' : copy_fails (if on_clipboard_changed s
                            then log (OnClipboardChanged
                                        (last_clipboard_content s) (observed w)) w
                            else w) = false)
    by now destruct (on_clipboard_changed s).
  rewrite Hw'. unfold state_after, world_after. cbn [fst snd].
  destruct (on_encryption_performed s), (on_clipboard_changed s);
    cbn; repeat split; lia.
Qed.

Lemma auto_encrypt_turn_witness :
  clipboard (world_after
               (monitor_iteration toy_ops (attentive true) (calm (py "hello"))))
  = envelope_of (py "hello").
Proof.
  refine (proj1 (auto_encrypt_turn toy_ops (attentive true)
                   (calm (py "hello")) (envelope_of (py "hello"))
                   _ _ _ _ _ _));
    vm_compute; reflexivity.
Defined.

(** A turn that finds the flag clear and the clipboard as in its snapshot
    does nothing but wait. *)
Lemma quiet_turn (crypto : CryptoOps) (s : t) (w : World) :
  _ignore_next_change s = false ->
  observed w = last_clipboard_content s ->
  monitor_iteration crypto s w = (Ok 500%Z, s, set_clock (clock w + 500)%Z w).
Proof.
  intros Hi Ho. rewrite monitor_iteration_spec.
  unfold should_process. rewrite Ho, str_eqb_refl, Hi. reflexivity.
Qed.

Lemma loop_stopped (crypto : CryptoOps) (outside : list (M unit)) (s : t)
    (w : World) :
  is_running s = false -> monitor_loop crypto outside s w = (Ok tt, s, w).
Proof.
  intros H. destruct outside; cbn [monitor_loop]; [ reflexivity | ].
  unfold mbind, get. now rewrite H.
Qed.

(** One more turn with nothing happening outside. *)
Lemma loop_idle_step (crypto : CryptoOps) (outside : list (M unit)) (s : t)
    (w : World) (z : Z) (s1 : t) (w1 : World) :
  is_running s = true ->
  monitor_iteration crypto s w = (Ok z, s1, w1) ->
  monitor_loop crypto (ret tt :: outside) s w
  = monitor_loop crypto outside s1 w1.
Proof.
  intros H E. cbn [monitor_loop]. unfold mbind, get, ret.
  now rewrite H, E.
Qed.

Lemma quiet_loop (crypto : CryptoOps) (n : nat) : forall (s : t) (w : World),
  _ignore_next_change s = false ->
  observed w = last_clipboard_content s ->
  exists k, monitor_loop crypto (repeat (ret tt) n) s w
            = (Ok tt, s, set_clock k w).
Proof.
  induction n as [| n IH]; intros s w Hi Ho; cbn [repeat].
  - exists (clock w). cbn [monitor_loop]. unfold ret. now destruct w.
  - destruct (is_running s) eqn:Hr.
    + rewrite (loop_idle_step crypto _ s w _ _ _ Hr (quiet_turn crypto s w Hi Ho)).
      destruct (IH s (set_clock (clock w + 500)%Z w) Hi Ho) as [k ->].
      exists k. reflexivity.
    + rewrite (loop_stopped crypto _ s w Hr).
      exists (clock w). now destruct w.
Qed.

(** X3. no recursion on its own write.  After a turn that encrypted a
    plaintext automatically, any number of further turns during which
    nobody else touches the clipboard write nothing and report nothing:
    the clipboard still holds the envelope and the events are those of the
    encrypting turn. *)
Theorem no_second_encryption (crypto : CryptoOps) (s : t) (w : World)
    (c : str) (n : nat) :
  should_process s (observed w) (clock w) = true ->
  blank (observed w) = false ->
  co_is_encrypted_text crypto (observed w) = false ->
  encryption_enabled s = true ->
  co_encrypt crypto (Z.to_N (clock w / 1000)) (urandom w) (observed w) = Ok c ->
  copy_fails w = false ->
  let x1 := monitor_iteration crypto s w in
  let xn := monitor_loop crypto (repeat (ret tt) n)
              (state_after x1) (world_after x1) in
  value_of xn = Ok tt
  /\ clipboard (world_after xn) = c
  /\ trace (world_after xn) = trace (world_after x1)
  /\ filter is_copy (trace (world_after xn))
     = Copy c :: filter is_copy (trace w).
Proof.
  intros Hs Hb He Hen Hc Hw. cbv zeta.
  destruct (encrypting_turn_leaves_flag crypto s w c Hs Hb He Hen Hc Hw)
    as (Hclip & Hcopies & Hflag).
  set (s1 := state_after (monitor_iteration crypto s w)) in *.
  set (w1 := world_after (monitor_iteration crypto s w)) in *.
  destruct n as [| n]; cbn [repeat].
  { cbn [monitor_loop]. unfold value_of, world_after, ret. cbn [fst snd]. auto. }
  destruct (is_running s1) eqn:Hr.
  2:{ rewrite (loop_stopped crypto _ s1 w1 Hr).
      unfold value_of, world_after. cbn [fst snd]. auto. }
  rewrite (loop_idle_step crypto _ s1 w1 _ _ _ Hr (flag_turn crypto s1 w1 Hflag)).
  destruct (quiet_loop crypto n
              (set_last_clipboard_content (observed w1)
                 (set_ignore_next_change false s1))
              (set_clock (clock w1 + 500)%Z w1) eq_refl eq_refl) as [k ->].
  unfold value_of, world_after. cbn [fst snd clipboard trace set_clock].
  auto.
Qed.

Lemma no_second_encryption_witness :
  let x1 := monitor_iteration toy_ops (attentive true) (calm (py "hello")) in
  filter is_copy
    (trace (world_after
              (monitor_loop toy_ops (repeat (ret tt) 5)
                 (state_after x1) (world_after x1))))
  = [Copy (envelope_of (py "hello"))].
Proof.
  cbv zeta.
  refine (proj2 (proj2 (proj2
           (no_second_encryption toy_ops (attentive true) (calm (py "hello"))
              (envelope_of (py "hello")) 5 _ _ _ _ _ _))));
    vm_compute; reflexivity.
Defined.

End MonitorExtras.

(** ** Further properties of the public operations *)

Module PublicExtras.
Import ClipboardManager Observations ClipboardFacts HandleFacts PublicFacts
  Scenario MonitorClaims PublicClaims MonitorExtras.

Lemma set_clipboard_content_processing (content : str) (s : t) (w : World) :
  _processing (state_after (_set_clipboard_content content s w)) = false.
Proof.
  rewrite set_clipboard_content_spec. now destruct (copy_fails w).
Qed.

(** X4. the write guard is never left engaged.  [_set_clipboard_content]
    always returns with [_processing] cleared, whether the write went
    through or failed; hence no turn of the monitor, no public operation
    and no re-encryption thread that starts with [_processing] clear ends
    with it set. *)
Theorem write_guard_released (crypto : CryptoOps) (d : Z) (j : Job)
    (content : str) (s : t) (w : World) :
  _processing (state_after (_set_clipboard_content content s w)) = false
  /\ (_processing s = false ->
      _processing (state_after (monitor_iteration crypto s w)) = false
      /\ _processing (state_after (manual_encrypt crypto s w)) = false
      /\ _processing (state_after (manual_decrypt crypto s w)) = false
      /\ _processing (state_after (temporary_decrypt crypto d s w)) = false
      /\ _processing (state_after (peek_decrypt crypto s w)) = false
      /\ _processing (state_after (re_encrypt j s w)) = false).
Proof.
  split; [ apply set_clipboard_content_processing | ].
  intros Hp. repeat split.
  - rewrite monitor_iteration_spec.
    destruct (should_process s (observed w) (clock w)).
    + cbv zeta. rewrite handle_clipboard_change_spec. cbv zeta.
      destruct (blank (observed w)); [ exact Hp | ].
      destruct (negb (co_is_encrypted_text crypto (observed w))
                && encryption_enabled s).
      * destruct (co_encrypt crypto _ _ (observed w)); [ | exact Hp ].
        cbv zeta. unfold state_after at 1. cbn [fst snd].
        cbn [_processing set_last_clipboard_content].
        apply set_clipboard_content_processing.
      * destruct (co_is_encrypted_text crypto (observed w)); exact Hp.
    + destruct (_ignore_next_change s); exact Hp.
  - rewrite manual_encrypt_spec.
    destruct (blank (observed w)); [ exact Hp | ].
    destruct (co_is_encrypted_text crypto (observed w)); [ exact Hp | ].
    destruct (co_encrypt crypto _ _ (observed w)); [ | exact Hp ].
    apply set_clipboard_content_processing.
  - rewrite manual_decrypt_spec.
    destruct (blank (observed w)); [ exact Hp | ].
    destruct (negb (co_is_encrypted_text crypto (observed w))); [ exact Hp | ].
    destruct (co_decrypt crypto (observed w)); [ | exact Hp ].
    apply set_clipboard_content_processing.
  - rewrite temporary_decrypt_spec.
    destruct (blank (observed w)); [ exact Hp | ].
    destruct (negb (co_is_encrypted_text crypto (observed w))); [ exact Hp | ].
    destruct (co_decrypt crypto (observed w)); [ | exact Hp ].
    apply set_clipboard_content_processing.
  - rewrite peek_decrypt_spec.
    destruct (blank (observed w)); [ exact Hp | ].
    destruct (negb (co_is_encrypted_text crypto (observed w))); [ exact Hp | ].
    destruct (co_decrypt crypto (observed w)); exact Hp.
  - destruct (sleepable_dec (duration_seconds j)) as [Hd | Hd].
    2:{ rewrite (re_encrypt_refused j s w Hd). exact Hp. }
    + rewrite (re_encrypt_spec j s w Hd). cbv zeta.
      destruct (str_eqb (observed w) (decrypted_text j)); [ | exact Hp ].
      apply set_clipboard_content_processing.
Qed.

Lemma write_guard_released_witness :
  _processing (state_after (manual_encrypt toy_ops (attentive false)
                              (unwritable (py "hello")))) = false.
Proof.
  destruct (write_guard_released toy_ops 10
              {| duration_seconds := 10; decrypted_text := [];
                 original_encrypted := [] |}
              [] (attentive false) (unwritable (py "hello")))
    as (_ & H).
  destruct (H eq_refl) as (_ & H2 & _). exact H2.
Defined.



(** X6. without a password nothing is written.  Around a [CryptoManager] on
    which no password has been set, the three writing operations return
    [False], leave the object as it was and at most tell [on_error]
    (automatic encryption reports the [ValueError] of [encrypt]); a turn of
    the monitor leaves the clipboard alone and records no write. *)
Theorem nothing_written_without_password {P : Primitives}
    (cm : CryptoManager.t) (d : Z) (s : t) (w : World) :
  CryptoManager.cipher_suite cm = None ->
  let crypto := of_crypto_manager cm in
  (exists m, manual_encrypt crypto s w = (Ok false, s, told s m w))
  /\ (exists m, manual_decrypt crypto s w = (Ok false, s, told s m w))
  /\ (exists m, temporary_decrypt crypto d s w = (Ok false, s, told s m w))
  /\ (let x := monitor_iteration crypto s w in
      clipboard (world_after x) = clipboard w
      /\ filter is_copy (trace (world_after x)) = filter is_copy (trace w)).
Proof.
  intros Hk. cbv zeta.
  assert (He : forall text,
             co_is_encrypted_text (of_crypto_manager cm) text = false).
  { intros text. cbn [co_is_encrypted_text of_crypto_manager].
    unfold CryptoManager.is_encrypted_text. now rewrite Hk. }
  assert (Henc : forall now iv text,
             co_encrypt (of_crypto_manager cm) now iv text
             = Raise (ValueError PleaseSetPassword)).
  { intros now iv text. cbn [co_encrypt of_crypto_manager].
    unfold CryptoManager.encrypt. now rewrite Hk. }
  split.
  { apply manual_encrypt_failure. do 2 right. eexists. apply Henc. }
  destruct (decrypt_failure (of_crypto_manager cm) d s w) as (H1 & H2).
  { right. left. apply He. }
  split; [ exact H1 | ]. split; [ exact H2 | ].
  rewrite monitor_iteration_spec.
  destruct (should_process s (observed w) (clock w)).
  - cbv zeta. rewrite handle_clipboard_change_spec. cbv zeta.
    rewrite He, Henc. cbn [negb andb].
    unfold world_after, told. cbn [snd].
    destruct (blank (observed w)), (encryption_enabled s),
      (on_clipboard_changed s), (on_error s); split; reflexivity.
  - destruct (_ignore_next_change s); split; reflexivity.
Qed.

Lemma nothing_written_without_password_witness :
  exists m,
    manual_encrypt (of_crypto_manager (P := Toy.prims) CryptoManager.init)
      (attentive true) (calm (py "hello"))
    = (Ok false, attentive true, told (attentive true) m (calm (py "hello"))).
Proof.
  destruct (nothing_written_without_password (P := Toy.prims)
              CryptoManager.init 10 (attentive true) (calm (py "hello"))
              eq_refl) as (H & _).
  exact H.
Defined.

(** A text that has a character [strip] keeps is not blank. *)
Lemma lstrip_snoc (l : str) (c : N) :
  Py_UNICODE_ISSPACE c = false -> lstrip (l ++ [c]) <> [].
Proof.
  intros Hc. induction l as [| a l IH]; cbn [app lstrip].
  - rewrite Hc. discriminate.
  - destruct (Py_UNICODE_ISSPACE a); [ exact IH | discriminate ].
Qed.

Lemma blank_first (c : N) (s : str) :
  Py_UNICODE_ISSPACE c = false -> blank (c :: s) = false.
Proof.
  intros Hc. unfold blank, strip. cbn [lstrip]. rewrite Hc. cbn [rev].
  pose proof (lstrip_snoc (rev s) c Hc) as H.
  destruct (lstrip (rev s ++ [c])) as [| x l]; [ contradiction | ].
  cbn [rev]. now destruct (rev l).
Qed.

Lemma digit_not_space (n : N) :
  n < 64 ->
  Py_UNICODE_ISSPACE (Byte.to_N (Base64.enc_tr (Base64.b2a n))) = false.
Proof.
  intros H. apply Base64Facts.below_64 in H. apply negb_true_iff.
  revert n H.
  apply (proj1 (forallb_forall
                  (fun n => negb (Py_UNICODE_ISSPACE
                                    (Byte.to_N (Base64.enc_tr (Base64.b2a n)))))
                  (map N.of_nat (seq 0 64)))).
  vm_compute. reflexivity.
Qed.

Lemma envelope_not_blank (token : bytes) :
  token <> [] -> blank (CryptoVocab.envelope token) = false.
Proof.
  destruct token as [| a r]; [ contradiction | intros _ ].
  unfold CryptoVocab.envelope, Base64.urlsafe_b64encode, Base64.translate.
  assert (Ha : N.shiftr (Byte.to_N a) 2 < 64).
  { pose proof (Byte.to_N_bounded a). rewrite N.shiftr_div_pow2.
    apply N.Div0.div_lt_upper_bound. cbn. lia. }
  destruct r as [| b [| c r]]; cbn [Base64.b2a_base64 map];
    apply blank_first; exact (digit_not_space _ Ha).
Qed.

(** X7. encrypting and decrypting by hand.  Under a session opened by
    [set_password] and with a working clipboard that holds a Unicode text,
    not blank and not itself an envelope, [manual_encrypt] returns [True]
    and leaves an envelope on the clipboard, and [manual_decrypt] right
    after it returns [True] and puts the original text back. *)
Theorem manual_round_trip
    {P : Primitives} {FC : FernetCorrect P} {FN : FernetNonEmpty P}
    (cm0 cm : CryptoManager.t) (password : str) (salt : option bytes)
    (rnd used : bytes) (s : t) (w : World) :
  CryptoManager.set_password cm0 password salt rnd = Ok (cm, used) ->
  paste_fails w = false -> copy_fails w = false ->
  Utf8.unicode_text (clipboard w) ->
  blank (clipboard w) = false ->
  CryptoManager.is_encrypted_text cm (clipboard w) = false ->
  let crypto := of_crypto_manager cm in
  let x1 := manual_encrypt crypto s w in
  let x2 := manual_decrypt crypto (state_after x1) (world_after x1) in
  value_of x1 = Ok true
  /\ CryptoManager.is_encrypted_text cm (clipboard (world_after x1)) = true
  /\ value_of x2 = Ok true
  /\ clipboard (world_after x2) = clipboard w.
Proof.
  intros Hs Hp Hc Hu Hb He. cbv zeta.
  apply SessionFacts.set_password_inv in Hs.
  destruct Hs as (pw & _ & _ & Hk & Hlen).
  destruct (Utf8Facts.encode_total (clipboard w) Hu) as [data Hd].
  assert (Ho : observed w = clipboard w) by (unfold observed; now rewrite Hp).
  set (token := fernet_encrypt (Kdf.derive pw used)
                  (Z.to_N (clock w / 1000)) (urandom w) data).
  assert (Henc : co_encrypt (of_crypto_manager cm) (Z.to_N (clock w / 1000))
                   (urandom w) (clipboard w)
                 = Ok (CryptoVocab.envelope token)).
  { exact (CryptoFacts.encrypt_session cm _ _ _ _ data Hk Hd). }
  assert (Hdec : CryptoManager.decrypt cm (CryptoVocab.envelope token)
                 = Ok (clipboard w)).
  { rewrite (CryptoFacts.decrypt_envelope cm _ token Hk).
    subst token. rewrite fernet_roundtrip.
    now rewrite (Utf8Facts.decode_encode _ _ Hd). }
  assert (Hie : CryptoManager.is_encrypted_text cm (CryptoVocab.envelope token)
                = true).
  { apply CryptoClaims.is_encrypted_text_decrypt. eauto. }
  assert (Hnb : blank (CryptoVocab.envelope token) = false).
  { apply envelope_not_blank. subst token.
    apply fernet_token_nonempty. exact Hlen. }
  rewrite manual_encrypt_spec, Ho, Hb.
  cbn [co_is_encrypted_text of_crypto_manager]. rewrite He.
  rewrite Henc. cbv zeta. rewrite set_clipboard_content_spec, Hc.
  unfold value_of, state_after, world_after. cbn [fst snd].
  set (w1 := if on_encryption_performed s then _ else _).
  assert (Hw1 : clipboard w1 = CryptoVocab.envelope token
                /\ paste_fails w1 = false /\ copy_fails w1 = false).
  { subst w1. destruct (on_encryption_performed s); cbn; auto. }
  destruct Hw1 as (Hcl & Hp1 & Hc1).
  assert (Ho1 : observed w1 = CryptoVocab.envelope token)
    by (unfold observed; now rewrite Hp1).
  split; [ reflexivity | ]. split; [ now rewrite Hcl | ].
  rewrite manual_decrypt_spec, Ho1, Hnb.
  cbn [co_is_encrypted_text co_decrypt of_crypto_manager].
  rewrite Hie, Hdec. cbn [negb]. cbv zeta.
  rewrite set_clipboard_content_spec, Hc1. cbn [fst snd].
  split; [ reflexivity | ].
  now destruct (on_decryption_performed _).
Qed.

Lemma manual_round_trip_witness :
  let crypto := of_crypto_manager (P := Toy.prims)
                  (CryptoVocab.toy_session [x70; x77]) in
  let x1 := manual_encrypt crypto (attentive false) (calm (py "hello")) in
  clipboard (world_after
               (manual_decrypt crypto (state_after x1) (world_after x1)))
  = py "hello".
Proof.
  cbv zeta.
  refine (proj2 (proj2 (proj2
           (manual_round_trip (P := Toy.prims) (FC := ToyFacts.correct)
              (FN := ToyFacts.nonempty) CryptoManager.init
              (CryptoVocab.toy_session [x70; x77]) (py "pw")
              (Some CryptoVocab.salt0) [] CryptoVocab.salt0
              (attentive false) (calm (py "hello")) _ _ _ _ _ _)))).
  - apply CryptoClaims.toy_set_password. reflexivity.
  - reflexivity.
  - reflexivity.
  - repeat constructor.
  - vm_compute. reflexivity.
  - lazy. reflexivity.
Defined.

End PublicExtras.

(** ** Further properties of [CryptoManager] *)

Module CryptoExtras.
Import CryptoManager CryptoVocab CryptoFacts SessionFacts.

(** X8. [decrypt] raises nothing but [ValueError].  Without a session the
    error asks for a password; with one, it wraps the failure of the step
    that failed: the text does not encode, is not base64, is not a token of
    this key, or the decrypted bytes are not UTF-8. *)
Theorem decrypt_only_value_error {P : Primitives} (self : CryptoManager.t)
    (text : str) (e : exn) :
  decrypt self text = Raise e ->
  (cipher_suite self = None /\ e = ValueError PleaseSetPassword)
  \/ (cipher_suite self <> None
      /\ exists cause,
           e = ValueError (DecryptFailed cause)
           /\ (cause = UnicodeEncodeError \/ cause = BinasciiError
               \/ cause = InvalidToken \/ cause = UnicodeDecodeError)).
Proof.
  unfold decrypt. destruct (cipher_suite self) as [k |].
  2:{ intros [= <-]. now left. }
  intros H. right. split; [ discriminate | ].
  unfold Utf8.encode in H.
  destruct (Utf8.encode_opt text) as [c |]; cbn [bind try_except] in H.
  2:{ injection H as <-. eauto. }
  unfold Base64.urlsafe_b64decode, Base64.a2b_base64 in H.
  destruct (Base64.a2b_loop 0 0 0 _) as [d |]; cbn [bind try_except] in H.
  2:{ injection H as <-. eauto 6. }
  destruct (fernet_decrypt k d) as [m |]; cbn [bind try_except] in H.
  2:{ injection H as <-. eauto 6. }
  unfold Utf8.decode in H.
  destruct (Utf8.decode_opt m); cbn [try_except] in H; [ discriminate | ].
  injection H as <-. eauto 7.
Qed.

Lemma decrypt_only_value_error_witness :
  exists cause,
    ValueError (DecryptFailed BinasciiError) = ValueError (DecryptFailed cause)
    /\ (cause = UnicodeEncodeError \/ cause = BinasciiError
        \/ cause = InvalidToken \/ cause = UnicodeDecodeError).
Proof.
  destruct (decrypt_only_value_error (P := Toy.prims) Scenario.toy_cm
              (py "hello") (ValueError (DecryptFailed BinasciiError)))
    as [[H _] | [_ H]].
  - vm_compute. reflexivity.
  - discriminate.
  - exact H.
Defined.

(** X9. [set_password] succeeds on every Unicode password.  Whatever the
    object held before and whatever the salt, the call returns the salt it
    was given (or the fresh random one when none was given), and the new
    object holds a 32-byte Fernet key, so that the key check of the Fernet
    constructor never fails. *)
Theorem set_password_succeeds
    {P : Primitives} {SL : Sha256Length P}
    (self : CryptoManager.t) (password : str) (salt : option bytes)
    (rnd : bytes) :
  Utf8.unicode_text password ->
  exists cm k,
    set_password self password salt rnd
    = Ok (cm, match salt with Some given => given | None => rnd end)
    /\ cipher_suite cm = Some k /\ length k = 32%nat
    /\ key cm = Some (Base64.urlsafe_b64encode k).
Proof.
  intros Hu. destruct (Utf8Facts.encode_total password Hu) as [pw Hpw].
  rewrite (set_password_ok self password salt rnd pw Hpw).
  fold (salt_used salt rnd).
  eexists. exists (Kdf.derive pw (salt_used salt rnd)).
  split; [ reflexivity | ]. cbn [cipher_suite key].
  split; [ reflexivity | ]. split; [ apply KdfFacts.derive_length | ].
  reflexivity.
Qed.

Lemma set_password_succeeds_witness :
  exists cm k,
    set_password (P := Toy.prims) CryptoManager.init [0x5BC6; 0x7801] None
      (repeat x01 16)
    = Ok (cm, repeat x01 16)
    /\ cipher_suite cm = Some k /\ length k = 32%nat
    /\ key cm = Some (Base64.urlsafe_b64encode k).
Proof.
  apply (set_password_succeeds (P := Toy.prims) (SL := ToyFacts.sha_length)
           CryptoManager.init [0x5BC6; 0x7801] None (repeat x01 16)).
  repeat constructor.
Defined.

(** X10. a session can be restored from the salt.  The salt [set_password]
    returns when it draws one itself is the random value it drew; a second
    object given the same password and that salt decrypts what the first
    one encrypted. *)
Theorem session_restored_from_salt
    {P : Primitives} {FC : FernetCorrect P}
    (a b cm1 cm2 : CryptoManager.t) (password : str)
    (rnd1 rnd2 salt used : bytes) (now : N) (iv : bytes) (plaintext c : str) :
  set_password a password None rnd1 = Ok (cm1, salt) ->
  set_password b password (Some salt) rnd2 = Ok (cm2, used) ->
  encrypt cm1 now iv plaintext = Ok c ->
  salt = rnd1 /\ used = salt
  /\ cipher_suite cm2 = cipher_suite cm1
  /\ decrypt cm2 c = Ok plaintext.
Proof.
  intros H1 H2 Hc.
  apply set_password_inv in H1. destruct H1 as (pw1 & E1 & S1 & K1 & _).
  apply set_password_inv in H2. destruct H2 as (pw2 & E2 & S2 & K2 & _).
  cbn [salt_used] in S1, S2.
  assert (pw2 = pw1) by congruence. subst pw2 used.
  split; [ exact S1 | ]. split; [ reflexivity | ].
  split; [ now rewrite K1, K2 | ].
  apply encrypt_inv in Hc. destruct Hc as (k & data & Hk & Hd & ->).
  rewrite K1 in Hk. apply Some_eq in Hk. subst k.
  rewrite (decrypt_envelope cm2 _ _ K2), fernet_roundtrip.
  now rewrite (Utf8Facts.decode_encode plaintext data Hd).
Qed.

Lemma session_restored_from_salt_witness :
  decrypt (P := Toy.prims) (toy_session [x70; x77])
    (envelope (fernet_encrypt (Primitives := Toy.prims)
                 (Kdf.derive (P := Toy.prims) [x70; x77] salt0) 7 []
                 [x73; x65; x63; x72; x65; x74]))
  = Ok (py "secret").
Proof.
  refine (proj2 (proj2 (proj2
           (session_restored_from_salt (P := Toy.prims)
              (FC := ToyFacts.correct) CryptoManager.init CryptoManager.init
              (toy_session [x70; x77]) (toy_session [x70; x77]) (py "pw")
              salt0 [] salt0 salt0 7 [] (py "secret") _ _ _ _)))).
  - exact (set_password_ok (P := Toy.prims)
             (Sha256Length0 := ToyFacts.sha_length)
             CryptoManager.init (py "pw") None salt0 [x70; x77] eq_refl).
  - apply CryptoClaims.toy_set_password. reflexivity.
  - apply (encrypt_session (P := Toy.prims) (toy_session [x70; x77])
             (Kdf.derive (P := Toy.prims) [x70; x77] salt0) 7 [] (py "secret")
             [x73; x65; x63; x72; x65; x74]); reflexivity.
Defined.

(** X11. a trailing U+0000 does not change the key.  For a password whose
    UTF-8 form is shorter than the 64-byte block of HMAC, the password and
    the password followed by U+0000 derive the same key from the same
    salt: the second session decrypts what the first encrypted. *)
Theorem trailing_nul_opens_same_session
    {P : Primitives} {FC : FernetCorrect P}
    (a b cm1 cm2 : CryptoManager.t) (password : str) (pw : bytes)
    (salt r1 r2 u1 u2 : bytes) (now : N) (iv : bytes) (plaintext c : str) :
  Utf8.encode password = Ok pw -> (length pw < 64)%nat ->
  set_password a password (Some salt) r1 = Ok (cm1, u1) ->
  set_password b (password ++ [0]) (Some salt) r2 = Ok (cm2, u2) ->
  encrypt cm1 now iv plaintext = Ok c ->
  cipher_suite cm2 = cipher_suite cm1 /\ decrypt cm2 c = Ok plaintext.
Proof.
  intros E L H1 H2 Hc.
  apply set_password_inv in H1. destruct H1 as (pw1 & E1 & S1 & K1 & _).
  apply set_password_inv in H2. destruct H2 as (pw2 & E2 & S2 & K2 & _).
  cbn [salt_used] in S1, S2. subst u1 u2.
  rewrite (encode_nul _ _ E) in E2.
  assert (pw1 = pw) by congruence. assert (pw2 = pw ++ [x00]) by congruence.
  subst pw1 pw2.
  rewrite KdfFacts.derive_nul in K2 by exact L.
  split; [ now rewrite K1, K2 | ].
  apply encrypt_inv in Hc. destruct Hc as (k & data & Hk & Hd & ->).
  rewrite K1 in Hk. apply Some_eq in Hk. subst k.
  rewrite (decrypt_envelope cm2 _ _ K2), fernet_roundtrip.
  now rewrite (Utf8Facts.decode_encode plaintext data Hd).
Qed.

Lemma trailing_nul_opens_same_session_witness :
  cipher_suite (toy_session [x70; x77; x00])
  = cipher_suite (toy_session [x70; x77]).
Proof.
  refine (proj1
           (trailing_nul_opens_same_session (P := Toy.prims)
              (FC := ToyFacts.correct) CryptoManager.init CryptoManager.init
              (toy_session [x70; x77]) (toy_session [x70; x77; x00])
              (py "pw") [x70; x77] salt0 [] [] salt0 salt0 7 []
              (py "secret")
              (envelope (fernet_encrypt (Primitives := Toy.prims)
                           (Kdf.derive (P := Toy.prims) [x70; x77] salt0) 7 []
                           [x73; x65; x63; x72; x65; x74]))
              _ _ _ _ _)).
  - reflexivity.
  - cbn. lia.
  - apply CryptoClaims.toy_set_password. reflexivity.
  - apply CryptoClaims.toy_set_password. reflexivity.
  - apply (encrypt_session (P := Toy.prims) (toy_session [x70; x77])
             (Kdf.derive (P := Toy.prims) [x70; x77] salt0) 7 [] (py "secret")
             [x73; x65; x63; x72; x65; x74]); reflexivity.
Defined.

End CryptoExtras.

(** ** The key file and the password commands *)

Module KeyFileFacts.
Import Base64 Base64Facts.

Lemma std_digit (n : N) : n < 64 -> std_char (b2a n).
Proof.
  intros H. apply below_64 in H. revert n H.
  assert (F : forallb (fun n => Byte.eqb (dec_tr (enc_tr (b2a n))) (b2a n)
                                && (Byte.to_N (b2a n) <? 0x80))
                (map N.of_nat (seq 0 64)) = true)
    by (vm_compute; reflexivity).
  intros n Hn. apply (proj1 (forallb_forall _ _) F) in Hn.
  apply andb_prop in Hn. destruct Hn as [H1 H2]. split.
  - now apply Byte.byte_dec_bl in H1.
  - now apply N.ltb_lt.
Qed.

Lemma std_pad : std_char BASE64_PAD.
Proof. split; [ reflexivity | vm_compute; reflexivity ]. Qed.

Lemma b2a_base64_std (bs : bytes) : Forall std_char (b2a_base64 bs).
Proof.
  induction bs as [| a | a b | a b c r IH] using list_ind3.
  - constructor.
  - pose proof (Byte.to_N_bounded a) as Ha.
    destruct (sextets (Byte.to_N a) 0 0) as (E1 & _ & _ & _ & E5 & _); try lia.
    destruct (unsextets (Byte.to_N a) 0 0) as (_ & _ & _ & _ & _ & B1 & B2 & _);
      try lia.
    change (0 / 16) with 0 in *. rewrite N.add_0_r in *.
    cbn [b2a_base64]. rewrite E1, E5.
    repeat constructor; try (now apply std_digit); apply std_pad.
  - pose proof (Byte.to_N_bounded a) as Ha.
    pose proof (Byte.to_N_bounded b) as Hb.
    destruct (sextets (Byte.to_N a) (Byte.to_N b) 0)
      as (E1 & E2 & _ & _ & _ & E6); try lia.
    destruct (unsextets (Byte.to_N a) (Byte.to_N b) 0)
      as (_ & _ & _ & _ & _ & B1 & B2 & B3 & _); try lia.
    change (0 / 64) with 0 in *. rewrite N.add_0_r in *.
    cbn [b2a_base64]. rewrite E1, E2, E6.
    repeat constructor; try (now apply std_digit); apply std_pad.
  - pose proof (Byte.to_N_bounded a) as Ha.
    pose proof (Byte.to_N_bounded b) as Hb.
    pose proof (Byte.to_N_bounded c) as Hc.
    destruct (sextets (Byte.to_N a) (Byte.to_N b) (Byte.to_N c))
      as (E1 & E2 & E3 & E4 & _); try lia.
    destruct (unsextets (Byte.to_N a) (Byte.to_N b) (Byte.to_N c))
      as (_ & _ & _ & _ & _ & B1 & B2 & B3 & B4); try lia.
    cbn [b2a_base64]. rewrite E1, E2, E3, E4.
    repeat (constructor; [ now apply std_digit | ]). exact IH.
Qed.

(** [base64.b64decode(base64.b64encode(s)) == s] *)
Lemma a2b_b2a (bs : bytes) : a2b_loop 0 0 0 (b2a_base64 bs) = Some bs.
Proof.
  assert (E : map (fun ch => dec_tr (enc_tr ch)) (b2a_base64 bs)
              = b2a_base64 bs).
  { pose proof (b2a_base64_std bs) as H.
    induction H as [| ch l [Hch _] _ IH]; cbn [map]; [ reflexivity | ].
    now rewrite Hch, IH. }
  pose proof (b2a_a2b_loop bs 0 0) as R. rewrite E in R. exact R.
Qed.

Lemma b64decode_salt_text {P : Primitives} (salt : bytes) :
  ConfigManager.b64decode (ConfigManager.salt_text salt) = Some salt.
Proof.
  unfold ConfigManager.b64decode, ConfigManager.salt_text.
  pose proof (b2a_base64_std salt) as H.
  assert (A : forallb (fun c => c <? 0x80) (map Byte.to_N (b2a_base64 salt))
              = true).
  { induction H as [| ch l [_ Hch] _ IH]; cbn [map forallb]; [ reflexivity | ].
    apply N.ltb_lt in Hch. now rewrite Hch, IH. }
  rewrite A, map_map.
  rewrite (map_ext _ (fun b => b) byte_of_to_N), map_id.
  apply a2b_b2a.
Qed.

Lemma hexdigit_scalar (n : N) : n < 16 -> Utf8.scalar (Hex.hexdigit n) = true.
Proof.
  intros H. unfold Hex.hexdigit, Utf8.scalar.
  destruct (n <? 10); lia.
Qed.

Lemma hex_unicode (b : bytes) : Utf8.unicode_text (Hex.hex b).
Proof.
  unfold Hex.hex, Utf8.unicode_text.
  induction b as [| x b IH]; cbn [flat_map app]; [ constructor | ].
  pose proof (Byte.to_N_bounded x).
  constructor; [ apply hexdigit_scalar; apply N.Div0.div_lt_upper_bound; lia | ].
  constructor; [ apply hexdigit_scalar; apply N.mod_lt; lia | exact IH ].
Qed.

Lemma hex_length (b : bytes) : length (Hex.hex b) = (2 * length b)%nat.
Proof.
  unfold Hex.hex. induction b as [| x b IH]; cbn [flat_map app length]; lia.
Qed.

Lemma generate_key_hash_ok {P : Primitives} (password : str) (salt : bytes) :
  Utf8.unicode_text password ->
  exists data,
    Utf8.encode (password ++ Hex.hex salt) = Ok data
    /\ KeyHash.generate_key_hash password salt = Ok (Hex.hex (sha256 data)).
Proof.
  intros Hu.
  destruct (Utf8Facts.encode_total (password ++ Hex.hex salt)) as [data Hd].
  { apply Forall_app. split; [ exact Hu | apply hex_unicode ]. }
  exists data. split; [ exact Hd | ].
  unfold KeyHash.generate_key_hash. now rewrite Hd.
Qed.

End KeyFileFacts.

Module SessionExtras.
Import KeyFileFacts SessionFacts CryptoVocab.
Import CliSession.

Lemma str_eqb_same (a : str) : str_eqb a a = true.
Proof. unfold str_eqb. now destruct (list_eq_dec N.eq_dec a a). Qed.

(** X12. the password command.  [set_password] of the command line refuses a
    password of fewer than six characters and touches nothing.  For a
    Unicode password of six characters or more it returns [True], installs
    a session with a 32-byte key, sets [password_set] and starts the
    monitor; the result of saving the key file is not looked at, so with a
    disk that cannot be written the command still returns [True] and the
    disk stays as it was, and with a writable disk the file then holds the
    base64 text of the salt. *)
Theorem cli_set_password {P : Primitives} {SL : Sha256Length P}
    (self : CliSession.t) (password : str) (rnd : bytes) :
  ((length password < 6)%nat ->
   CliSession.set_password self password rnd = (false, self))
  /\ ((6 <= length password)%nat -> Utf8.unicode_text password ->
      let x := CliSession.set_password self password rnd in
      fst x = true
      /\ password_set (snd x) = true /\ monitoring (snd x) = true
      /\ (exists k, CryptoManager.cipher_suite (crypto_manager (snd x)) = Some k
                    /\ length k = 32%nat)
      /\ (ConfigManager.write_fails (config_manager self) = true ->
          config_manager (snd x) = config_manager self)
      /\ (ConfigManager.write_fails (config_manager self) = false ->
          exists h, ConfigManager.file (config_manager (snd x))
                    = ConfigManager.Holds (ConfigManager.salt_text rnd) h)).
Proof.
  unfold CliSession.set_password. split.
  - intros H. destruct (Nat.ltb_spec (length password) 6); [ reflexivity | lia ].
  - intros H Hu. cbv zeta.
    destruct (Nat.ltb_spec (length password) 6); [ lia | ].
    destruct (Utf8Facts.encode_total password Hu) as [pw Hpw].
    rewrite (set_password_ok (crypto_manager self) password None rnd pw Hpw).
    cbn [salt_used].
    destruct (generate_key_hash_ok password rnd Hu) as (data & _ & ->).
    cbn [fst snd password_set monitoring crypto_manager config_manager
         CryptoManager.cipher_suite].
    split; [ reflexivity | ]. split; [ reflexivity | ].
    split; [ reflexivity | ].
    split; [ eexists; split; [ reflexivity | apply KdfFacts.derive_length ] | ].
    unfold ConfigManager.save_key_data.
    split; intros Hw; rewrite Hw; cbn [snd ConfigManager.file]; eauto.
Qed.

Lemma cli_set_password_witness :
  CliSession.set_password (P := Toy.prims)
    (CliSession.init {| ConfigManager.file := ConfigManager.Absent;
                        ConfigManager.write_fails := false |})
    (py "12345") salt0
  = (false, CliSession.init {| ConfigManager.file := ConfigManager.Absent;
                               ConfigManager.write_fails := false |})
  /\ fst (CliSession.set_password (P := Toy.prims)
            (CliSession.init {| ConfigManager.file := ConfigManager.Absent;
                                ConfigManager.write_fails := true |})
            (py "123456") salt0) = true.
Proof.
  split.
  - apply (cli_set_password (P := Toy.prims) (SL := ToyFacts.sha_length)).
    cbn. lia.
  - refine (proj1 (proj2 (cli_set_password (P := Toy.prims)
                            (SL := ToyFacts.sha_length) _ (py "123456") salt0)
                     _ _)).
    + cbn. lia.
    + repeat constructor.
Defined.

(** What the command leaves in the session and on a writable disk. *)
Lemma cli_set_password_result {P : Primitives} {SL : Sha256Length P}
    (self : CliSession.t) (password : str) (rnd pw data : bytes) :
  (6 <= length password)%nat ->
  Utf8.encode password = Ok pw ->
  Utf8.encode (password ++ Hex.hex rnd) = Ok data ->
  ConfigManager.write_fails (config_manager self) = false ->
  snd (CliSession.set_password self password rnd)
  = {| crypto_manager :=
         {| CryptoManager.key :=
              Some (Base64.urlsafe_b64encode (Kdf.derive pw rnd));
            CryptoManager.cipher_suite := Some (Kdf.derive pw rnd) |};
       config_manager :=
         {| ConfigManager.file :=
              ConfigManager.Holds (ConfigManager.salt_text rnd)
                (Hex.hex (sha256 data));
            ConfigManager.write_fails := false |};
       password_set := true;
       monitoring := true |}.
Proof.
  intros H Hpw Hd Hw. unfold CliSession.set_password.
  destruct (Nat.ltb_spec (length password) 6); [ lia | ].
  rewrite (set_password_ok (crypto_manager self) password None rnd pw Hpw).
  cbn [salt_used]. unfold KeyHash.generate_key_hash. rewrite Hd. cbn [bind].
  unfold ConfigManager.save_key_data. rewrite Hw. reflexivity.
Qed.

(** X13. the saved key restores the session.  After [set_password] of the
    command line on a writable disk, [verify_password] accepts the same
    password, and a command line started afresh on that disk, prompted
    with it, restores a session with the same key, sets [password_set] and
    starts the monitor. *)
Theorem saved_password_round_trip {P : Primitives} {SL : Sha256Length P}
    (self : CliSession.t) (password : str) (rnd rnd2 : bytes) :
  (6 <= length password)%nat ->
  Utf8.unicode_text password ->
  ConfigManager.write_fails (config_manager self) = false ->
  let x := snd (CliSession.set_password self password rnd) in
  let disk := config_manager x in
  let y := _prompt_for_saved_password (CliSession.init disk) [password] rnd2 in
  ConfigManager.verify_password disk password = true
  /\ (exists h, ConfigManager.load_key_data disk
                = Some {| ConfigManager.salt := rnd;
                          ConfigManager.key_hash := h |})
  /\ password_set y = true /\ monitoring y = true
  /\ CryptoManager.cipher_suite (crypto_manager y)
     = CryptoManager.cipher_suite (crypto_manager x).
Proof.
  intros H Hu Hw. cbv zeta.
  destruct (Utf8Facts.encode_total password Hu) as [pw Hpw].
  destruct (generate_key_hash_ok password rnd Hu) as (data & Hd & Hh).
  rewrite (cli_set_password_result self password rnd pw data H Hpw Hd Hw).
  cbn [config_manager crypto_manager CryptoManager.cipher_suite].
  set (disk := {| ConfigManager.file := _; ConfigManager.write_fails := false |}).
  assert (Hl : ConfigManager.load_key_data disk
               = Some {| ConfigManager.salt := rnd;
                         ConfigManager.key_hash := Hex.hex (sha256 data) |}).
  { unfold ConfigManager.load_key_data. subst disk. cbn [ConfigManager.file].
    now rewrite b64decode_salt_text. }
  assert (Hv : ConfigManager.verify_password disk password = true).
  { unfold ConfigManager.verify_password. rewrite Hl.
    cbn [ConfigManager.salt ConfigManager.key_hash]. rewrite Hh.
    apply str_eqb_same. }
  split; [ exact Hv | ]. split; [ eauto | ].
  unfold _prompt_for_saved_password. cbn [prompt].
  cbn [config_manager CliSession.init]. rewrite Hv.
  unfold _set_password_with_saved_key.
  cbn [config_manager crypto_manager CliSession.init]. rewrite Hl.
  cbn [ConfigManager.salt].
  rewrite (set_password_ok CryptoManager.init password (Some rnd) rnd2 pw Hpw).
  cbn [salt_used password_set monitoring crypto_manager
       CryptoManager.cipher_suite].
  repeat split.
Qed.

Lemma saved_password_round_trip_witness :
  ConfigManager.verify_password (P := Toy.prims)
    (config_manager
       (snd (CliSession.set_password (P := Toy.prims)
               (CliSession.init {| ConfigManager.file := ConfigManager.Absent;
                                   ConfigManager.write_fails := false |})
               (py "123456") salt0)))
    (py "123456")
  = true.
Proof.
  refine (proj1 (saved_password_round_trip (P := Toy.prims)
                   (SL := ToyFacts.sha_length) _ (py "123456") salt0 [] _ _ _)).
  - cbn. lia.
  - repeat constructor.
  - reflexivity.
Defined.

Lemma Forall_firstn_keeps {A} (Q : A -> Prop) (n : nat) : forall l,
  Forall Q l -> Forall Q (firstn n l).
Proof.
  induction n as [| n IH]; intros l H; [ constructor | ].
  destruct H; cbn [firstn]; constructor; auto.
Qed.

Lemma prompt_all_wrong {P : Primitives} (n : nat) (self : CliSession.t)
    (rnd : bytes) : forall typed,
  Forall (fun p => ConfigManager.verify_password (config_manager self) p
                   = false) (firstn n typed) ->
  prompt n self typed rnd = self.
Proof.
  induction n as [| n IH]; intros typed H; [ reflexivity | ].
  destruct typed as [| p rest]; [ reflexivity | ].
  cbn [firstn] in H. inversion H as [| ? ? Hp Hrest]; subst.
  cbn [prompt]. rewrite Hp. now apply IH.
Qed.

Lemma verified_password_encodes {P : Primitives} (self : ConfigManager.t)
    (password : str) :
  ConfigManager.verify_password self password = true ->
  exists kd pw,
    ConfigManager.load_key_data self = Some kd
    /\ Utf8.encode password = Ok pw.
Proof.
  unfold ConfigManager.verify_password.
  destruct (ConfigManager.load_key_data self) as [kd |]; [ | discriminate ].
  unfold KeyHash.generate_key_hash, Utf8.encode.
  rewrite encode_opt_app.
  destruct (Utf8.encode_opt password) as [pw |]; [ | discriminate ].
  intros _. exists kd, pw. split; reflexivity.
Qed.

(** X14. three attempts.  At start-up the saved password is asked for at most
    three times.  When none of the first three passwords typed verifies,
    the command line is left as it was, whatever is typed afterwards.  When
    the first one that verifies comes within the first three, the session
    is restored with it: the crypto manager holds the key derived from that
    password and the saved salt, [password_set] is set, the monitor is
    started and the key file is left as it was. *)
Theorem prompt_three_attempts {P : Primitives} {SL : Sha256Length P}
    (self : CliSession.t) (wrong : list str) (good : str) (rest : list str)
    (rnd : bytes) :
  Forall (fun p => ConfigManager.verify_password (config_manager self) p
                   = false) wrong ->
  ConfigManager.verify_password (config_manager self) good = true ->
  ((3 <= length wrong)%nat ->
   _prompt_for_saved_password self (wrong ++ good :: rest) rnd = self)
  /\ ((length wrong < 3)%nat ->
      exists kd pw,
        ConfigManager.load_key_data (config_manager self) = Some kd
        /\ Utf8.encode good = Ok pw
        /\ _prompt_for_saved_password self (wrong ++ good :: rest) rnd
           = {| crypto_manager :=
                  {| CryptoManager.key :=
                       Some (Base64.urlsafe_b64encode
                               (Kdf.derive pw (ConfigManager.salt kd)));
                     CryptoManager.cipher_suite :=
                       Some (Kdf.derive pw (ConfigManager.salt kd)) |};
                config_manager := config_manager self;
                password_set := true;
                monitoring := true |}).
Proof.
  intros Hw Hg. unfold _prompt_for_saved_password. split; intros Hl.
  - apply prompt_all_wrong.
    rewrite firstn_app.
    replace (3 - length wrong)%nat with 0%nat by lia.
    rewrite firstn_O, app_nil_r. now apply Forall_firstn_keeps.
  - destruct (verified_password_encodes _ _ Hg) as (kd & pw & Hk & Hpw).
    exists kd, pw. split; [ exact Hk | ]. split; [ exact Hpw | ].
    assert (E : _set_password_with_saved_key self good rnd
                = {| crypto_manager :=
                       {| CryptoManager.key :=
                            Some (Base64.urlsafe_b64encode
                                    (Kdf.derive pw (ConfigManager.salt kd)));
                          CryptoManager.cipher_suite :=
                            Some (Kdf.derive pw (ConfigManager.salt kd)) |};
                     config_manager := config_manager self;
                     password_set := true;
                     monitoring := true |}).
    { unfold _set_password_with_saved_key. rewrite Hk.
      rewrite (set_password_ok (crypto_manager self) good
                 (Some (ConfigManager.salt kd)) rnd pw Hpw).
      reflexivity. }
    rewrite <- E.
    destruct wrong as [| a [| b [| c l]]]; cbn [length] in Hl; try lia;
      repeat match goal with
             | H : Forall _ (_ :: _) |- _ =>
                 let Hp := fresh "Hp" in
                 inversion H as [| ? ? Hp ?]; subst; clear H
             end;
      cbn [app prompt]; rewrite ?Hp, ?Hp0, Hg; reflexivity.
Qed.

Lemma prompt_three_attempts_witness :
  _prompt_for_saved_password (P := Toy.prims) (CliSession.init SavedDisk.disk)
    [py "aaaaaa"; py "bbbbbb"; py "cccccc"; py "123456"] []
  = CliSession.init SavedDisk.disk
  /\ password_set
       (_prompt_for_saved_password (P := Toy.prims)
          (CliSession.init SavedDisk.disk) [py "aaaaaa"; py "123456"] [])
     = true.
Proof.
  split.
  - refine (proj1 (prompt_three_attempts (P := Toy.prims)
                     (SL := ToyFacts.sha_length)
                     (CliSession.init SavedDisk.disk)
                     [py "aaaaaa"; py "bbbbbb"; py "cccccc"] (py "123456")
                     [] [] _ _) _).
    + repeat constructor; vm_compute; reflexivity.
    + vm_compute. reflexivity.
    + cbn. lia.
  - destruct (proj2 (prompt_three_attempts (P := Toy.prims)
                       (SL := ToyFacts.sha_length)
                       (CliSession.init SavedDisk.disk)
                       [py "aaaaaa"] (py "123456") [] []
                       ltac:(repeat constructor; vm_compute; reflexivity)
                       ltac:(vm_compute; reflexivity))
                ltac:(cbn; lia))
      as (kd & pw & _ & _ & E).
    cbn [app] in E. rewrite E. reflexivity.
Defined.

(** X15. no usable key file, no session.  With the key file absent or
    unreadable, [verify_password] rejects every password, and neither
    [_set_password_with_saved_key] nor the prompt at start-up changes the
    command line: no session is opened and [password_set] keeps its
    value. *)
Theorem no_key_file_no_session {P : Primitives} (self : CliSession.t)
    (password : str) (typed : list str) (rnd : bytes) :
  ConfigManager.file (config_manager self) = ConfigManager.Absent
  \/ ConfigManager.file (config_manager self) = ConfigManager.Corrupt ->
  ConfigManager.verify_password (config_manager self) password = false
  /\ _set_password_with_saved_key self password rnd = self
  /\ _prompt_for_saved_password self typed rnd = self.
Proof.
  intros H.
  assert (Hl : ConfigManager.load_key_data (config_manager self) = None).
  { unfold ConfigManager.load_key_data. now destruct H as [-> | ->]. }
  assert (Hv : forall p,
             ConfigManager.verify_password (config_manager self) p = false).
  { intros p. unfold ConfigManager.verify_password. now rewrite Hl. }
  split; [ apply Hv | ]. split.
  - unfold _set_password_with_saved_key. now rewrite Hl.
  - apply prompt_all_wrong. apply Forall_forall. intros p _. apply Hv.
Qed.

Lemma no_key_file_no_session_witness :
  _prompt_for_saved_password (P := Toy.prims)
    (CliSession.init {| ConfigManager.file := ConfigManager.Corrupt;
                        ConfigManager.write_fails := false |})
    [py "123456"] []
  = CliSession.init {| ConfigManager.file := ConfigManager.Corrupt;
                       ConfigManager.write_fails := false |}.
Proof.
  refine (proj2 (proj2 (no_key_file_no_session (P := Toy.prims) _ (py "x")
                          [py "123456"] [] _))).
  right. reflexivity.
Defined.

Lemma hex_digits (b : bytes) :
  forallb SettingsVocab.is_hexdigit (Hex.hex b) = true.
Proof.
  unfold Hex.hex. induction b as [| x b IH]; [ reflexivity | ].
  cbn [flat_map app forallb]. rewrite IH.
  pose proof (Byte.to_N_bounded x).
  assert (H1 : Byte.to_N x / 16 < 16)
    by (apply N.Div0.div_lt_upper_bound; lia).
  assert (H2 : Byte.to_N x mod 16 < 16) by (apply N.mod_lt; lia).
  revert H1 H2. generalize (Byte.to_N x / 16), (Byte.to_N x mod 16).
  intros a c Ha Hc. unfold SettingsVocab.is_hexdigit, Hex.hexdigit.
  destruct (N.ltb_spec a 10), (N.ltb_spec c 10); lia.
Qed.

(** X16. the fingerprint.  For every Unicode password and every salt,
    [generate_key_hash] returns 64 lowercase hexadecimal digits. *)
Theorem key_hash_format {P : Primitives} {SL : Sha256Length P}
    (password : str) (salt : bytes) :
  Utf8.unicode_text password ->
  exists h,
    KeyHash.generate_key_hash password salt = Ok h
    /\ length h = 64%nat
    /\ forallb SettingsVocab.is_hexdigit h = true.
Proof.
  intros Hu. destruct (generate_key_hash_ok password salt Hu) as (data & _ & ->).
  eexists. split; [ reflexivity | ]. split.
  - rewrite hex_length, sha256_length. reflexivity.
  - apply hex_digits.
Qed.

Lemma key_hash_format_witness :
  exists h,
    KeyHash.generate_key_hash (P := Toy.prims) (py "123456") salt0 = Ok h
    /\ length h = 64%nat
    /\ forallb SettingsVocab.is_hexdigit h = true.
Proof.
  apply (key_hash_format (P := Toy.prims) (SL := ToyFacts.sha_length)).
  repeat constructor.
Defined.

Lemma after_setting_in_range (values : list Z) : forall settings,
  (5 <= Cli.temporary_decrypt_duration settings <= 300)%Z ->
  (5 <= Cli.temporary_decrypt_duration
          (SettingsVocab.after_setting settings values) <= 300)%Z.
Proof.
  unfold SettingsVocab.after_setting.
  induction values as [| v values IH]; intros settings H; [ exact H | ].
  cbn [fold_left]. apply IH.
  unfold Cli.set_temporary_decrypt_duration.
  destruct ((5 <=? v)%Z && (v <=? 300)%Z) eqn:E; [ | exact H ].
  unfold Cli.temporary_decrypt_duration.
  cbn [Cli.stored_temporary_decrypt_duration]. lia.
Qed.

(** X17. the default duration stays in range.  Starting from a configuration
    in which the duration was never stored, whatever values the setter is
    called with, the duration read back lies between 5 and 300 seconds (10
    when nothing was accepted), and that is the duration the command
    [temporary_decrypt] of the command line hands to the clipboard
    manager. *)
Theorem default_duration_in_range (crypto : ClipboardManager.CryptoOps)
    (values : list Z) (s : ClipboardManager.t) (w : ClipboardManager.World) :
  let settings := SettingsVocab.after_setting SettingsVocab.unset values in
  let d := Cli.temporary_decrypt_duration settings in
  (5 <= d <= 300)%Z
  /\ Cli.temporary_decrypt_duration SettingsVocab.unset = 10%Z
  /\ Cli.cli_temporary_decrypt crypto true settings s w
     = ClipboardManager.temporary_decrypt crypto d s
         (ClipboardManager.log
            (ClipboardManager.Print
               (ClipboardManager.AnnounceTemporaryDecrypt d)) w).
Proof.
  cbv zeta. split; [ | split ].
  - apply after_setting_in_range. cbn. lia.
  - reflexivity.
  - reflexivity.
Qed.

End SessionExtras.

(** ** Direct paste *)

Module PasteExtras.
Import ClipboardManager DirectPaste.

Lemma type_chars_spec (text : str) : forall w,
  type_chars text w =
  {| clipboard := clipboard w;
     paste_fails := paste_fails w;
     type_fails := type_fails w;
     typed := typed w ++ accepted w text;
     clock := (clock w + Z.of_nat (length (accepted w text)))%Z |}.
Proof.
  unfold accepted. induction text as [| c text IH]; intros w.
  - cbn. rewrite app_nil_r, Z.add_0_r. now destruct w.
  - cbn [type_chars filter].
    destruct (type_fails w c) eqn:E; cbn [negb].
    + apply IH.
    + rewrite IH. cbn [clipboard paste_fails type_fails typed clock length].
      rewrite <- app_assoc. cbn [app]. f_equal. lia.
Qed.

(** X18. direct paste.  [decrypt_and_paste] returns [False] and does nothing
    when typing is unavailable, no crypto manager is set, the clipboard
    cannot be read or is empty.  Otherwise it returns [True] and types, in
    order, the characters the keyboard accepts of the decrypted text, or
    of the clipboard content itself when decryption raises or gives the
    empty text.  In every case the clipboard is left as it was. *)
Theorem decrypt_and_paste_types (self : DirectPaste.t) (w : DirectPaste.World) :
  let x := decrypt_and_paste self w in
  clipboard (snd x) = clipboard w
  /\ (is_available self = false \/ crypto_manager self = None
      \/ paste_fails w = true \/ clipboard w = [] ->
      x = (false, w))
  /\ (forall crypto,
        is_available self = true -> crypto_manager self = Some crypto ->
        paste_fails w = false -> clipboard w <> [] ->
        fst x = true
        /\ typed (snd x)
           = typed w
             ++ accepted w
                  (match co_decrypt crypto (clipboard w) with
                   | Ok [] => clipboard w
                   | Ok text => text
                   | Raise _ => clipboard w
                   end)).
Proof.
  cbv zeta. unfold decrypt_and_paste.
  destruct (is_available self) eqn:Ha; cbn [negb].
  2:{ repeat split; intros; discriminate. }
  destruct (crypto_manager self) as [crypto |] eqn:Hc.
  2:{ repeat split; intros; discriminate. }
  destruct (paste_fails w) eqn:Hp.
  { repeat split; intros; discriminate. }
  destruct (clipboard w) as [| c0 content] eqn:Hcl.
  { split; [ exact Hcl | ]. split; [ reflexivity | ].
    intros crypto' _ _ _ N. now contradiction N. }
  assert (Hk : keyboard_controller self = true).
  { unfold is_available in Ha. now apply andb_prop in Ha. }
  unfold _type_text. rewrite Hk. cbn [negb fst snd].
  rewrite type_chars_spec. cbn [clipboard typed]. unfold accepted.
  cbn [type_fails].
  split; [ exact Hcl | ]. split.
  - intros [H | [H | [H | H]]]; discriminate.
  - intros crypto' _ E _ _. injection E as <-. split; reflexivity.
Qed.

Lemma decrypt_and_paste_types_witness :
  let self := {| PYNPUT_AVAILABLE := true;
                 keyboard_controller := true;
                 crypto_manager := Some Scenario.toy_ops |} in
  let w := {| clipboard := Scenario.envelope_of (py "secret");
              paste_fails := false;
              type_fails := fun c => c =? 0x65;
              typed := [];
              clock := 0 |} in
  typed (snd (decrypt_and_paste self w)) = py "scrt".
Proof.
  cbv zeta.
  destruct (decrypt_and_paste_types
              {| PYNPUT_AVAILABLE := true;
                 keyboard_controller := true;
                 crypto_manager := Some Scenario.toy_ops |}
              {| clipboard := Scenario.envelope_of (py "secret");
                 paste_fails := false;
                 type_fails := fun c => c =? 0x65;
                 typed := [];
                 clock := 0 |}) as (_ & _ & H).
  destruct (H Scenario.toy_ops eq_refl eq_refl eq_refl) as [_ Ht].
  - vm_compute. discriminate.
  - rewrite Ht. vm_compute. reflexivity.
Defined.

End PasteExtras.

(** ** The hotkey format *)

Module HotkeyExtras.
Import HotkeyFormat.

Lemma split_nonempty (sep : N) (s : str) : split sep s <> [].
Proof.
  destruct s as [| c r]; cbn [split]; [ discriminate | ].
  destruct (c =? sep); [ discriminate | ].
  destruct (split sep r); discriminate.
Qed.

(** Joining the parts gives the text back. *)
Lemma join_split (sep : N) (s : str) : join sep (split sep s) = s.
Proof.
  induction s as [| c r IH]; [ reflexivity | ].
  cbn [split]. destruct (N.eqb_spec c sep) as [-> | Hne].
  - pose proof (split_nonempty sep r) as Hn.
    destruct (split sep r) as [| p ps] eqn:E; [ contradiction | ].
    cbn [join app]. cbn [join] in IH. now rewrite IH.
  - pose proof (split_nonempty sep r) as Hn.
    destruct (split sep r) as [| p ps] eqn:E; [ contradiction | ].
    cbn [join] in *. destruct ps as [| q qs].
    + now subst r.
    + cbn [app]. now rewrite IH.
Qed.

(** Splitting a join of parts without the separator gives the parts. *)
Lemma split_part (sep : N) (p : str) (rest : str) :
  ~ In sep p ->
  split sep (p ++ sep :: rest) = p :: split sep rest.
Proof.
  induction p as [| c p IH]; intros Hp; cbn [app split].
  - now rewrite N.eqb_refl.
  - destruct (N.eqb_spec c sep) as [-> | Hne].
    + exfalso. apply Hp. now left.
    + rewrite IH by (intros H; apply Hp; now right). reflexivity.
Qed.

Lemma split_single (sep : N) (p : str) : ~ In sep p -> split sep p = [p].
Proof.
  induction p as [| c p IH]; intros Hp; cbn [split]; [ reflexivity | ].
  destruct (N.eqb_spec c sep) as [-> | Hne].
  - exfalso. apply Hp. now left.
  - rewrite IH by (intros H; apply Hp; now right). reflexivity.
Qed.

Lemma split_join (sep : N) (parts : list str) :
  parts <> [] -> Forall (fun p => ~ In sep p) parts ->
  split sep (join sep parts) = parts.
Proof.
  induction parts as [| p ps IH]; intros Hn Hf; [ contradiction | ].
  inversion Hf as [| ? ? Hp Hps]; subst.
  destruct ps as [| q qs].
  - cbn [join]. now apply split_single.
  - change (join sep (p :: q :: qs)) with (p ++ sep :: join sep (q :: qs)).
    rewrite split_part by exact Hp. rewrite IH; [ reflexivity | discriminate
                                                 | exact Hps ].
Qed.

Lemma member_In (x : str) (l : list str) : member x l = true <-> In x l.
Proof.
  unfold member. rewrite existsb_exists. split.
  - intros (y & Hy & E). unfold str_eqb in E.
    destruct (list_eq_dec N.eq_dec x y); [ now subst | discriminate ].
  - intros H. exists x. split; [ exact H | ].
    unfold str_eqb. now destruct (list_eq_dec N.eq_dec x x).
Qed.

Lemma names_without_plus (x : str) :
  In x valid_modifiers \/ In x valid_keys -> ~ In plus x.
Proof.
  assert (F : forallb (fun n => negb (existsb (N.eqb plus) n))
                (valid_modifiers ++ valid_keys) = true)
    by (vm_compute; reflexivity).
  intros H Hin.
  assert (Hx : In x (valid_modifiers ++ valid_keys))
    by (apply in_or_app; exact H).
  apply (proj1 (forallb_forall _ _) F) in Hx.
  apply negb_true_iff in Hx.
  assert (existsb (N.eqb plus) x = true).
  { apply existsb_exists. exists plus. split; [ exact Hin | apply N.eqb_refl ]. }
  congruence.
Qed.

(** X19. the accepted hotkeys.  [_validate_hotkey_format] accepts a text
    exactly when it is one or more of the modifier names ctrl, alt, shift,
    cmd, meta, super followed by one key (a lowercase letter, a digit, or
    f1 to f12), all joined by [+]; a key alone, an empty part or a name in
    upper case is refused. *)
Theorem hotkey_format_accepted (hotkey : str) :
  _validate_hotkey_format hotkey = true <->
  exists modifiers key,
    modifiers <> []
    /\ Forall (fun m => In m valid_modifiers) modifiers
    /\ In key valid_keys
    /\ hotkey = join plus (modifiers ++ [key]).
Proof.
  unfold _validate_hotkey_format. cbv zeta. split.
  - destruct (Nat.ltb_spec (length (split plus hotkey)) 2) as [Hl | Hl];
      [ discriminate | ].
    destruct (forallb _ (removelast (split plus hotkey))) eqn:Hm;
      cbn [negb]; [ | discriminate ].
    destruct (member (last (split plus hotkey) []) valid_keys) eqn:Hk;
      cbn [negb]; [ intros _ | discriminate ].
    exists (removelast (split plus hotkey)), (last (split plus hotkey) []).
    pose proof (split_nonempty plus hotkey) as Hn.
    pose proof (app_removelast_last [] Hn) as Hsplit.
    split; [ | split; [ | split ] ].
    + intros E. unfold str in *. rewrite E in Hsplit. rewrite Hsplit in Hl.
      cbn in Hl. lia.
    + apply Forall_forall. intros m Hin.
      apply member_In. exact (proj1 (forallb_forall _ _) Hm m Hin).
    + now apply member_In.
    + transitivity (join plus (split plus hotkey));
        [ symmetry; apply join_split | exact (f_equal (join plus) Hsplit) ].
  - intros (modifiers & key & Hn & Hm & Hk & ->).
    assert (Hs : split plus (join plus (modifiers ++ [key]))
                 = modifiers ++ [key]).
    { apply split_join.
      - intros E. apply app_eq_nil in E. destruct E; discriminate.
      - apply Forall_app. split.
        + apply Forall_forall. intros m Hin.
          apply names_without_plus. left.
          exact (proj1 (Forall_forall _ _) Hm m Hin).
        + constructor; [ | constructor ].
          apply names_without_plus. now right. }
    rewrite Hs, removelast_last, last_last.
    destruct (Nat.ltb_spec (length (modifiers ++ [key])) 2) as [Hl | Hl].
    { rewrite length_app in Hl. cbn [length] in Hl.
      destruct modifiers; [ contradiction | cbn [length] in Hl; lia ]. }
    assert (Hf : forallb (fun modifier => member modifier valid_modifiers)
                   modifiers = true).
    { apply forallb_forall. intros m Hin. apply member_In.
      exact (proj1 (Forall_forall _ _) Hm m Hin). }
    rewrite Hf. cbn [negb].
    apply member_In in Hk. now rewrite Hk.
Qed.

(** Three texts the check is run on. *)
Lemma hotkey_format_examples :
  _validate_hotkey_format (py "ctrl+shift+v") = true
  /\ _validate_hotkey_format (py "v") = false
  /\ _validate_hotkey_format (py "ctrl+") = false
  /\ _validate_hotkey_format (py "Ctrl+V") = false.
Proof. repeat split; vm_compute; reflexivity. Qed.

End HotkeyExtras.
